(** * finance_notifier: corridor alerts, news links and state storage

    A shallow embedding of the alert decision engine of the repository
    ([src/app/core.py], [src/agent/stock_agent.py], [src/app/state.py],
    [src/app/news.py]), of the company names and keywords it searches
    the news with ([src/app/company.py]) and of the times of day its
    settings page writes ([src/gui/app.py]), with the properties its
    specification states and further properties of the code.

    Conventions of the embedding.
    - A Python [float] is the rational ([Q]) it denotes; [nan] and the
      infinities are not represented.  Comparison and negation are
      exact on doubles; subtraction, multiplication and division round
      their result to the nearest double ([b64]).
    - A Python [str] is a [string]; a [dict] with string keys is a
      [gmap string _]; a [set] of strings is a [gset string].
    - A call that can raise returns a [result]; a [try] with its
      [except Exception] is [try_except] or [settled] on results and
      [try_catch] on the computations of a run.
    - Functions of the Python standard library and of third party
      packages (urllib, re, requests, string formatting) are fields of
      the record [pylib]; the collaborators of one loop iteration (price
      feed, headline feed, advisory model, push service, disk) are the
      fields of [ticker_env].
    - The world of a run is the state mapping in memory, the files
      that hold a state, company_cache.json (which stands in the
      package directory and is taken to be no state file) and the log
      of what the run did.  A [write_text] that raises may have emptied
      the file first.  The lines a run logs or prints are not part of
      the world; the time-zone lookup that one of them makes, and that
      can raise, is. *)

From Stdlib Require Import ZArith QArith Qabs Lqa String Ascii List Bool Lia.
From stdpp Require Import gmap strings list.
Import ListNotations.

Local Open Scope string_scope.
Local Open Scope Z_scope.
Local Open Scope list_scope.

(** ** Exceptions and results *)

Inductive exn : Type :=
| RuntimeError
| ValueError
| AttributeError
| OSError
| RequestException
| OtherException.

Inductive result (A : Type) : Type :=
| Ok (a : A)
| Raise (e : exn).
Arguments Ok {A} a.
Arguments Raise {A} e.

Definition rbind {A B} (r : result A) (k : A -> result B) : result B :=
  match r with
  | Ok a => k a
  | Raise e => Raise e
  end.

(** [try: body / except Exception: handler]. *)
Definition try_except {A} (body : result A) (handler : exn -> result A) : result A :=
  match body with
  | Ok a => Ok a
  | Raise e => handler e
  end.

Definition is_ok {A} (r : result A) : bool :=
  match r with
  | Ok _ => true
  | Raise _ => false
  end.

Declare Scope result_scope.
Delimit Scope result_scope with result.
Notation "x <- r ;; k" := (rbind r (fun x => k))
  (at level 100, r at next level, right associativity) : result_scope.

(** ** Python values, as [json.loads] produces them *)

#[warnings="-register-all"]
Inductive pyval : Type :=
| PNone
| PBool (b : bool)
| PInt (z : Z)
| PFloat (q : Q)
| PStr (s : string)
| PList (l : list pyval)
| PDict (d : gmap string pyval).

(** [bool(v)]. *)
Definition truthy (v : pyval) : bool :=
  match v with
  | PNone => false
  | PBool b => b
  | PInt z => negb (z =? 0)
  | PFloat q => negb (Qeq_bool q 0)
  | PStr s => negb (String.eqb s "")
  | PList l => match l with [] => false | _ => true end
  | PDict d => negb (bool_decide (d = ∅))
  end.

(** [v == s] and [v != s] for a string [s]. *)
Definition py_eq_str (v : pyval) (s : string) : bool :=
  match v with
  | PStr s' => String.eqb s' s
  | _ => false
  end.

Definition py_ne_str (v : pyval) (s : string) : bool := negb (py_eq_str v s).

(** ** state.py *)

(** A path is represented by what [path.exists()] and then
    [path.read_text(encoding="utf-8")] followed by [json.loads] yield
    on it. *)
Inductive file : Type :=
| Inaccessible (e : exn) (* [exists()] itself raises [e]: the name is too
                            long, a directory on the way may not be searched *)
| Unreadable (e : exn)   (* the file exists; reading or parsing raises [e] *)
| Json (v : pyval).      (* the file exists and its text parses to [v] *)

(** A file system maps the paths that are not simply missing to their
    files. *)
Abbreviation filesystem := (gmap string file).

(** [path.exists()]: it answers for a missing path and raises for one
    that cannot be examined. *)
Definition path_exists (fs : filesystem) (path : string) : result bool :=
  match fs !! path with
  | Some (Inaccessible e) => Raise e
  | Some _ => Ok true
  | None => Ok false
  end.

Definition read_json (fs : filesystem) (path : string) : result pyval :=
  match fs !! path with
  | Some (Json v) => Ok v
  | Some (Unreadable e) => Raise e
  | Some (Inaccessible e) => Raise e
  | None => Raise OSError
  end.


(** [load_state]: the test [path.exists()] stands before the [try];
    the [try] body either returns the parsed dict or falls through to
    the final [return {}]. *)
Definition load_state (fs : filesystem) (path : string) : result (gmap string pyval) :=
  (there <- path_exists fs path ;;
   fallthrough <-
     (if there : bool then
        try_except
          (data <- read_json fs path ;;
           match data with
           | PDict d => Ok (Some d)
           | _ => Ok None
           end)
          (fun _ => Ok None)
      else Ok None) ;;
   match fallthrough with
   | Some d => Ok d
   | None => Ok ∅
   end)%result.

(** ** Binary64 arithmetic *)

(** The integer nearest to [n / d] for a positive [d], ties to the
    even one. *)
Definition nearest_even (n d : Z) : Z :=
  let f := n / d in
  let r2 := 2 * (n mod d) in
  if r2 <? d then f
  else if d <? r2 then f + 1
  else if Z.even f then f else f + 1.

(** [2 ^ e <= n / d], for positive [n] and [d]. *)
Definition at_least_pow2 (e n d : Z) : bool :=
  if 0 <=? e then d * 2 ^ e <=? n else d <=? n * 2 ^ (- e).

(** The double nearest to [q]: round to nearest, ties to even, with 53
    significant bits and gradual underflow below [2 ^ -1022].  A value
    beyond the largest double rounds to an infinity in the code and is
    outside the model. *)
Definition b64 (q : Q) : Q :=
  let n := Z.abs (Qnum q) in
  let d := Z.pos (Qden q) in
  if n =? 0 then 0%Q
  else
    let e0 := Z.log2 n - Z.log2 d in
    (* [2 ^ e <= n / d < 2 ^ (e + 1)] *)
    let e := if at_least_pow2 e0 n d then e0 else e0 - 1 in
    (* the weight of the last place *)
    let x := Z.max (e - 52) (-1074) in
    let m := if 0 <=? x then nearest_even n (d * 2 ^ x)
             else nearest_even (n * 2 ^ (- x)) d in
    let m := if Qnum q <? 0 then - m else m in
    if 0 <=? x then inject_Z (m * 2 ^ x)
    else Qmake m (Z.to_pos (2 ^ (- x))).

(** ** Percentage change and the direction classifier *)

Definition Qge_bool (a b : Q) : bool := Qle_bool b a.

(** [_pct_change] in core.py and [pct_change] in stock_agent.py:
    [(last_price - open_price) / open_price * 100.0], each operation
    rounded.  A price that is written as a rational which is no double
    stands for the double nearest to it. *)
Definition pct_change (open_price last_price : Q) : Q :=
  if Qeq_bool open_price 0 then 0%Q
  else
    let o := b64 open_price in
    let l := b64 last_price in
    b64 (b64 (b64 (l - o) / o) * 100).

Arguments b64 : simpl never.
Arguments pct_change : simpl never.

(** core.py line 199 and stock_agent.py line 181: the same expression. *)
Definition classify (pct threshold_pct : Q) : string :=
  if Qge_bool pct threshold_pct then "up"
  else if Qle_bool pct (- threshold_pct)%Q then "down"
  else "none".

(** ** Market hours *)

(** The wall clock of [now_tz(tz)]: a proleptic ordinal day (as
    [date.toordinal()]) and the time of day. *)
Record datetime : Type := {
  dt_ordinal : Z;
  dt_hour : Z;
  dt_minute : Z;
  dt_second : Z;
  dt_microsecond : Z;
}.

(** [n.weekday()]: Monday is 0. *)
Definition weekday (n : datetime) : Z := (dt_ordinal n + 6) mod 7.

(** [n.replace(hour=hh, minute=mm, second=0, microsecond=0)]. *)
Definition replace_time (n : datetime) (hh mm : Z) : result datetime :=
  if (0 <=? hh) && (hh <=? 23) && (0 <=? mm) && (mm <=? 59)
  then Ok {| dt_ordinal := dt_ordinal n; dt_hour := hh; dt_minute := mm;
             dt_second := 0; dt_microsecond := 0 |}
  else Raise ValueError.

(** Microseconds since the start of ordinal day 0: the order of two
    datetimes that carry the same [tzinfo]. *)
Definition dt_key (n : datetime) : Z :=
  (((dt_ordinal n * 24 + dt_hour n) * 60 + dt_minute n) * 60 + dt_second n) * 1000000
  + dt_microsecond n.

Definition dt_le (a b : datetime) : bool := dt_key a <=? dt_key b.

(** The fields of a datetime are in their ranges. *)
Definition valid_datetime (n : datetime) : Prop :=
  0 <= dt_hour n <= 23 /\ 0 <= dt_minute n <= 59 /\
  0 <= dt_second n <= 59 /\ 0 <= dt_microsecond n <= 999999.

(** Schema A, with ["HH:MM"] already split and converted. *)
Record schema_a : Type := {
  mh_open : Z * Z;
  mh_close : Z * Z;
  mh_active_days : list Z;
  mh_pause_on_closed : bool;
}.

(** Schema B. *)
Record schema_b : Type := {
  mb_enabled : bool;
  mb_start_hour : Z;
  mb_end_hour : Z;
  mb_days_mon_to_fri_only : bool;
}.

Inductive market_hours_cfg : Type :=
| SchemaA (a : schema_a)
| SchemaB (b : schema_b).

Definition in_days (wk : Z) (days : list Z) : bool :=
  existsb (Z.eqb wk) days.

(** The part of both checks after the early return on [pause]. *)
Definition window_a (a : schema_a) (n : datetime) : result bool :=
  let wk := weekday n + 1 in
  if negb (match mh_active_days a with [] => false | _ => true end)
     || in_days wk (mh_active_days a)
  then
    (start <- replace_time n (fst (mh_open a)) (snd (mh_open a)) ;;
     end_ <- replace_time n (fst (mh_close a)) (snd (mh_close a)) ;;
     Ok (dt_le start n && dt_le n end_))%result
  else Ok false.

(** core.py [is_market_hours]. *)
Definition is_market_hours (cfg : market_hours_cfg) (n : datetime) : result bool :=
  match cfg with
  | SchemaA a =>
      if negb (mh_pause_on_closed a) then Ok true
      else window_a a n
  | SchemaB b =>
      if negb (mb_enabled b) then Ok true
      else if mb_days_mon_to_fri_only b && (5 <=? weekday n) then Ok false
      else Ok ((mb_start_hour b <=? dt_hour n) && (dt_hour n <? mb_end_hour b))
  end.

(** stock_agent.py [within_market_hours]. *)
Definition within_market_hours (a : schema_a) (n : datetime) : result bool :=
  if negb (mh_pause_on_closed a) then Ok true
  else window_a a n.

(** ** Strings *)

Definition nl : string := String "010"%char EmptyString.

(** [needle in hay]. *)
Fixpoint contains (needle hay : string) : bool :=
  String.prefix needle hay ||
  match hay with
  | EmptyString => false
  | String _ rest => contains needle rest
  end.

(** [u.startswith(("http://", "https://"))]. *)
Definition has_http_scheme (u : string) : bool :=
  String.prefix "http://" u || String.prefix "https://" u.

(** [u.lstrip("/")]. *)
Fixpoint lstrip_slash (u : string) : string :=
  match u with
  | String c rest => if Ascii.eqb c "/"%char then lstrip_slash rest else u
  | EmptyString => EmptyString
  end.

(** [_ensure_https] of core.py and news.py, and the local
    [ensure_https] of [_extract_original_url]: three copies of one body. *)
Definition ensure_https (u : string) : string :=
  if String.eqb u "" then ""
  else if has_http_scheme u then u
  else "https://" +:+ lstrip_slash u.

Fixpoint drop_chars (n : nat) (s : string) : string :=
  match n, s with
  | S n', String _ rest => drop_chars n' rest
  | _, _ => s
  end.

(** [s.replace(old, new)] for a non-empty [old]: [skip] counts the
    characters of a match that are still to be passed over. *)
Fixpoint replace_from (old new : string) (skip : nat) (s : string) : string :=
  match s with
  | EmptyString => EmptyString
  | String c rest =>
      match skip with
      | S k => replace_from old new k rest
      | O =>
          if String.prefix old s
          then new +:+ replace_from old new (String.length old - 1) rest
          else String c (replace_from old new O rest)
      end
  end.

Definition str_replace (old new s : string) : string := replace_from old new O s.

(** ** Library functions the code calls *)

(** The six components of [urllib.parse.urlparse]. *)
Record url_parts : Type := {
  u_scheme : string;
  u_netloc : string;
  u_path : string;
  u_params : string;
  u_query : string;
  u_fragment : string;
}.

Definition with_path (p : url_parts) (path : string) : url_parts :=
  {| u_scheme := u_scheme p; u_netloc := u_netloc p; u_path := path;
     u_params := u_params p; u_query := u_query p; u_fragment := u_fragment p |}.

Definition with_query (p : url_parts) (query : string) : url_parts :=
  {| u_scheme := u_scheme p; u_netloc := u_netloc p; u_path := u_path p;
     u_params := u_params p; u_query := query; u_fragment := u_fragment p |}.

(** One entry of [r.history]: its [Location] header (empty when
    absent) and its own URL. *)
Record hop : Type := {
  h_location : string;
  h_url : string;
}.

(** What the resolver reads of a [requests.Response]. *)
Record response : Type := {
  r_history : list hop;
  r_url : string;
  r_text : string;
}.

Record pylib : Type := {
  (* str *)
  strip : string -> string;
  lower : string -> string;
  fmt_2f : Q -> string;          (* the format spec .2f *)
  fmt_signed_2f : Q -> string;   (* the format spec +.2f *)
  py_str : pyval -> string;      (* str(v) *)
  (* urllib.parse *)
  urlparse : string -> result url_parts;
  urlunparse : url_parts -> string;
  parse_qs : string -> gmap string (list string);
  unquote : string -> string;
  (* requests.get(url, allow_redirects=True, timeout=..., headers=...),
     a fixed function of the requested URL *)
  http_get : string -> result response;
  (* re.search(pattern, html, re.I), the group the code reads *)
  re_canonical : string -> option string;
  re_refresh : string -> option string;
  re_js_location : string -> option string;
  re_href_url : string -> option string;
  (* re.findall of the absolute http(s) URLs in the page *)
  re_absolute_urls : string -> list string;
  (* re.search of the google.* / gstatic.com host pattern in a candidate *)
  re_google_host : string -> bool;
  (* re.sub of the tracking parameters (ved, usg, utm_*, si, sca_esv,
     gws_*, opi) by the empty string *)
  re_strip_tracking : string -> string;
}.

(** ** news.py: the URL resolver *)

(** The value of a handled block that cannot raise any more. *)
Definition settled {A} (r : result A) (fallback : A) : A :=
  match r with
  | Ok a => a
  | Raise _ => fallback
  end.

(** The nested function [consent_continue]. *)
Definition consent_continue (L : pylib) (u : string) : result (option string) :=
  (p <- urlparse L u ;;
   if negb (contains "consent.google." (u_netloc p)) then Ok None
   else
     let qs := parse_qs L (u_query p) in
     let cont :=
       match qs !! "continue" with
       | Some (c :: cs) => Some (c :: cs)
       | _ => qs !! "continue_url"
       end in
     match cont with
     | Some (c :: _) =>
         if negb (String.eqb c "") then Ok (Some (ensure_https (unquote L c)))
         else Ok None
     | _ => Ok None
     end)%result.

(** A returned string counts in [if cc:] when it is not empty. *)
Definition nonempty (o : option string) : option string :=
  match o with
  | Some s => if String.eqb s "" then None else Some s
  | None => None
  end.

(** The loop over [r.history] (3a). *)
Fixpoint consent_in_history (L : pylib) (hs : list hop) : result (option string) :=
  match hs with
  | [] => Ok None
  | h :: rest =>
      let u := if String.eqb (h_location h) "" then h_url h else h_location h in
      (cont <- consent_continue L u ;;
       match nonempty cont with
       | Some c => Ok (Some c)
       | None => consent_in_history L rest
       end)%result
  end.

(** Steps 3c to 3e on the body of the page. *)
Definition from_html (L : pylib) (html : string) : option string :=
  match re_canonical L html with
  | Some g => Some (ensure_https (unquote L g))
  | None =>
  match re_refresh L html with
  | Some g => Some (ensure_https (unquote L g))
  | None =>
  match re_js_location L html with
  | Some g => Some (ensure_https (unquote L g))
  | None =>
  match re_href_url L html with
  | Some g => Some (ensure_https (unquote L g))
  | None =>
  match List.find (fun cand => negb (re_google_host L cand)) (re_absolute_urls L html) with
  | Some cand => Some (ensure_https (unquote L cand))
  | None => None
  end end end end end.

(** The body of the [try] around [requests.get]: [Some u] when it
    returns [u], [None] when it runs to its end. *)
Definition follow_redirects (L : pylib) (url : string) : result (option string) :=
  (r <- http_get L url ;;
   cont <- consent_in_history L (r_history r) ;;
   match cont with
   | Some c => Ok (Some c)
   | None =>
       if negb (String.eqb (r_url r) "")
          && negb (contains "google.com" (r_url r))
          && negb (contains "google." (r_url r))
       then Ok (Some (ensure_https (r_url r)))
       else Ok (from_html L (r_text r))
   end)%result.

(** Step 1: [Some u] when the [?url=] parameter is returned. *)
Definition direct_redirect (L : pylib) (url : string) : result (option string) :=
  (p <- urlparse L url ;;
   if contains "news.google." (u_netloc p) then
     match parse_qs L (u_query p) !! "url" with
     | Some (v :: _) => Ok (Some (ensure_https (unquote L v)))
     | _ => Ok None
     end
   else Ok None)%result.

(** Step 3: [/rss/articles/] becomes [/articles/]. *)
Definition rewrite_rss_path (L : pylib) (url : string) : result string :=
  (p <- urlparse L url ;;
   if contains "news.google." (u_netloc p) && contains "/rss/articles/" (u_path p)
   then Ok (urlunparse L (with_path p (str_replace "/rss/articles/" "/articles/" (u_path p))))
   else Ok url)%result.

(** Step 4: [Some u] when a tracking parameter was removed. *)
Definition strip_tracking (L : pylib) (url : string) : result (option string) :=
  (p <- urlparse L url ;;
   let clean_q := re_strip_tracking L (u_query p) in
   if negb (String.eqb clean_q (u_query p))
   then Ok (Some (urlunparse L (with_query p clean_q)))
   else Ok None)%result.

Definition _extract_original_url (L : pylib) (resolve_redirects : bool) (link : string)
  : result string :=
  let url := ensure_https link in
  match settled (direct_redirect L url) None with
  | Some u => Ok u
  | None =>
  (* the call of [consent_continue] stands outside every [try] *)
  (cc <- consent_continue L url ;;
   match nonempty cc with
   | Some u => Ok u
   | None =>
   let url := settled (rewrite_rss_path L url) url in
   if negb resolve_redirects then Ok url
   else
     match settled (follow_redirects L url) None with
     | Some u => Ok u
     | None =>
       match settled (strip_tracking L url) None with
       | Some u => Ok u
       | None => Ok url
       end
     end
   end)%result
  end.

(** ** Headline items and their formatting (core.py, news.py) *)

(** A headline as [fetch_headlines] builds it: a dict with the keys
    [title], [source], [url] (or [link]) and [published]. *)
Abbreviation item := (gmap string string).

(** [it.get(k) or ""]. *)
Definition field (it : item) (k : string) : string := default "" (it !! k).

(** [a or b] on strings. *)
Definition or_str (a b : string) : string := if String.eqb a "" then b else a.

Definition _item_url (L : pylib) (it : item) : string :=
  ensure_https (strip L (or_str (field it "url") (field it "link"))).

(** [filter_titles]. *)
Definition filter_titles (L : pylib) (items : list item) (required_keywords : list string)
  : list item :=
  let req :=
    List.map (fun k => lower L (strip L k))
      (List.filter (fun k => negb (String.eqb k "") && negb (String.eqb (strip L k) ""))
         required_keywords) in
  match req with
  | [] => items
  | _ =>
      List.filter
        (fun it => existsb (fun k => contains k (lower L (field it "title"))) req)
        items
  end.

(** One bullet of the headline block. *)
Record entry : Type := {
  e_title : string;
  e_orig : string;
  e_src : string;
}.

(** The canonical URL [_format_headlines] uses for an item: the
    resolver's answer, or the item's own URL when the resolver raises. *)
Definition canonical (L : pylib) (it : item) : string :=
  settled (_extract_original_url L true (_item_url L it)) (_item_url L it).

(** An item the loop does not skip for want of a title or a URL. *)
Definition usable (L : pylib) (it : item) : bool :=
  negb (String.eqb (strip L (field it "title")) "")
  && negb (String.eqb (_item_url L it) "").

Definition entry_of (L : pylib) (it : item) : entry :=
  {| e_title := strip L (field it "title");
     e_orig := canonical L it;
     e_src := strip L (field it "source") |}.

(** The loop of [_format_headlines] with its set [seen]. *)
Fixpoint format_loop (L : pylib) (seen : gset string) (items : list item) : list entry :=
  match items with
  | [] => []
  | it :: rest =>
      if negb (usable L it) then format_loop L seen rest
      else
        let orig := canonical L it in
        if bool_decide (orig ∈ seen) then format_loop L seen rest
        else entry_of L it :: format_loop L ({[orig]} ∪ seen) rest
  end.

(** The two lines appended for a surviving item. *)
Definition render (e : entry) : list string :=
  let src_part := if String.eqb (e_src e) "" then "" else " — " +:+ e_src e in
  [ "• [" +:+ e_title e +:+ "](" +:+ e_orig e +:+ ")" +:+ src_part;
    "   🔗 " +:+ e_orig e ].

Definition headline_entries (L : pylib) (items : list item) : list entry :=
  format_loop L ∅ items.

Definition _format_headlines (L : pylib) (items : list item) : string :=
  String.concat nl (List.flat_map render (headline_entries L items)).

Definition _format_title (ticker : string) : string := "Stock Alert: " +:+ ticker.

Definition _format_body (L : pylib) (ticker : string) (open_price last_price pct : Q) : string :=
  let arrow := if Qge_bool pct 0 then "📈" else "📉" in
  arrow +:+ " " +:+ ticker +:+ ": " +:+ fmt_signed_2f L pct +:+ "% vs. Open" +:+ nl
  +:+ "Aktuell: " +:+ fmt_2f L last_price +:+ " | Open: " +:+ fmt_2f L open_price.

(** ** The collaborators of one loop iteration *)

Record ticker_env : Type := {
  te_price : result (Q * Q);                   (* get_open_and_last(tk) *)
  te_query : result string;                    (* news_query_for_ticker(tk) *)
  te_keywords : result (list string);          (* auto_keywords(tk)[1] *)
  te_headlines : result (list item);           (* fetch_headlines, first locale *)
  te_headlines_fallback : result (list item);  (* fetch_headlines, fallback locale *)
  te_advice : result pyval;                    (* the chat completion, through json.loads *)
  te_notify : result unit;                     (* notify_ntfy(...) *)
  te_write : result unit;                      (* path.write_text(...) of save_state *)
  te_truncates : bool;                         (* a write_text that raises had opened,
                                                  and so emptied, the file *)
  te_cache : option file;                      (* what the calls of get_company_meta leave
                                                  in company_cache.json when they write it *)
}.

(** core.py lines 209 to 268: the news block appended to the body and
    the click URL.  [enrichment] gives the values these lines compute;
    their effect on company_cache.json, which [news_query_for_ticker]
    and [auto_keywords] write through [get_company_meta], is
    [company_lookup] below, and [ticker_body] runs it first. *)
Definition click_of (L : pylib) (items : list item) : option string :=
  match items with
  | it :: _ => Some (canonical L it)
  | [] => None
  end.

Definition enrichment (L : pylib) (enabled : bool) (e : ticker_env)
  : result (string * option string) :=
  if negb enabled then Ok ("", None)
  else
    (_ <- te_query e ;;
     let req_kw := settled (te_keywords e) [] in
     let keep (items : list item) :=
       match req_kw with [] => items | _ => filter_titles L items req_kw end in
     items <- te_headlines e ;;
     let items := keep items in
     let click_url := click_of L items in
     let text := _format_headlines L items in
     found <-
        (if String.eqb text "" then
           (items <- te_headlines_fallback e ;;
            let items := keep items in
            let click_url :=
              match nonempty click_url with
              | Some c => Some c
              | None => match items with [] => click_url | _ => click_of L items end
              end in
            Ok (_format_headlines L items, click_url))
         else Ok (text, click_url)) ;;
     let '(text, click_url) := found in
     let headlines_block :=
       if String.eqb text "" then "" else nl +:+ nl +:+ "📰 News:" +:+ nl +:+ text in
     Ok (headlines_block, click_url))%result.

(** ** The state of a run and its effects *)

Inductive event : Type :=
| EvNotify (tk : string) (title message : string) (click_url : option pyval)
    (dry_run : bool)
    (* a call of [notify_ntfy] that returned, made for the ticker [tk] *)
| EvSet (tk : string) (v : string)
    (* [state[tk] = v] *)
| EvSave (path : string) (m : gmap string pyval) (written : bool).
    (* [save_state(path, state)] with the mapping it was given *)

Record world : Type := {
  w_state : gmap string pyval;   (* the dict [state] (core) or [st] (agent) *)
  w_fs : filesystem;             (* the state file, among other files *)
  w_cache : option file;         (* company_cache.json, which stands next to
                                    company.py and is no state file *)
  w_log : list event;            (* oldest first *)
}.

(** A computation that reads and changes the world and may raise; what
    it did before raising stays done. *)
Definition M (A : Type) : Type := world -> result A * world.

Definition ret {A} (a : A) : M A := fun w => (Ok a, w).

Definition raise {A} (e : exn) : M A := fun w => (Raise e, w).

Definition bind {A B} (c : M A) (k : A -> M B) : M B :=
  fun w =>
    match c w with
    | (Ok a, w') => k a w'
    | (Raise e, w') => (Raise e, w')
    end.

Definition lift {A} (r : result A) : M A := fun w => (r, w).

(** [try: body / except Exception as e: handler]. *)
Definition try_catch {A} (body : M A) (handler : exn -> M A) : M A :=
  fun w =>
    match body w with
    | (Ok a, w') => (Ok a, w')
    | (Raise e, w') => handler e w'
    end.

Declare Scope run_scope.
Delimit Scope run_scope with run.
Notation "x <- c ;; k" := (bind c (fun x => k))
  (at level 100, c at next level, right associativity) : run_scope.
Notation "c ;;; k" := (bind c (fun _ => k))
  (at level 100, right associativity) : run_scope.

Definition emit (ev : event) (w : world) : world :=
  {| w_state := w_state w; w_fs := w_fs w; w_cache := w_cache w;
     w_log := w_log w ++ [ev] |}.

(** [state.get(tk, "none")]. *)
Definition get_state (tk : string) : M pyval :=
  fun w => (Ok (default (PStr "none") (w_state w !! tk)), w).

(** [state[tk] = v]. *)
Definition set_state (tk v : string) : M unit :=
  fun w =>
    (Ok tt, {| w_state := <[tk := PStr v]> (w_state w);
               w_fs := w_fs w;
               w_cache := w_cache w;
               w_log := w_log w ++ [EvSet tk v] |}).

(** The file system after [path.write_text(json.dumps(m, ...))].  When
    the call returns the file holds the dump of [m].  When it raises
    after it has opened the file, the file is empty or holds a part of
    the dump, and neither is JSON text; when it raises before, the file
    is as it was. *)
Definition file_after_write (path : string) (e : ticker_env) (m : gmap string pyval)
  (fs : filesystem) : filesystem :=
  match te_write e with
  | Ok _ => <[path := Json (PDict m)]> fs
  | Raise _ => if te_truncates e then <[path := Unreadable ValueError]> fs else fs
  end.

(** [save_state(path, state)]. *)
Definition save_state (path : string) (e : ticker_env) : M unit :=
  fun w =>
    (match te_write e with
     | Ok _ => Ok tt
     | Raise x => Raise x
     end,
     {| w_state := w_state w;
        w_fs := file_after_write path e (w_state w) (w_fs w);
        w_cache := w_cache w;
        w_log := w_log w ++ [EvSave path (w_state w) (is_ok (te_write e))] |}).

(** The world after the calls of [get_company_meta] of an iteration:
    on a cache miss they write company_cache.json. *)
Definition cache_after (e : ticker_env) (c : option file) : option file :=
  match te_cache e with
  | Some f => Some f
  | None => c
  end.

Definition touched (e : ticker_env) (w : world) : world :=
  {| w_state := w_state w; w_fs := w_fs w; w_cache := cache_after e (w_cache w);
     w_log := w_log w |}.

(** The company lookups of the news block: [news_query_for_ticker] and
    [auto_keywords] in core.py, [auto_keywords] in stock_agent.py. *)
Definition company_lookup (enabled : bool) (e : ticker_env) : M unit :=
  fun w => (Ok tt, if enabled then touched e w else w).

Definition notify_ntfy (e : ticker_env) (tk : string) (title message : string)
  (click_url : option pyval) (dry_run : bool) : M unit :=
  fun w =>
    match te_notify e with
    | Ok _ => (Ok tt, emit (EvNotify tk title message click_url dry_run) w)
    | Raise x => (Raise x, w)
    end.

(** The world of a run that has loaded the mapping [d]. *)
Definition with_state (d : gmap string pyval) (w : world) : world :=
  {| w_state := d; w_fs := w_fs w; w_cache := w_cache w; w_log := w_log w |}.

(** [state = load_state(state_file)] at the start of a run. *)
Definition load_into_state (path : string) : M unit :=
  fun w =>
    match load_state (w_fs w) path with
    | Ok d => (Ok tt, with_state d w)
    | Raise x => (Raise x, w)
    end.

(** ** core.py: [run_once] *)

Record test_cfg : Type := {
  tc_enabled : bool;
  tc_bypass_market_hours : bool;
  tc_force_run_outside_hours : bool;
  tc_force_delta_pct : option Q;
  tc_dry_run : bool;
}.

Record run_cfg : Type := {
  threshold_pct : Q;
  state_file : string;
  market_hours : market_hours_cfg;
  test : test_cfg;
  news_enabled : bool;
  timezone_known : bool;   (* [ZoneInfo] knows the configured zone: [now_tz(tz)] returns *)
}.

(** The test override: with [test.enabled] and a [force_delta_pct],
    the forced change, [float(test_cfg["force_delta_pct"])], replaces
    the measured one and the last price is recomputed from it as
    [open_px * (1.0 + pct / 100.0)]. *)
Definition forced_delta (cfg : run_cfg) : option Q :=
  if tc_enabled (test cfg) then tc_force_delta_pct (test cfg) else None.

Definition effective_pct (cfg : run_cfg) (open_px last_px : Q) : Q :=
  match forced_delta cfg with
  | Some f => b64 f
  | None => pct_change open_px last_px
  end.

Definition effective_last (cfg : run_cfg) (open_px last_px : Q) : Q :=
  match forced_delta cfg with
  | Some f => b64 (b64 open_px * b64 (1 + b64 (b64 f / 100)))
  | None => last_px
  end.

(** The body of the [try] of one loop iteration.  The threshold is the
    float the configuration holds. *)
Definition ticker_body (L : pylib) (cfg : run_cfg) (tk : string) (e : ticker_env) : M unit :=
  (px <- lift (te_price e) ;;
   let '(open_px, last_px) := px in
   if Qeq_bool open_px 0 then raise RuntimeError
   else
     let pct := effective_pct cfg open_px last_px in
     let last_px := effective_last cfg open_px last_px in
     prev <- get_state tk ;;
     let direction := classify pct (b64 (threshold_pct cfg)) in
     if negb (String.eqb direction "none") && py_ne_str prev direction then
       let title := _format_title tk in
       let body := _format_body L tk open_px last_px pct in
       company_lookup (news_enabled cfg) e ;;;
       news <- lift (enrichment L (news_enabled cfg) e) ;;
       let '(headlines_block, click_url) := news in
       notify_ntfy e tk title (body +:+ headlines_block)
         (option_map PStr click_url) (tc_dry_run (test cfg)) ;;;
       set_state tk direction ;;;
       save_state (state_file cfg) e
     else if String.eqb direction "none" then
       if py_ne_str prev "none" then
         set_state tk "none" ;;;
         save_state (state_file cfg) e
       else ret tt
     else ret tt)%run.

(** One iteration: the [except Exception] logs and goes on. *)
Definition process_ticker (L : pylib) (cfg : run_cfg) (tk : string) (e : ticker_env) : M unit :=
  try_catch (ticker_body L cfg tk e) (fun _ => ret tt).

Fixpoint for_each (step : string -> ticker_env -> M unit)
  (work : list (string * ticker_env)) : M unit :=
  match work with
  | [] => ret tt
  | (tk, e) :: rest => (step tk e ;;; for_each step rest)%run
  end.

(** [run_once]: [now] is the reading of the clock in the configured
    time zone, [work] the tickers with what their collaborators answer
    in this run.  The first statement logs [now_tz(tz)], which raises
    ([ZoneInfoNotFoundError], here [OtherException]) for a zone that
    [ZoneInfo] does not know; the configuration names one zone, which
    this statement and [is_market_hours] both look up. *)
Definition run_once (L : pylib) (cfg : run_cfg) (now : datetime)
  (work : list (string * ticker_env)) : M unit :=
  (if negb (timezone_known cfg) then raise OtherException
   else
     within <- lift (is_market_hours (market_hours cfg) now) ;;
     let within :=
       within
       || (tc_enabled (test cfg) && tc_bypass_market_hours (test cfg))
       || tc_force_run_outside_hours (test cfg) in
     if negb within then ret tt
     else
       load_into_state (state_file cfg) ;;;
       for_each (process_ticker L cfg) work)%run.

(** ** stock_agent.py *)

(** [it.get("url") or it.get("link")]. *)
Definition first_link (it : item) : option string :=
  match nonempty (it !! "url") with
  | Some u => Some u
  | None => it !! "link"
  end.

Definition plain_lines (L : pylib) (it : item) : list string :=
  let title_h := strip L (field it "title") in
  let url := strip L (or_str (field it "url") (field it "link")) in
  let src := strip L (field it "source") in
  if String.eqb title_h "" || String.eqb url "" then []
  else ["• " +:+ title_h +:+ " — " +:+ src; "   🔗 " +:+ url].

Definition format_plain_push (L : pylib) (ticker : string) (open_px last_px delta_pct : Q)
  (headlines : list item) : string * string * option string :=
  let up := Qge_bool delta_pct 0 in
  let arrow := if up then "📈" else "📉" in
  let dirsym := if up then "↑" else "↓" in
  let title := "Stock Alert: " +:+ ticker in
  let body :=
    arrow +:+ " " +:+ ticker +:+ ": " +:+ dirsym +:+ " " +:+ fmt_2f L (Qabs delta_pct)
    +:+ "% vs. Open" +:+ nl
    +:+ "Aktuell: " +:+ fmt_2f L last_px +:+ " | Open: " +:+ fmt_2f L open_px in
  match headlines with
  | [] => (title, body, None)
  | first :: _ =>
      let lines := "" :: "📰 News:" :: List.flat_map (plain_lines L) headlines in
      (title, body +:+ String.concat nl lines, first_link first)
  end.

(** The deterministic decision: [abs(delta_pct) >= threshold_pct]. *)
Definition magnitude_test (delta_pct threshold_pct : Q) : bool :=
  Qge_bool (Qabs delta_pct) threshold_pct.

(** [d.get(k) or fallback]. *)
Definition get_or (d : gmap string pyval) (k : string) (fallback : pyval) : pyval :=
  match d !! k with
  | Some v => if truthy v then v else fallback
  | None => fallback
  end.

(** [agent_summarize_and_decide]: [client] tells whether an LLM client
    is configured, [advice] is what the completion call and
    [json.loads] yield. *)
Definition agent_summarize_and_decide (L : pylib) (client : bool) (advice : result pyval)
  (ticker : string) (open_px last_px delta_pct : Q) (headlines : list item)
  (threshold_pct : Q) : bool * string * string * option pyval :=
  let plain :=
    let '(title, body, click) := format_plain_push L ticker open_px last_px delta_pct headlines in
    (magnitude_test delta_pct threshold_pct, title, body, option_map PStr click) in
  if negb client then plain
  else
    settled
      (data <- advice ;;
       match data with
       | PDict d =>
           let send_alert :=
             match d !! "send_alert" with
             | Some v => truthy v
             | None => magnitude_test delta_pct threshold_pct
             end in
           let title := py_str L (get_or d "title" (PStr ("Stock Alert: " +:+ ticker))) in
           let body := py_str L (get_or d "body" (PStr "")) in
           let click_url :=
             match d !! "click_url" with
             | Some v => if truthy v then Some v else None
             | None => None
             end in
           if String.eqb body "" then
             let '(title, body, click) :=
               format_plain_push L ticker open_px last_px delta_pct headlines in
             Ok (send_alert, title, body, option_map PStr click)
           else Ok (send_alert, title, body, click_url)
       | _ => Raise AttributeError   (* [data.get] on a value that is no dict *)
       end)%result
      plain.

Record agent_cfg : Type := {
  a_threshold_pct : Q;
  a_state_file : string;
  a_market_hours : schema_a;
  a_bypass_market_hours : bool;
  a_dry_run : bool;
  a_news_enabled : bool;
  a_client : bool;
  a_timezone_known : bool;   (* [ZoneInfo] knows the configured zone *)
}.

(** The headlines of an iteration.  The call of [auto_keywords] that
    names the query, and its write to company_cache.json, is
    [company_lookup], which [agent_body] runs first. *)
Definition agent_headlines (enabled : bool) (e : ticker_env) : result (list item) :=
  if negb enabled then Ok []
  else
    (headlines <- te_headlines e ;;
     match headlines with
     | [] => te_headlines_fallback e
     | _ => Ok headlines
     end)%result.

Definition agent_body (L : pylib) (cfg : agent_cfg) (t : string) (e : ticker_env) : M unit :=
  (px <- lift (te_price e) ;;
   let '(open_px, last_px) := px in
   let d_pct := pct_change open_px last_px in
   let direction := classify d_pct (b64 (a_threshold_pct cfg)) in
   prev <- get_state t ;;
   company_lookup (a_news_enabled cfg) e ;;;
   headlines <- lift (agent_headlines (a_news_enabled cfg) e) ;;
   let '(send, title, body, click) :=
     agent_summarize_and_decide L (a_client cfg) (te_advice e) t open_px last_px d_pct
       headlines (b64 (a_threshold_pct cfg)) in
   if negb (String.eqb direction "none") && py_ne_str prev direction && send then
     notify_ntfy e t title body click (a_dry_run cfg) ;;;
     set_state t direction ;;;
     save_state (a_state_file cfg) e
   else if String.eqb direction "none" && py_ne_str prev "none" then
     set_state t "none" ;;;
     save_state (a_state_file cfg) e
   else ret tt)%run.

Definition agent_ticker (L : pylib) (cfg : agent_cfg) (t : string) (e : ticker_env) : M unit :=
  try_catch (agent_body L cfg t e) (fun _ => ret tt).

(** [now_tz(tz)] for the configured zone: it raises for a zone that
    [ZoneInfo] does not know. *)
Definition zone_lookup (cfg : agent_cfg) : M unit :=
  if a_timezone_known cfg then ret tt else raise OtherException.

(** [run_agent_once].  The gate reads the clock through
    [within_market_hours]; past the gate the state is loaded, and the
    line printed next reads the clock again, outside every [try]. *)
Definition run_agent_once (L : pylib) (cfg : agent_cfg) (now : datetime)
  (work : list (string * ticker_env)) : M unit :=
  (open_now <-
     (if mh_pause_on_closed (a_market_hours cfg) && negb (a_bypass_market_hours cfg)
      then zone_lookup cfg ;;; lift (within_market_hours (a_market_hours cfg) now)
      else ret true) ;;
   if negb open_now then ret tt
   else
     load_into_state (a_state_file cfg) ;;;
     zone_lookup cfg ;;;
     for_each (agent_ticker L cfg) work)%run.

(** ** A model of the library functions, for plain ASCII text

    The theorems below hold for every [pylib].  The examples run the
    code on this instance: CPython's [urllib.parse] on URLs made of
    printable ASCII characters, [str.strip] and [str.lower] on ASCII
    text, and fixed-point formatting with two decimals. *)

Definition in_chars (c : ascii) (cs : string) : bool :=
  existsb (Ascii.eqb c) (list_ascii_of_string cs).

Definition is_alpha (c : ascii) : bool :=
  let n := nat_of_ascii c in
  ((65 <=? n) && (n <=? 90) || (97 <=? n) && (n <=? 122))%nat.

Definition is_digit (c : ascii) : bool :=
  let n := nat_of_ascii c in ((48 <=? n) && (n <=? 57))%nat.

Definition is_space (c : ascii) : bool :=
  let n := nat_of_ascii c in
  ((9 <=? n) && (n <=? 13) || (28 <=? n) && (n <=? 32))%nat.

Definition lower_char (c : ascii) : ascii :=
  let n := nat_of_ascii c in
  if ((65 <=? n) && (n <=? 90))%nat then ascii_of_nat (n + 32) else c.

Fixpoint ascii_lower (s : string) : string :=
  match s with
  | EmptyString => EmptyString
  | String c rest => String (lower_char c) (ascii_lower rest)
  end.

Fixpoint lstrip_space (s : string) : string :=
  match s with
  | String c rest => if is_space c then lstrip_space rest else s
  | EmptyString => EmptyString
  end.

Fixpoint rstrip_space (s : string) : string :=
  match s with
  | EmptyString => EmptyString
  | String c rest =>
      match rstrip_space rest with
      | EmptyString => if is_space c then EmptyString else String c EmptyString
      | kept => String c kept
      end
  end.

Definition ascii_strip (s : string) : string := rstrip_space (lstrip_space s).

(** [s.split(c, 1)] when [c] occurs in [s]. *)
Fixpoint split_first (c : ascii) (s : string) : option (string * string) :=
  match s with
  | EmptyString => None
  | String d rest =>
      if Ascii.eqb c d then Some (EmptyString, rest)
      else
        match split_first c rest with
        | Some (a, b) => Some (String d a, b)
        | None => None
        end
  end.

(** [s.split(c)]. *)
Fixpoint split_all (c : ascii) (s : string) : list string :=
  match s with
  | EmptyString => [EmptyString]
  | String d rest =>
      match split_all c rest with
      | seg :: segs =>
          if Ascii.eqb c d then EmptyString :: seg :: segs
          else String d seg :: segs
      | [] => [String d EmptyString]
      end
  end.

(** The longest prefix without a character of [stops], and the rest. *)
Fixpoint span_until (stops : string) (s : string) : string * string :=
  match s with
  | EmptyString => (EmptyString, EmptyString)
  | String c rest =>
      if in_chars c stops then (EmptyString, s)
      else let '(a, b) := span_until stops rest in (String c a, b)
  end.

(** The text up to the last [/] (included) and the last segment. *)
Fixpoint split_last_slash (s : string) : string * string :=
  match s with
  | EmptyString => (EmptyString, EmptyString)
  | String c rest =>
      if contains "/" rest then
        let '(a, b) := split_last_slash rest in (String c a, b)
      else if Ascii.eqb c "/"%char then (String c EmptyString, rest)
      else (EmptyString, s)
  end.

Definition uses_params : list string :=
  [""; "ftp"; "hdl"; "prospero"; "http"; "imap"; "https"; "shttp"; "rtsp";
   "rtspu"; "sip"; "sips"; "mms"; "sftp"; "tel"].

Definition uses_netloc : list string :=
  [""; "ftp"; "http"; "gopher"; "nntp"; "telnet"; "imap"; "wais"; "file"; "mms";
   "https"; "shttp"; "snews"; "prospero"; "rtsp"; "rtspu"; "rsync"; "svn";
   "svn+ssh"; "sftp"; "nfs"; "git"; "git+ssh"; "ws"; "wss"].

Definition mem_str (s : string) (l : list string) : bool := existsb (String.eqb s) l.

(** [urllib.parse.urlparse] on printable ASCII text: scheme, netloc
    (with the test of unbalanced brackets, on which CPython raises
    ValueError: Invalid IPv6 URL), fragment, query and params.  Not
    modelled: the stripping of control characters, the validation of a
    bracketed host, and the NFKC test of a non-ASCII netloc. *)
Definition py_urlparse (url : string) : result url_parts :=
  let '(scheme, url) :=
    match split_first ":"%char url with
    | Some (pre, post) =>
        match pre with
        | String c _ =>
            if is_alpha c
               && forallb (fun d => is_alpha d || is_digit d || in_chars d "+-.")
                    (list_ascii_of_string pre)
            then (ascii_lower pre, post)
            else (EmptyString, url)
        | EmptyString => (EmptyString, url)
        end
    | None => (EmptyString, url)
    end in
  let '(netloc, url) :=
    if String.prefix "//" url then span_until "/?#" (drop_chars 2 url)
    else (EmptyString, url) in
  if xorb (contains "[" netloc) (contains "]" netloc) then Raise ValueError
  else
    let '(url, fragment) :=
      match split_first "#"%char url with
      | Some (a, b) => (a, b)
      | None => (url, EmptyString)
      end in
    let '(url, query) :=
      match split_first "?"%char url with
      | Some (a, b) => (a, b)
      | None => (url, EmptyString)
      end in
    let '(path, params) :=
      if mem_str scheme uses_params then
        let '(dir, last) := split_last_slash url in
        match split_first ";"%char last with
        | Some (a, b) => (dir +:+ a, b)
        | None => (url, EmptyString)
        end
      else (url, EmptyString) in
    Ok {| u_scheme := scheme; u_netloc := netloc; u_path := path;
          u_params := params; u_query := query; u_fragment := fragment |}.

(** [urllib.parse.urlunparse]. *)
Definition py_urlunparse (p : url_parts) : string :=
  let url :=
    if String.eqb (u_params p) "" then u_path p
    else u_path p +:+ ";" +:+ u_params p in
  let url :=
    if negb (String.eqb (u_netloc p) "")
       || (negb (String.eqb (u_scheme p) "") && mem_str (u_scheme p) uses_netloc
           && negb (String.prefix "//" url))
    then
      let url :=
        if negb (String.eqb url "") && negb (String.prefix "/" url)
        then "/" +:+ url else url in
      "//" +:+ u_netloc p +:+ url
    else url in
  let url :=
    if String.eqb (u_scheme p) "" then url else u_scheme p +:+ ":" +:+ url in
  let url :=
    if String.eqb (u_query p) "" then url else url +:+ "?" +:+ u_query p in
  if String.eqb (u_fragment p) "" then url else url +:+ "#" +:+ u_fragment p.

Definition hex_value (c : ascii) : option nat :=
  let n := nat_of_ascii c in
  if is_digit c then Some (n - 48)%nat
  else if ((65 <=? n) && (n <=? 70))%nat then Some (n - 55)%nat
  else if ((97 <=? n) && (n <=? 102))%nat then Some (n - 87)%nat
  else None.

(** [urllib.parse.unquote] on the bytes of the text (an escape
    sequence that is valid UTF-8 decodes to its own bytes). *)
Fixpoint py_unquote (s : string) : string :=
  match s with
  | EmptyString => EmptyString
  | String c tl =>
      match tl with
      | String a (String b rest) =>
          match Ascii.eqb c "%"%char, hex_value a, hex_value b with
          | true, Some x, Some y => String (ascii_of_nat (16 * x + y)) (py_unquote rest)
          | _, _, _ => String c (py_unquote tl)
          end
      | _ => String c (py_unquote tl)
      end
  end.

Fixpoint plus_to_space (s : string) : string :=
  match s with
  | EmptyString => EmptyString
  | String c rest =>
      String (if Ascii.eqb c "+"%char then " "%char else c) (plus_to_space rest)
  end.

(** [urllib.parse.parse_qs] with its defaults: pairs without [=] or
    with a blank value are dropped. *)
Definition py_parse_qs (query : string) : gmap string (list string) :=
  fold_left
    (fun (qs : gmap string (list string)) (pair : string) =>
       match split_first "="%char pair with
       | Some (name, value) =>
           if String.eqb value "" then qs
           else
             let name := py_unquote (plus_to_space name) in
             let value := py_unquote (plus_to_space value) in
             <[name := app (default [] (qs !! name)) [value]]> qs
       | None => qs
       end)
    (split_all "&"%char query) ∅.

(** The tracked parameter names of the [re.sub] in step 4. *)
Definition tracked (pair : string) : bool :=
  existsb (fun name => String.prefix (name +:+ "=") pair)
    ["ved"; "usg"; "si"; "sca_esv"; "opi"]
  || match split_first "="%char pair with
     | Some (name, _) =>
         (String.prefix "utm_" name && (4 <? String.length name)%nat)
         || (String.prefix "gws_" name && (4 <? String.length name)%nat)
     | None => false
     end.

(** The substitution of step 4 on a query whose parameter names hold
    no [&]: a tracked pair goes together with the [&] before it. *)
Definition strip_tracked (query : string) : string :=
  match split_all "&"%char query with
  | [] => EmptyString
  | first :: others =>
      (if tracked first then EmptyString else first)
      +:+ String.concat ""
            (List.map (fun pair => if tracked pair then EmptyString else "&" +:+ pair) others)
  end.

Fixpoint digits_of (fuel : nat) (n : Z) (acc : string) : string :=
  match fuel with
  | O => acc
  | S k =>
      let acc := String (ascii_of_nat (48 + Z.to_nat (n mod 10))) acc in
      if n / 10 =? 0 then acc else digits_of k (n / 10) acc
  end.

Definition decimal (n : Z) : string :=
  digits_of (S (Z.to_nat (Z.log2 (Z.abs n)))) (Z.abs n) EmptyString.

(** Nearest integer, ties to even. *)
Definition round_half_even (q : Q) : Z :=
  let n := Qnum q in
  let d := Z.pos (Qden q) in
  let f := n / d in
  let r2 := 2 * (n mod d) in
  if r2 <? d then f
  else if d <? r2 then f + 1
  else if Z.even f then f else f + 1.

Definition fixed_2 (plus : bool) (q : Q) : string :=
  let c := round_half_even (q * 100)%Q in
  let sign := if c <? 0 then "-" else if plus then "+" else "" in
  let frac := Z.abs c mod 100 in
  sign +:+ decimal (Z.abs c / 100) +:+ "."
  +:+ (if frac <? 10 then "0" else "") +:+ decimal frac.

(** [str(v)] for the scalars of JSON; a container is shown by its
    brackets only. *)
Definition str_of (v : pyval) : string :=
  match v with
  | PNone => "None"
  | PBool true => "True"
  | PBool false => "False"
  | PInt z => (if z <? 0 then "-" else "") +:+ decimal z
  | PFloat q => fixed_2 false q
  | PStr s => s
  | PList _ => "[...]"
  | PDict _ => "{...}"
  end.

(** The library over a web given by [get].  The four searches in a
    page body and the list of its absolute URLs are those of a page
    without markup: the pages of the examples have an empty body, so
    that the host test on a listed URL is never reached. *)
Definition ascii_lib (get : string -> result response) : pylib :=
  {| strip := ascii_strip;
     lower := ascii_lower;
     fmt_2f := fixed_2 false;
     fmt_signed_2f := fixed_2 true;
     py_str := str_of;
     urlparse := py_urlparse;
     urlunparse := py_urlunparse;
     parse_qs := py_parse_qs;
     unquote := py_unquote;
     http_get := get;
     re_canonical := fun _ => None;
     re_refresh := fun _ => None;
     re_js_location := fun _ => None;
     re_href_url := fun _ => None;
     re_absolute_urls := fun _ => [];
     re_google_host := fun cand => contains ".google." cand || contains ".gstatic.com" cand;
     re_strip_tracking := strip_tracked |}.

(** A web that answers no request. *)
Definition offline : string -> result response := fun _ => Raise RequestException.

(** ** Examples used by the theorems *)

(** Schema A with the documented defaults: 09:30 to 16:00, Monday to
    Friday. *)
Definition nyse : schema_a :=
  {| mh_open := (9, 30); mh_close := (16, 0);
     mh_active_days := [1; 2; 3; 4; 5]; mh_pause_on_closed := true |}.

(** Wednesday 3 January 2024 ([toordinal() = 738888]) at a given time. *)
Definition wednesday (hh mm ss us : Z) : datetime :=
  {| dt_ordinal := 738888; dt_hour := hh; dt_minute := mm;
     dt_second := ss; dt_microsecond := us |}.

(** Microseconds since midnight of a clock reading, and of an
    ["HH:MM"] setting. *)
Definition time_of_day (n : datetime) : Z :=
  ((dt_hour n * 60 + dt_minute n) * 60 + dt_second n) * 1000000 + dt_microsecond n.

Definition hm_time (hm : Z * Z) : Z := (fst hm * 60 + snd hm) * 60 * 1000000.

Definition valid_hm (hm : Z * Z) : Prop :=
  0 <= fst hm <= 23 /\ 0 <= snd hm <= 59.

(** The send decision of the composer. *)
Definition should_send (L : pylib) (client : bool) (advice : result pyval)
  (ticker : string) (open_px last_px delta_pct : Q) (headlines : list item)
  (threshold : Q) : bool :=
  fst (fst (fst (agent_summarize_and_decide L client advice ticker open_px last_px
                   delta_pct headlines threshold))).

(** An advisory answer that declines to alert. *)
Definition advice_hold : pyval :=
  PDict (<["send_alert" := PBool false]> (<["body" := PStr "hold"]> ∅)).


(** ** Runs, sessions and what is observed in them *)

Inductive orchestrator : Type :=
| Core (cfg : run_cfg)      (* core.py [run_once] *)
| Agent (cfg : agent_cfg).  (* stock_agent.py [run_agent_once] *)

Definition run (L : pylib) (o : orchestrator) (now : datetime)
  (work : list (string * ticker_env)) : M unit :=
  match o with
  | Core cfg => run_once L cfg now work
  | Agent cfg => run_agent_once L cfg now work
  end.

Definition storage (o : orchestrator) : string :=
  match o with
  | Core cfg => state_file cfg
  | Agent cfg => a_state_file cfg
  end.

(** One loop iteration of either orchestrator. *)
Definition step (L : pylib) (o : orchestrator) : string -> ticker_env -> M unit :=
  match o with
  | Core cfg => process_ticker L cfg
  | Agent cfg => agent_ticker L cfg
  end.

(** Successive runs of the job, each with its clock reading and its
    list of tickers. *)
Fixpoint session (L : pylib) (o : orchestrator)
  (s : list (datetime * list (string * ticker_env))) : M unit :=
  match s with
  | [] => ret tt
  | (now, work) :: rest => (run L o now work ;;; session L o rest)%run
  end.

Definition is_notify_for (tk : string) (ev : event) : bool :=
  match ev with
  | EvNotify tk' _ _ _ _ => String.eqb tk' tk
  | _ => false
  end.

(** The number of notifications dispatched for [tk] in a log. *)
Definition notifications_for (tk : string) (log : list event) : nat :=
  List.length (List.filter (is_notify_for tk) log).

(** The run is not skipped by the market-hours gate: the time zone is
    known and the gate answers that the market is open, or a flag
    overrides it. *)
Definition gate_open (o : orchestrator) (now : datetime) : Prop :=
  match o with
  | Core cfg =>
      timezone_known cfg = true /\
      exists b, is_market_hours (market_hours cfg) now = Ok b /\
        b || (tc_enabled (test cfg) && tc_bypass_market_hours (test cfg))
          || tc_force_run_outside_hours (test cfg) = true
  | Agent cfg =>
      a_timezone_known cfg = true /\
      (mh_pause_on_closed (a_market_hours cfg) && negb (a_bypass_market_hours cfg) = false
       \/ within_market_hours (a_market_hours cfg) now = Ok true)
  end.

(** The price feed answers, and the change classifies as [dir]. *)
Definition observes (o : orchestrator) (e : ticker_env) (dir : string) : Prop :=
  match o with
  | Core cfg =>
      exists open_px last_px,
        te_price e = Ok (open_px, last_px) /\ Qeq_bool open_px 0 = false /\
        classify (effective_pct cfg open_px last_px) (b64 (threshold_pct cfg)) = dir
  | Agent cfg =>
      exists open_px last_px,
        te_price e = Ok (open_px, last_px) /\
        classify (pct_change open_px last_px) (b64 (a_threshold_pct cfg)) = dir
  end.

(** The news feed, the push service and the disk do not raise. *)
Definition collaborators_succeed (L : pylib) (o : orchestrator) (e : ticker_env) : Prop :=
  te_notify e = Ok tt /\ te_write e = Ok tt /\
  match o with
  | Core cfg => exists news, enrichment L (news_enabled cfg) e = Ok news
  | Agent cfg => exists hs, agent_headlines (a_news_enabled cfg) e = Ok hs
  end.

(** The composer of the agent decides to send (the core has no such
    decision). *)
Definition composer_sends (L : pylib) (o : orchestrator) (tk : string) (e : ticker_env) : Prop :=
  match o with
  | Core _ => True
  | Agent cfg =>
      forall open_px last_px hs,
        te_price e = Ok (open_px, last_px) ->
        agent_headlines (a_news_enabled cfg) e = Ok hs ->
        should_send L (a_client cfg) (te_advice e) tk open_px last_px
          (pct_change open_px last_px) hs (b64 (a_threshold_pct cfg)) = true
  end.

(** The transition rule: a new breakout fires, a return to the
    corridor resets. *)
Definition fires (prev : pyval) (dir : string) : bool :=
  negb (String.eqb dir "none") && py_ne_str prev dir.

Definition resets (prev : pyval) (dir : string) : bool :=
  String.eqb dir "none" && py_ne_str prev "none".

(** When the write of the state file fails, it fails before the file
    is opened: the file is as it was. *)
Definition keeps_file (e : ticker_env) : Prop :=
  te_write e = Ok tt \/ te_truncates e = false.

(** A run that passes the gate and whose ticker list holds [tk] once,
    among other tickers: [tk] is observed with direction [dir], its
    collaborators do their part and, on a breakout, the composer decides
    to send.  Of the other tickers it is asked that none of them
    destroys the state file. *)
Definition healthy (L : pylib) (o : orchestrator) (tk : string)
  (r : datetime * list (string * ticker_env)) (dir : string) : Prop :=
  gate_open o (fst r) /\
  exists before e after,
    snd r = before ++ (tk, e) :: after /\
    Forall (fun other => fst other <> tk /\ keeps_file (snd other)) before /\
    Forall (fun other => fst other <> tk /\ keeps_file (snd other)) after /\
    observes o e dir /\
    collaborators_succeed L o e /\
    (dir <> "none" -> composer_sends L o tk e).

(** The value for [tk] after an iteration that observes [dir]. *)
Definition next_value (v : option pyval) (dir : string) : option pyval :=
  let prev := default (PStr "none") v in
  if fires prev dir || resets prev dir then Some (PStr dir) else v.

(** The mapping in memory and the state file agree that [tk] has the
    value [v] (or none). *)
Definition agrees (path tk : string) (v : option pyval) (w : world) : Prop :=
  w_state w !! tk = v /\
  exists d, load_state (w_fs w) path = Ok d /\ d !! tk = v.

(** What the state file holds for [tk], as the next run will load it. *)
Definition stored (o : orchestrator) (tk : string) (w : world) (v : option pyval) : Prop :=
  exists d, load_state (w_fs w) (storage o) = Ok d /\ d !! tk = v.

(** Every assignment to the state is one of the three directions and
    is followed at once by a save of a mapping that holds it. *)
Fixpoint set_then_save (path : string) (log : list event) : Prop :=
  match log with
  | [] => True
  | EvSet tk v :: rest =>
      (v = "up" \/ v = "down" \/ v = "none") /\
      match rest with
      | EvSave p m _ :: _ => p = path /\ m !! tk = Some (PStr v)
      | _ => False
      end /\
      set_then_save path rest
  | _ :: rest => set_then_save path rest
  end.

(** What one loop iteration does to the world: nothing but, at most,
    the company lookups of its news block; or one assignment
    [state[tk] = v], after at most one notification for [tk], and the
    save that follows it. *)
Definition transition (path tk : string) (e : ticker_env) (w w' : world) : Prop :=
  w' = w \/ w' = touched e w \/
  exists (v : string) (before : list event),
    (v = "up" \/ v = "down" \/ v = "none") /\
    w_state w' = <[tk := PStr v]> (w_state w) /\
    w_log w' = w_log w ++ before
                 ++ [EvSet tk v; EvSave path (w_state w') (is_ok (te_write e))] /\
    (before = [] \/ exists t m c dr, before = [EvNotify tk t m c dr]) /\
    w_fs w' = file_after_write path e (w_state w') (w_fs w) /\
    (w_cache w' = w_cache w \/ w_cache w' = cache_after e (w_cache w)).

(** The transition table of the specification: the number of
    notifications a sequence of observed directions gives rise to,
    from the stored value [prev]. *)
Fixpoint corridor_fires (prev : pyval) (dirs : list string) : nat :=
  match dirs with
  | [] => O
  | dir :: rest =>
      if fires prev dir then S (corridor_fires (PStr dir) rest)
      else if resets prev dir then corridor_fires (PStr "none") rest
      else corridor_fires prev rest
  end.

(** A configuration of each orchestrator with a threshold of 1%, no
    news and no test override. *)
Definition plain_test : test_cfg :=
  {| tc_enabled := false; tc_bypass_market_hours := false;
     tc_force_run_outside_hours := false; tc_force_delta_pct := None;
     tc_dry_run := false |}.

Definition demo_core : run_cfg :=
  {| threshold_pct := 1; state_file := "alert_state.json";
     market_hours := SchemaA nyse; test := plain_test; news_enabled := false;
     timezone_known := true |}.

Definition demo_agent (client : bool) : agent_cfg :=
  {| a_threshold_pct := 1; a_state_file := "alert_state.json";
     a_market_hours := nyse; a_bypass_market_hours := false; a_dry_run := false;
     a_news_enabled := false; a_client := client; a_timezone_known := true |}.

(** The collaborators of an iteration in which the price feed quotes
    [open_px] and [last_px], the advisory model answers [advice] and
    nothing raises. *)
Definition quote (open_px last_px : Q) (advice : result pyval) : ticker_env :=
  {| te_price := Ok (open_px, last_px);
     te_query := Ok "";
     te_keywords := Ok [];
     te_headlines := Ok [];
     te_headlines_fallback := Ok [];
     te_advice := advice;
     te_notify := Ok tt;
     te_write := Ok tt;
     te_truncates := false;
     te_cache := None |}.

Definition noon : datetime := wednesday 12 0 0 0.

(** A world whose state file is missing, and one whose state file
    records [v] for AAPL. *)
Definition fresh_world : world :=
  {| w_state := ∅; w_fs := ∅; w_cache := None; w_log := [] |}.

Definition world_with (v : string) : world :=
  {| w_state := ∅;
     w_fs := {["alert_state.json" := Json (PDict {["AAPL" := PStr v]})]};
     w_cache := None;
     w_log := [] |}.

(** A run at noon over MSFT (up 4% on its open) and AAPL. *)
Definition run_at_noon (open_px last_px : Q) (advice : result pyval)
  : datetime * list (string * ticker_env) :=
  (noon, [("MSFT", quote 250 260 advice); ("AAPL", quote open_px last_px advice)]).

(** Four runs in which AAPL stands at +2%, +3%, +0.5% and +2%. *)
Definition up_up_none_up (advice : result pyval)
  : list (datetime * list (string * ticker_env)) :=
  [run_at_noon 100 102 advice; run_at_noon 100 103 advice;
   run_at_noon 100 (1005 # 10) advice; run_at_noon 100 102 advice].

(** Two runs in which AAPL stands at +2% and -2%. *)
Definition up_down (advice : result pyval)
  : list (datetime * list (string * ticker_env)) :=
  [run_at_noon 100 102 advice; run_at_noon 100 98 advice].



(** The world of a run that has loaded that file. *)
Definition loaded_with (v : string) : world :=
  {| w_state := {["AAPL" := PStr v]};
     w_fs := w_fs (world_with v);
     w_cache := None;
     w_log := [] |}.

(** ** The resolver and the web *)

(** The host of [u] is neither the news aggregator nor its consent
    wall. *)
Definition off_aggregator (L : pylib) (u : string) : Prop :=
  exists p, urlparse L u = Ok p /\
    contains "news.google." (u_netloc p) = false /\
    contains "consent.google." (u_netloc p) = false.

(** A GET of [x] ends at [u], a URL that holds no "google.", and no
    hop on the way is a consent redirect. *)
Definition lands_on (L : pylib) (x u : string) : Prop :=
  exists r, http_get L x = Ok r /\
    consent_in_history L (r_history r) = Ok None /\
    r_url r = u /\
    contains "google.com" u = false /\ contains "google." u = false.

(** A site that serves [/b] to the visitor it redirected from [/a],
    and sends a visitor who asks for [/b] directly on to [/c]. *)
Definition cookie_wall (url : string) : result response :=
  if String.eqb url "https://example.com/a" then
    Ok {| r_history := [{| h_location := "https://example.com/b";
                           h_url := "https://example.com/a" |}];
          r_url := "https://example.com/b"; r_text := "" |}
  else if String.eqb url "https://example.com/b" then
    Ok {| r_history := [{| h_location := "https://example.com/c";
                           h_url := "https://example.com/b" |}];
          r_url := "https://example.com/c"; r_text := "" |}
  else Raise RequestException.

(** A site that answers every request at the requested address. *)
Definition plain_site (url : string) : result response :=
  Ok {| r_history := []; r_url := url; r_text := "" |}.




Definition direct_link : item :=
  <["title" := "Apple tops forecasts"]>
    (<["source" := "Example"]>
       (<["url" := "https://example.com/story"]> ∅)).



(** ** What one iteration, and one run, are seen to do *)

(** The direction an iteration classifies, when it gets that far: the
    price feed answers and, in [run_once], the open price is not 0. *)
Definition seen_direction (o : orchestrator) (e : ticker_env) : option string :=
  match te_price e with
  | Raise _ => None
  | Ok (open_px, last_px) =>
      match o with
      | Core cfg =>
          if Qeq_bool open_px 0 then None
          else Some (classify (effective_pct cfg open_px last_px) (b64 (threshold_pct cfg)))
      | Agent cfg =>
          Some (classify (pct_change open_px last_px) (b64 (a_threshold_pct cfg)))
      end
  end.

(** The [dry_run] flag the orchestrator hands to [notify_ntfy]. *)
Definition dry_run_of (o : orchestrator) : bool :=
  match o with
  | Core cfg => tc_dry_run (test cfg)
  | Agent cfg => a_dry_run cfg
  end.

(** The title of a notification: [run_once] always uses
    [_format_title]; [run_agent_once] does so when no advisory client
    is configured. *)
Definition title_rule (o : orchestrator) (tk title : string) : Prop :=
  match o with
  | Core _ => title = _format_title tk
  | Agent cfg => a_client cfg = false -> title = _format_title tk
  end.

(** The world after [state[tk] = dir] and the save that follows it,
    with the events [before] logged first. *)
Definition after_set (path tk dir : string) (e : ticker_env)
  (before : list event) (w : world) : world :=
  let m := <[tk := PStr dir]> (w_state w) in
  {| w_state := m;
     w_fs := file_after_write path e m (w_fs w);
     w_cache := w_cache w;
     w_log := w_log w ++ before ++ [EvSet tk dir; EvSave path m (is_ok (te_write e))] |}.

(** The world after the company lookups of an iteration that gets as
    far as its news block: [run_once] reaches it on a new breakout,
    [run_agent_once] in every iteration whose price feed answers. *)
Definition news_on (o : orchestrator) : bool :=
  match o with
  | Core cfg => news_enabled cfg
  | Agent cfg => a_news_enabled cfg
  end.

Definition looked_up (o : orchestrator) (e : ticker_env) (w : world) : world :=
  if news_on o then touched e w else w.

(** An iteration that finds nothing to do: [run_agent_once] has looked
    the company up by then, [run_once] has not. *)
Definition idle (o : orchestrator) (e : ticker_env) (w : world) : world :=
  match o with
  | Core _ => w
  | Agent _ => looked_up o e w
  end.

(** The three things an iteration can do, before or after its company
    lookups: nothing more; dispatch a breakout the stored value does
    not record yet, and record it; reset a stored breakout. *)
Definition iteration_effect (o : orchestrator) (tk : string) (e : ticker_env)
  (w w' : world) : Prop :=
  exists w0, (w0 = w \/ w0 = looked_up o e w) /\
  (w' = w0
   \/ (exists dir title message click,
         (dir = "up" \/ dir = "down") /\
         seen_direction o e = Some dir /\
         w_state w !! tk <> Some (PStr dir) /\
         te_notify e = Ok tt /\
         title_rule o tk title /\
         w' = after_set (storage o) tk dir e
                [EvNotify tk title message click (dry_run_of o)] w0)
   \/ (seen_direction o e = Some "none" /\
       (exists v, w_state w !! tk = Some v /\ v <> PStr "none") /\
       w' = after_set (storage o) tk "none" e [] w0)).

(** The events of one iteration for [tk]. *)
Inductive iteration_log (o : orchestrator) (tk : string) : list event -> Prop :=
| il_nothing : iteration_log o tk []
| il_fire (dir title message : string) (click : option pyval)
    (m : gmap string pyval) (written : bool) :
    dir = "up" \/ dir = "down" ->
    title_rule o tk title ->
    m !! tk = Some (PStr dir) ->
    iteration_log o tk
      [EvNotify tk title message click (dry_run_of o); EvSet tk dir;
       EvSave (storage o) m written]
| il_reset (m : gmap string pyval) (written : bool) :
    m !! tk = Some (PStr "none") ->
    iteration_log o tk [EvSet tk "none"; EvSave (storage o) m written].

(** The events of a run over the tickers [tks]: the events of their
    iterations, in the order of the list. *)
Inductive run_log (o : orchestrator) : list string -> list event -> Prop :=
| rl_done : run_log o [] []
| rl_next (tk : string) (tks : list string) (new rest : list event) :
    iteration_log o tk new ->
    run_log o tks rest ->
    run_log o (tk :: tks) (new ++ rest).

Definition is_notify (ev : event) : bool :=
  match ev with
  | EvNotify _ _ _ _ _ => true
  | _ => false
  end.


(** Every value of a state mapping is one of the three directions. *)
Definition directions_only (m : gmap string pyval) : Prop :=
  forall k v, m !! k = Some v -> v = PStr "up" \/ v = PStr "down" \/ v = PStr "none".

(** The mapping the next run will load from [path], when loading
    returns; the empty mapping otherwise. *)
Definition persisted (path : string) (w : world) : gmap string pyval :=
  settled (load_state (w_fs w) path) ∅.

(** How often [tk] is listed in the tickers of a run. *)
Definition listed (tk : string) (work : list (string * ticker_env)) : nat :=
  List.length (List.filter (fun p => String.eqb (fst p) tk) work).

(** The same collaborators with a push service that is unreachable,
    and with a disk that is full: the state file is opened, and so
    emptied, and the write raises. *)
Definition push_down (e : ticker_env) : ticker_env :=
  {| te_price := te_price e; te_query := te_query e; te_keywords := te_keywords e;
     te_headlines := te_headlines e; te_headlines_fallback := te_headlines_fallback e;
     te_advice := te_advice e; te_notify := Raise RequestException;
     te_write := te_write e; te_truncates := te_truncates e; te_cache := te_cache e |}.

Definition disk_full (e : ticker_env) : ticker_env :=
  {| te_price := te_price e; te_query := te_query e; te_keywords := te_keywords e;
     te_headlines := te_headlines e; te_headlines_fallback := te_headlines_fallback e;
     te_advice := te_advice e; te_notify := te_notify e;
     te_write := Raise OSError; te_truncates := true; te_cache := te_cache e |}.




(** The same configurations with a time zone that [ZoneInfo] does not
    know. *)
Definition elsewhere (cfg : run_cfg) : run_cfg :=
  {| threshold_pct := threshold_pct cfg; state_file := state_file cfg;
     market_hours := market_hours cfg; test := test cfg;
     news_enabled := news_enabled cfg; timezone_known := false |}.

Definition agent_elsewhere (cfg : agent_cfg) : agent_cfg :=
  {| a_threshold_pct := a_threshold_pct cfg; a_state_file := a_state_file cfg;
     a_market_hours := a_market_hours cfg;
     a_bypass_market_hours := a_bypass_market_hours cfg; a_dry_run := a_dry_run cfg;
     a_news_enabled := a_news_enabled cfg; a_client := a_client cfg;
     a_timezone_known := false |}.

(** The news feed of an iteration answers. *)
Definition feeds_answer (L : pylib) (o : orchestrator) (e : ticker_env) : Prop :=
  match o with
  | Core cfg => exists news, enrichment L (news_enabled cfg) e = Ok news
  | Agent cfg => exists hs, agent_headlines (a_news_enabled cfg) e = Ok hs
  end.

(** ** Headlines: what is kept and what is shown *)

(** The items [run_once] keeps of a fetched list: those
    [filter_titles] lets through when [auto_keywords] gave keywords,
    all of them otherwise. *)
Definition kept (L : pylib) (e : ticker_env) (items : list item) : list item :=
  let req_kw := settled (te_keywords e) [] in
  match req_kw with
  | [] => items
  | _ => filter_titles L items req_kw
  end.

(** The news block for a non-empty headline text. *)
Definition news_block (text : string) : string :=
  nl +:+ nl +:+ "📰 News:" +:+ nl +:+ text.

(** A keyword that [filter_titles] ignores. *)
Definition blank (L : pylib) (k : string) : bool :=
  String.eqb k "" || String.eqb (strip L k) "".

(** [l1] is [l2] with some elements left out. *)
Inductive subsequence {A : Type} : list A -> list A -> Prop :=
| sub_nil : subsequence [] []
| sub_skip (x : A) (l1 l2 : list A) : subsequence l1 l2 -> subsequence l1 (x :: l2)
| sub_keep (x : A) (l1 l2 : list A) : subsequence l1 l2 -> subsequence (x :: l1) (x :: l2).

(** Every byte of the string is below 128. *)
Definition is_ascii (s : string) : bool :=
  forallb (fun c => (nat_of_ascii c <? 128)%nat) (list_ascii_of_string s).

Definition title_of (ev : event) : option string :=
  match ev with
  | EvNotify _ title _ _ _ => Some title
  | _ => None
  end.

(** The titles are composed by the code itself: [run_once], or
    [run_agent_once] without an advisory client. *)
Definition plain_titles (o : orchestrator) : Prop :=
  match o with
  | Core _ => True
  | Agent cfg => a_client cfg = false
  end.

(** A headline without a title, and the collaborators of an iteration
    whose first locale yields [first] and whose fallback locale yields
    [second]. *)
Definition untitled : item := <["url" := "https://example.com/de"]> ∅.

Definition two_locales (first second : list item) : ticker_env :=
  {| te_price := Ok (100, 102)%Q;
     te_query := Ok "AAPL";
     te_keywords := Raise OtherException;
     te_headlines := Ok first;
     te_headlines_fallback := Ok second;
     te_advice := Raise OtherException;
     te_notify := Ok tt;
     te_write := Ok tt;
     te_truncates := false;
     te_cache := None |}.

(** ** news.py: [fetch_headlines] *)

(** The two ways [fetch_headlines] reads the feed: with [feedparser]
    when it can be imported, with [requests] and [ElementTree]
    otherwise. *)
Inductive route : Type :=
| ViaFeedparser
| ViaRequests.

(** An entry of the feed, as the parser hands it over: the texts of
    its title, link and source, and its publication time in seconds
    since the epoch: [None] when the entry carries none, [Some (Raise
    _)] when its conversion raises. *)
Record feed_entry : Type := {
  fe_title : string;
  fe_link : string;
  fe_source : string;
  fe_published : option (result Z);
}.

(** What the loop body reads from an entry before it decides. *)
Record reading : Type := {
  rd_title : string;
  rd_link : string;
  rd_source : string;
  rd_time : option Z;        (* the time the age is computed from *)
  rd_published : string;     (* the text stored under [published] *)
}.

(** With [feedparser] the title and the link are stripped and a
    failing date conversion raises; with [ElementTree] every text is
    stripped by [_findtext] and a failing [parsedate_to_datetime] is
    passed over.  [isoformat] renders a time as
    [isoformat().replace("+00:00", "Z")] does. *)
Definition read_entry (L : pylib) (isoformat : Z -> string) (via : route) (e : feed_entry)
  : result reading :=
  match via with
  | ViaFeedparser =>
      (pub <- match fe_published e with
              | None => Ok None
              | Some r => (t <- r ;; Ok (Some t))
              end ;;
       Ok {| rd_title := strip L (fe_title e);
             rd_link := strip L (fe_link e);
             rd_source := or_str (fe_source e) "news.google.com";
             rd_time := pub;
             rd_published := match pub with Some t => isoformat t | None => "" end |})%result
  | ViaRequests =>
      let pub := match fe_published e with
                 | Some (Ok t) => Some t
                 | _ => None
                 end in
      Ok {| rd_title := strip L (fe_title e);
            rd_link := strip L (fe_link e);
            rd_source := or_str (strip L (fe_source e)) "news.google.com";
            rd_time := pub;
            rd_published := match pub with Some t => isoformat t | None => "" end |}
  end.

(** [age.total_seconds() > lookback_hours * 3600], the clock in
    microseconds and the publication time in seconds. *)
Definition too_old (now_us lookback_hours : Z) (r : reading) : bool :=
  match rd_time r with
  | Some t => lookback_hours * 3600 * 1000000 <? now_us - t * 1000000
  | None => false
  end.

Definition headline (title source url published : string) : item :=
  <["title" := title]>
    (<["source" := source]> (<["url" := url]> (<["published" := published]> ∅))).

(** The loop over the entries, with the list [out] built so far. *)
Fixpoint collect (L : pylib) (isoformat : Z -> string) (via : route)
  (now_us limit lookback_hours : Z) (entries : list feed_entry) (out : list item)
  : result (list item) :=
  match entries with
  | [] => Ok out
  | e :: rest =>
      (r <- read_entry L isoformat via e ;;
       if too_old now_us lookback_hours r then
         collect L isoformat via now_us limit lookback_hours rest out
       else
         out <-
           (if negb (String.eqb (rd_title r) "") && negb (String.eqb (rd_link r) "") then
              (url <- _extract_original_url L true (rd_link r) ;;
               Ok (out ++ [headline (rd_title r) (rd_source r) url (rd_published r)]))
            else Ok out) ;;
         if limit <=? Z.of_nat (List.length out) then Ok out
         else collect L isoformat via now_us limit lookback_hours rest out)%result
  end.

(** [fetch_headlines]: [feed] is what reading and parsing the feed
    yields.  The second way runs inside a [try] that answers any
    exception with the empty list. *)
Definition fetch_headlines (L : pylib) (isoformat : Z -> string) (via : route)
  (now_us : Z) (feed : result (list feed_entry)) (limit lookback_hours : Z)
  : result (list item) :=
  let body :=
    (entries <- feed ;;
     collect L isoformat via now_us limit lookback_hours entries [])%result in
  match via with
  | ViaFeedparser => body
  | ViaRequests => Ok (settled body [])
  end.

(** The headline the loop appends for an entry it keeps. *)
Definition kept_from (L : pylib) (isoformat : Z -> string) (via : route)
  (now_us lookback_hours : Z) (e : feed_entry) (it : item) : Prop :=
  exists r url,
    read_entry L isoformat via e = Ok r /\
    too_old now_us lookback_hours r = false /\
    rd_title r <> "" /\ rd_link r <> "" /\
    _extract_original_url L true (rd_link r) = Ok url /\
    it = headline (rd_title r) (rd_source r) url (rd_published r).

(** A rendering of times for the examples, and two entries published
    at second 1000: one with a link, one whose link the URL parser
    rejects. *)
Definition seconds_text (t : Z) : string := decimal t.

Definition story : feed_entry :=
  {| fe_title := "Apple beats estimates"; fe_link := "https://example.com/story";
     fe_source := "Example"; fe_published := Some (Ok 1000) |}.

Definition broken_link : feed_entry :=
  {| fe_title := "Apple tops forecasts"; fe_link := "[";
     fe_source := ""; fe_published := None |}.

(** ** The composer without an advisory body *)

(** The advisory answer [d] has no usable [body]: the key is missing
    or its value is falsy (null, false, 0, an empty string, list or
    object). *)
Definition no_body (d : gmap string pyval) : Prop :=
  d !! "body" = None \/ exists v, d !! "body" = Some v /\ truthy v = false.

(** The output of [format_plain_push], with the click URL as the
    composer returns it. *)
Definition plain_push (L : pylib) (ticker : string) (open_px last_px delta_pct : Q)
  (headlines : list item) : string * string * option pyval :=
  let '(title, body, click) := format_plain_push L ticker open_px last_px delta_pct headlines in
  (title, body, option_map PStr click).

(** An advisory answer with a title and a link but no body. *)
Definition advice_without_body : gmap string pyval :=
  <["send_alert" := PBool true]>
    (<["title" := PStr "Buy now"]> (<["click_url" := PStr "https://example.com/ad"]> ∅)).

(** ** company.py: names, base tickers and keywords *)

Definition LEGAL_SUFFIXES : list string :=
  [ "inc"; "inc."; "corp"; "corp."; "corporation"; "co"; "co."; "company";
    "ltd"; "ltd."; "limited"; "llc"; "lp"; "plc";
    "ag"; "se"; "gmbh"; "kgaa"; "kg"; "ohg"; "ug";
    "sa"; "s.a."; "nv"; "n.v."; "bv"; "b.v."; "ab"; "oy"; "oyj"; "oyj.";
    "spa"; "s.p.a."; "sarl"; "sas";
    "holding"; "holdings" ].

(** [s.lstrip(cs)], [s.rstrip(cs)] and [s.strip(cs)] for a string
    [cs] of ASCII characters. *)
Fixpoint lstrip_chars (cs s : string) : string :=
  match s with
  | String c rest => if in_chars c cs then lstrip_chars cs rest else s
  | EmptyString => EmptyString
  end.

Fixpoint rstrip_chars (cs s : string) : string :=
  match s with
  | EmptyString => EmptyString
  | String c rest =>
      match rstrip_chars cs rest with
      | EmptyString => if in_chars c cs then EmptyString else String c EmptyString
      | kept => String c kept
      end
  end.

Definition strip_chars (cs s : string) : string := rstrip_chars cs (lstrip_chars cs s).

(** The test of the [while] loop on the last part. *)
Definition legal (L : pylib) (part : string) : bool :=
  mem_str (strip_chars ",. " (lower L part)) LEGAL_SUFFIXES.

(** [while parts and legal(parts[-1]): parts.pop()]. *)
Fixpoint pop_legal (L : pylib) (parts : list string) : list string :=
  match parts with
  | [] => []
  | p :: rest =>
      match pop_legal L rest with
      | [] => if legal L p then [] else [p]
      | kept => p :: kept
      end
  end.

(** [_strip_legal_suffixes]; [words] is [str.split] without
    arguments. *)
Definition _strip_legal_suffixes (L : pylib) (words : string -> list string)
  (name : string) : string :=
  if String.eqb name "" then ""
  else
    let parts := List.map (strip_chars ",. ") (words name) in
    match pop_legal L parts with
    | [] => strip L name
    | kept => strip L (String.concat " " kept)
    end.

(** [s.split(c, 1)[0]]. *)
Fixpoint before_first (c : ascii) (s : string) : string :=
  match s with
  | EmptyString => EmptyString
  | String d rest => if Ascii.eqb c d then EmptyString else String d (before_first c rest)
  end.

Definition _base_ticker (symbol : string) : string :=
  if String.prefix "^" symbol then symbol
  else if contains "." symbol then before_first "." symbol
  else if contains "-" symbol then before_first "-" symbol
  else symbol.

(** The dataclass [CompanyMeta].  An instance built from a cache entry
    holds whatever JSON values the entry has. *)
Record CompanyMeta : Type := {
  cm_ticker : pyval;
  cm_name : pyval;
  cm_raw_name : pyval;
  cm_source : pyval;
  cm_base_ticker : pyval;
}.

(** [a or b]. *)
Definition py_or (a b : pyval) : pyval := if truthy a then a else b.

(** [v.strip()]: an [AttributeError] on a value that is no string. *)
Definition py_strip (L : pylib) (v : pyval) : result string :=
  match v with
  | PStr s => Ok (strip L s)
  | _ => Raise AttributeError
  end.

(** The loop of [auto_keywords] that drops blanks and repetitions. *)
Fixpoint dedupe (L : pylib) (seen : gset string) (req : list pyval)
  : result (list string) :=
  match req with
  | [] => Ok []
  | k :: rest =>
      (kk <- py_strip L k ;;
       if negb (String.eqb kk "") && negb (bool_decide (lower L kk ∈ seen)) then
         (cleaned <- dedupe L ({[lower L kk]} ∪ seen) rest ;; Ok (kk :: cleaned))
       else dedupe L seen rest)%result
  end.

(** [auto_keywords] after its call of [get_company_meta], which
    returned [meta]. *)
Definition auto_keywords (L : pylib) (meta : CompanyMeta) (symbol : string)
  : result (string * list string) :=
  (name <- py_strip L
             (py_or (cm_name meta)
                (py_or (cm_raw_name meta) (py_or (cm_base_ticker meta) (PStr symbol)))) ;;
   let base := py_or (cm_base_ticker meta) (PStr symbol) in
   cleaned <- dedupe L ∅ [PStr name; base; PStr symbol] ;;
   Ok (name, cleaned))%result.

(** The last character of [s] is [c]. *)
Fixpoint ends_with (c : ascii) (s : string) : bool :=
  match s with
  | EmptyString => false
  | String d EmptyString => Ascii.eqb c d
  | String _ rest => ends_with c rest
  end.

(** The entries of [LEGAL_SUFFIXES] that do not end with a full stop. *)
Definition undotted : list string :=
  List.filter (fun s => negb (ends_with "." s)) LEGAL_SUFFIXES.

(** The record of Apple as [get_company_meta] builds it. *)
Definition apple : CompanyMeta :=
  {| cm_ticker := PStr "AAPL"; cm_name := PStr "Apple"; cm_raw_name := PStr "Apple Inc.";
     cm_source := PStr "info.longName"; cm_base_ticker := PStr "AAPL" |}.

(** ** company.py: [get_company_meta] and its cache file *)

(** [_load_cache]: the parsed content of the cache file, whatever JSON
    value it is, or an empty dict when the file is missing or cannot
    be read or parsed.  The test [CACHE_FILE.exists()] stands before
    the [try]. *)
Definition _load_cache (fs : filesystem) (CACHE_FILE : string) : result pyval :=
  (there <- path_exists fs CACHE_FILE ;;
   if there : bool
   then try_except (read_json fs CACHE_FILE) (fun _ => Ok (PDict ∅))
   else Ok (PDict ∅))%result.

(** [symbol in cache]; a [TypeError] (here [OtherException]) on a
    value that is no container. *)
Definition py_in (symbol : string) (cache : pyval) : result bool :=
  match cache with
  | PDict d => Ok (match d !! symbol with Some _ => true | None => false end)
  | PList l => Ok (existsb (fun v => py_eq_str v symbol) l)
  | PStr s => Ok (contains symbol s)
  | _ => Raise OtherException
  end.

Definition field_names : list string :=
  ["ticker"; "name"; "raw_name"; "source"; "base_ticker"].

(** [CompanyMeta] called with the entries of [data] as its keyword
    arguments: [data] has to be a mapping that gives every field and
    nothing else. *)
Definition from_dict (data : pyval) : result CompanyMeta :=
  match data with
  | PDict d =>
      if forallb (fun k => mem_str k field_names) (List.map fst (map_to_list d)) then
        match d !! "ticker", d !! "name", d !! "raw_name", d !! "source",
              d !! "base_ticker" with
        | Some t, Some n, Some r, Some s, Some b =>
            Ok {| cm_ticker := t; cm_name := n; cm_raw_name := r; cm_source := s;
                  cm_base_ticker := b |}
        | _, _, _, _, _ => Raise OtherException
        end
      else Raise OtherException
  | _ => Raise OtherException
  end.

(** [asdict(meta)]. *)
Definition asdict (meta : CompanyMeta) : gmap string pyval :=
  <["ticker" := cm_ticker meta]>
    (<["name" := cm_name meta]>
       (<["raw_name" := cm_raw_name meta]>
          (<["source" := cm_source meta]>
             (<["base_ticker" := cm_base_ticker meta]> ∅)))).

(** The [try] around the lookup [cache[symbol]] and the construction
    of the record from it: the record, or [None] when either raises. *)
Definition cached (cache : pyval) (symbol : string) : option CompanyMeta :=
  match cache with
  | PDict d =>
      match d !! symbol with
      | Some data => settled (meta <- from_dict data ;; Ok (Some meta))%result None
      | None => None
      end
  | _ => None
  end.

(** The loop over the name fields of the Yahoo record: the first
    value that is not blank, with the source it is recorded under. *)
Fixpoint first_name (L : pylib) (info : gmap string pyval) (keys : list string)
  : result (option (string * string)) :=
  match keys with
  | [] => Ok None
  | k :: rest =>
      (v <- py_strip L (py_or (default PNone (info !! k)) (PStr "")) ;;
       if String.eqb v "" then first_name L info rest
       else Ok (Some (v, "info." +:+ k)))%result
  end.

(** The record built on a cache miss. *)
Definition build_meta (L : pylib) (words : string -> list string) (symbol : string)
  (found : option (string * string)) : CompanyMeta :=
  let clean :=
    match found with
    | Some (raw_name, _) => _strip_legal_suffixes L words raw_name
    | None => ""
    end in
  let base := _base_ticker symbol in
  {| cm_ticker := PStr symbol;
     cm_name := PStr (if String.eqb clean "" then base else clean);
     cm_raw_name := match found with Some (raw_name, _) => PStr raw_name | None => PNone end;
     cm_source :=
       PStr (if String.eqb clean "" then "fallback"
             else match found with Some (_, source) => source | None => "fallback" end);
     cm_base_ticker := PStr base |}.

(** [cache[symbol] = value]. *)
Definition set_item (cache : pyval) (symbol : string) (value : pyval) : result pyval :=
  match cache with
  | PDict d => Ok (PDict (<[symbol := value]> d))
  | _ => Raise OtherException
  end.

(** [get_company_meta]: [info] is what [_fetch_yf_info(symbol)]
    returns, [write] what [write_text] of [_save_cache] does and
    [truncates] whether a [write_text] that raises had opened the file;
    the function returns with the file system it leaves. *)
Definition get_company_meta (L : pylib) (words : string -> list string)
  (CACHE_FILE : string) (info : gmap string pyval) (write : result unit)
  (truncates : bool) (symbol : string) (fs : filesystem)
  : result CompanyMeta * filesystem :=
  match _load_cache fs CACHE_FILE with
  | Raise x => (Raise x, fs)
  | Ok cache =>
      match py_in symbol cache with
      | Raise x => (Raise x, fs)
      | Ok hit =>
          match (if hit then cached cache symbol else None) with
          | Some meta => (Ok meta, fs)
          | None =>
              match first_name L info ["longName"; "shortName"; "displayName"; "name"] with
              | Raise x => (Raise x, fs)
              | Ok found =>
                  let meta := build_meta L words symbol found in
                  match set_item cache symbol (PDict (asdict meta)) with
                  | Raise x => (Raise x, fs)
                  | Ok cache' =>
                      match write with
                      | Ok _ => (Ok meta, <[CACHE_FILE := Json cache']> fs)
                      | Raise x =>
                          (Raise x,
                           if truncates then <[CACHE_FILE := Unreadable ValueError]> fs
                           else fs)
                      end
                  end
              end
          end
      end
  end.

(** A Yahoo record for Apple, and another one. *)
Definition yahoo_apple : gmap string pyval :=
  <["longName" := PStr "Apple Inc."]> (<["shortName" := PStr "Apple"]> ∅).

Definition yahoo_other : gmap string pyval :=
  <["longName" := PStr "Apple Computer"]> ∅.

(** ** gui/app.py: the times of the settings page, and how core.py
    reads them back *)

(** The value of a run of decimal digits that single underscores may
    separate; [after_digit] tells whether the previous character was a
    digit. *)
Fixpoint digits_value (acc : Z) (after_digit : bool) (s : string) : option Z :=
  match s with
  | EmptyString => if after_digit then Some acc else None
  | String c rest =>
      if is_digit c then
        digits_value (acc * 10 + Z.of_nat (nat_of_ascii c - 48)) true rest
      else if Ascii.eqb c "_" && after_digit then digits_value acc false rest
      else None
  end.

(** [int(s)] on ASCII text: white space around the number, an
    optional sign, decimal digits. *)
Definition py_int (s : string) : result Z :=
  let t := ascii_strip s in
  let signed :=
    match t with
    | String "+" rest => digits_value 0 false rest
    | String "-" rest => option_map Z.opp (digits_value 0 false rest)
    | _ => digits_value 0 false t
    end in
  match signed with
  | Some v => Ok v
  | None => Raise ValueError
  end.

(** [datetime.time(hour, minute)]. *)
Definition dtime (hour minute : Z) : result (Z * Z) :=
  if (0 <=? hour) && (hour <=? 23) && (0 <=? minute) && (minute <=? 59)
  then Ok (hour, minute)
  else Raise ValueError.

(** [hhmm_to_time]. *)
Definition hhmm_to_time (s : string) : result (Z * Z) :=
  match split_all ":" (or_str s "09:30") with
  | [hh; mm] =>
      (h <- py_int hh ;; m <- py_int mm ;; dtime h m)%result
  | _ => Raise ValueError
  end.

(** The format [02d] of a number that is not negative. *)
Definition two_digits (n : Z) : string :=
  if n <? 10 then "0" +:+ decimal n else decimal n.

(** [time_to_hhmm]. *)
Definition time_to_hhmm (t : Z * Z) : string :=
  two_digits (fst t) +:+ ":" +:+ two_digits (snd t).

(** [open_hh, open_mm = map(int, text.split(":"))] of [is_market_hours]
    and [within_market_hours]. *)
Definition parse_hhmm (text : string) : result (Z * Z) :=
  match split_all ":" text with
  | [hh; mm] => (h <- py_int hh ;; m <- py_int mm ;; Ok (h, m))%result
  | _ => Raise ValueError
  end.

(** Schema A of [is_market_hours] on the texts of the configuration:
    both times are parsed before anything else is looked at. *)
Definition is_market_hours_text (open close : string) (active_days : list Z)
  (pause_on_closed : bool) (n : datetime) : result bool :=
  (o <- parse_hhmm open ;;
   c <- parse_hhmm close ;;
   is_market_hours
     (SchemaA {| mh_open := o; mh_close := c; mh_active_days := active_days;
                 mh_pause_on_closed := pause_on_closed |}) n)%result.

(** The times of a day, hour by hour and minute by minute. *)
Definition clock_faces : list (Z * Z) :=
  List.flat_map (fun h => List.map (fun m => (Z.of_nat h, Z.of_nat m)) (List.seq 0 60))
    (List.seq 0 24).

Definition reads_back (t : Z * Z) : bool :=
  match hhmm_to_time (time_to_hhmm t), parse_hhmm (time_to_hhmm t) with
  | Ok (h, m), Ok (h', m') =>
      (h =? fst t) && (m =? snd t) && (h' =? fst t) && (m' =? snd t)
  | _, _ => false
  end.

(** The same window from hour [s] to hour [e], Monday to Friday, in
    the two schemas of [is_market_hours]. *)
Definition hours_a (s e : Z) : schema_a :=
  {| mh_open := (s, 0); mh_close := (e, 0);
     mh_active_days := [1; 2; 3; 4; 5]; mh_pause_on_closed := true |}.

Definition hours_b (s e : Z) : schema_b :=
  {| mb_enabled := true; mb_start_hour := s; mb_end_hour := e;
     mb_days_mon_to_fri_only := true |}.

(** * Theorems *)

(** ** The direction classifier *)

Lemma Qge_bool_iff (a b : Q) : Qge_bool a b = true <-> (b <= a)%Q.
Proof. unfold Qge_bool. apply Qle_bool_iff. Qed.


Lemma classify_cases (d t : Q) :
  classify d t = "up" \/ classify d t = "down" \/ classify d t = "none".
Proof.
  unfold classify.
  destruct (Qge_bool d t); [auto |].
  destruct (Qle_bool d (- t)); auto.
Qed.



(** The change is the one the code computes in floating point.  From
    13.40 to 14.07 it is exactly 5.0, a breakout at a threshold of 5;
    from 98.86 to 102.033406 it is 3.2099999999999995, short of a
    threshold of 3.21 that the exact quotient would meet. *)
Lemma pct_change_is_rounded :
  (pct_change (1340 # 100) (1407 # 100) == 5)%Q /\
  classify (pct_change (1340 # 100) (1407 # 100)) (b64 5) = "up" /\
  (pct_change (9886 # 100) (102033406 # 1000000)
   == 7228277401929645 # 2251799813685248)%Q /\
  classify (pct_change (9886 # 100) (102033406 # 1000000)) (b64 (321 # 100)) = "none" /\
  classify (((102033406 # 1000000) - (9886 # 100)) / (9886 # 100) * 100)%Q (321 # 100) = "up".
Proof. repeat split; vm_compute; reflexivity. Qed.

(** ** Loading the state *)





(** ** Market hours *)

Lemma replace_time_ok (n : datetime) (hm : Z * Z) :
  valid_hm hm ->
  replace_time n (fst hm) (snd hm) =
  Ok {| dt_ordinal := dt_ordinal n; dt_hour := fst hm; dt_minute := snd hm;
        dt_second := 0; dt_microsecond := 0 |}.
Proof.
  intros [[H1 H2] [H3 H4]]. unfold replace_time.
  apply Z.leb_le in H1, H2, H3, H4. now rewrite H1, H2, H3, H4.
Qed.

Lemma in_days_In (wk : Z) (days : list Z) : in_days wk days = true <-> In wk days.
Proof.
  unfold in_days. rewrite existsb_exists. split.
  - intros [x [Hx Heq]]. apply Z.eqb_eq in Heq. now subst.
  - intros H. exists wk. split; [assumption | apply Z.eqb_refl].
Qed.

Lemma window_a_spec (a : schema_a) (n : datetime) :
  valid_hm (mh_open a) -> valid_hm (mh_close a) ->
  exists b, window_a a n = Ok b /\
    (b = true <->
     (mh_active_days a = [] \/ In (weekday n + 1) (mh_active_days a)) /\
     hm_time (mh_open a) <= time_of_day n <= hm_time (mh_close a)).
Proof.
  intros Ho Hc. unfold window_a.
  rewrite (replace_time_ok n _ Ho), (replace_time_ok n _ Hc). simpl.
  set (days_ok := negb match mh_active_days a with [] => false | _ => true end
                  || in_days (weekday n + 1) (mh_active_days a)).
  assert (Hdays : days_ok = true <->
                  mh_active_days a = [] \/ In (weekday n + 1) (mh_active_days a)).
  { unfold days_ok. rewrite orb_true_iff, in_days_In.
    destruct (mh_active_days a); simpl; split; intros [H | H]; auto; discriminate. }
  destruct days_ok.
  - eexists. split; [reflexivity |].
    rewrite andb_true_iff. unfold dt_le, dt_key, hm_time, time_of_day. simpl.
    rewrite !Z.leb_le. split.
    + intros [H1 H2]. split; [apply Hdays; reflexivity | lia].
    + intros [_ H]. lia.
  - exists false. split; [reflexivity |]. split; [discriminate |].
    intros [H _]. apply Hdays in H. discriminate.
Qed.

(** C8, as the code has it. With [pause_on_closed] set, both checks
    answer true exactly when the weekday is among the active days (or no
    active day is configured) and the clock reading lies in the closed
    interval from open to close: the close instant itself is inside,
    every later reading is outside. *)
Theorem market_window_closed_interval (a : schema_a) (n : datetime) :
  mh_pause_on_closed a = true ->
  valid_hm (mh_open a) -> valid_hm (mh_close a) ->
  exists b : bool,
    is_market_hours (SchemaA a) n = Ok b /\
    within_market_hours a n = Ok b /\
    (b = true <->
     (mh_active_days a = [] \/ In (weekday n + 1) (mh_active_days a)) /\
     hm_time (mh_open a) <= time_of_day n <= hm_time (mh_close a)).
Proof.
  intros Hp Ho Hc.
  destruct (window_a_spec a n Ho Hc) as [b [Hw Hb]].
  exists b. unfold is_market_hours, within_market_hours. rewrite Hp. simpl.
  auto.
Qed.

Lemma market_window_witness :
  exists b : bool,
    is_market_hours (SchemaA nyse) (wednesday 16 0 0 1) = Ok b /\
    within_market_hours nyse (wednesday 16 0 0 1) = Ok b /\
    (b = true <->
     (mh_active_days nyse = [] \/ In (weekday (wednesday 16 0 0 1) + 1) (mh_active_days nyse)) /\
     hm_time (mh_open nyse) <= time_of_day (wednesday 16 0 0 1) <= hm_time (mh_close nyse)).
Proof.
  apply (market_window_closed_interval nyse (wednesday 16 0 0 1)).
  - reflexivity.
  - unfold valid_hm; simpl; lia.
  - unfold valid_hm; simpl; lia.
Defined.

(** C8, counterexample. At the close instant of an active day (16:00:00
    sharp, a reading that is not before the close) both checks answer
    true. *)
Lemma market_open_at_close_instant :
  is_market_hours (SchemaA nyse) (wednesday 16 0 0 0) = Ok true /\
  within_market_hours nyse (wednesday 16 0 0 0) = Ok true /\
  In (weekday (wednesday 16 0 0 0) + 1) (mh_active_days nyse) /\
  ~ (time_of_day (wednesday 16 0 0 0) < hm_time (mh_close nyse)).
Proof.
  repeat split.
  - vm_compute. tauto.
  - vm_compute. discriminate.
Qed.

(** ** The composer's send decision *)

Lemma should_send_equation (L : pylib) (client : bool) (advice : result pyval)
  (tk : string) (o l d : Q) (hs : list item) (thr : Q) :
  should_send L client advice tk o l d hs thr =
  match client, advice with
  | true, Ok (PDict m) =>
      match m !! "send_alert" with
      | Some v => truthy v
      | None => magnitude_test d thr
      end
  | _, _ => magnitude_test d thr
  end.
Proof.
  unfold should_send, agent_summarize_and_decide.
  destruct (format_plain_push L tk o l d hs) as [[title body] click].
  destruct client; [| reflexivity].
  destruct advice as [v | e]; [| reflexivity].
  destruct v; try reflexivity.
  simpl. destruct (String.eqb _ ""); reflexivity.
Qed.

(** C2, as the code has it. When the magnitude test holds the composer
    decides to send if no client is configured, if the call or the
    parsing raises, if the answer is no JSON object, and if the object
    has no [send_alert] field; an object with the field decides by the
    truth value of that field, so a false (or null, zero, empty) answer
    withholds the alert.  An exception gives exactly the outcome of the
    composer without a client. *)
Theorem advisory_send_decision (L : pylib) (client : bool) (advice : result pyval)
  (tk : string) (o l d : Q) (hs : list item) (thr : Q) :
  magnitude_test d thr = true ->
  should_send L client advice tk o l d hs thr =
    match client, advice with
    | true, Ok (PDict m) =>
        match m !! "send_alert" with
        | Some v => truthy v
        | None => true
        end
    | _, _ => true
    end
  /\ forall e : exn,
       agent_summarize_and_decide L true (Raise e) tk o l d hs thr =
       agent_summarize_and_decide L false advice tk o l d hs thr.
Proof.
  intros Hm. split.
  - rewrite should_send_equation, Hm. reflexivity.
  - intros e. reflexivity.
Qed.

Lemma advisory_send_decision_witness :
  should_send (ascii_lib offline) true (Raise RequestException) "AAPL" 100 (203 # 2) (3 # 2) [] 1
  = true.
Proof.
  exact (proj1 (advisory_send_decision (ascii_lib offline) true (Raise RequestException)
                  "AAPL" 100 (203 # 2) (3 # 2) [] 1 eq_refl)).
Defined.

(** C2, counterexample. A change of 5% against a threshold of 1%
    passes the magnitude test, and the composer still decides not to
    send when the advisory answer says [send_alert: false]. *)
Lemma advisory_answer_suppresses_alert :
  magnitude_test 5 1 = true /\
  should_send (ascii_lib offline) true (Ok advice_hold) "AAPL" 100 105 5 [] 1 = false.
Proof. split; reflexivity. Qed.

(** ** One loop iteration of [run_once] *)

Ltac unchanged :=
  eexists; split; [reflexivity | first [left; reflexivity | right; left; reflexivity]].

Ltac changed v before :=
  eexists; split; [reflexivity |];
  right; right; exists v, before; unfold file_after_write; simpl;
  try match goal with H : te_write _ = _ |- _ => rewrite ?H end; simpl;
  repeat split; auto;
  try (rewrite <- ?app_assoc; reflexivity);
  try (right; do 4 eexists; reflexivity).

Lemma process_ticker_transition (L : pylib) (cfg : run_cfg) (tk : string)
  (e : ticker_env) (w : world) :
  exists w', process_ticker L cfg tk e w = (Ok tt, w') /\
             transition (state_file cfg) tk e w w'.
Proof.
  unfold process_ticker, try_catch, ticker_body, bind, lift, get_state, raise, ret,
    company_lookup.
  destruct (te_price e) as [[open_px last_px] | x]; [| unchanged].
  destruct (Qeq_bool open_px 0); [unchanged |].
  destruct (classify_cases (effective_pct cfg open_px last_px) (b64 (threshold_pct cfg)))
    as [Hd | [Hd | Hd]];
    rewrite Hd; simpl;
    (destruct (py_ne_str _ _); [| unchanged]);
    try (destruct (enrichment L (news_enabled cfg) e) as [[blk click] | x];
         [| destruct (news_enabled cfg); unchanged];
         unfold notify_ntfy; destruct (te_notify e) as [[] | x];
         [| destruct (news_enabled cfg); unchanged]);
    unfold save_state, emit; simpl; destruct (te_write e) as [[] | x] eqn:Hw; simpl.
  1-4: destruct (news_enabled cfg);
    match goal with
    | Hd : classify _ _ = ?d |- _ =>
        changed d [EvNotify tk (_format_title tk)
          (_format_body L tk open_px (effective_last cfg open_px last_px)
             (effective_pct cfg open_px last_px) +:+ blk)
          (option_map PStr click) (tc_dry_run (test cfg))]
    end.
  - changed "none" (@nil event).
  - changed "none" (@nil event).
Qed.

Lemma set_then_save_app (path : string) (l1 l2 : list event) :
  set_then_save path l1 -> set_then_save path l2 -> set_then_save path (l1 ++ l2).
Proof.
  induction l1 as [| ev l1 IH]; simpl; [auto |].
  intros H1 H2. destruct ev; auto.
  destruct H1 as [Hv [Hnext Hrest]]. repeat split; auto.
  destruct l1 as [| ev' l1']; [contradiction |].
  destruct ev'; try contradiction. exact Hnext.
Qed.

Lemma transition_log (path tk : string) (e : ticker_env) (w w' : world) :
  transition path tk e w w' ->
  exists new, w_log w' = w_log w ++ new /\ set_then_save path new.
Proof.
  intros [-> | [-> | [v [before [Hv [Hst [Hlog [Hbefore _]]]]]]]].
  - exists []. split; [now rewrite app_nil_r | exact I].
  - exists []. split; [simpl; now rewrite app_nil_r | exact I].
  - exists (before ++ [EvSet tk v; EvSave path (w_state w') (is_ok (te_write e))]).
    split; [exact Hlog |].
    apply set_then_save_app.
    + destruct Hbefore as [-> | [t [m [c [dr ->]]]]]; exact I.
    + simpl. repeat split; auto. rewrite Hst. apply lookup_insert_eq.
Qed.

Lemma for_each_log (L : pylib) (cfg : run_cfg) (work : list (string * ticker_env)) :
  forall w, exists w' new,
    for_each (process_ticker L cfg) work w = (Ok tt, w') /\
    w_log w' = w_log w ++ new /\ set_then_save (state_file cfg) new.
Proof.
  induction work as [| [tk e] rest IH]; intros w.
  - exists w, []. repeat split. now rewrite app_nil_r.
  - destruct (process_ticker_transition L cfg tk e w) as [w1 [Hrun Htr]].
    destruct (transition_log _ _ _ _ _ Htr) as [new1 [Hlog1 Hs1]].
    destruct (IH w1) as [w2 [new2 [Hrest [Hlog2 Hs2]]]].
    exists w2, (new1 ++ new2).
    simpl. unfold bind. rewrite Hrun, Hrest. repeat split.
    + rewrite Hlog2, Hlog1. now rewrite app_assoc.
    + now apply set_then_save_app.
Qed.

Lemma load_after_save (fs : filesystem) (path : string) (m : gmap string pyval) :
  load_state (<[path := Json (PDict m)]> fs) path = Ok m.
Proof.
  unfold load_state, path_exists, read_json. now rewrite lookup_insert_eq.
Qed.

Lemma load_after_failed_save (fs : filesystem) (path : string) :
  load_state (<[path := Unreadable ValueError]> fs) path = Ok ∅.
Proof.
  unfold load_state, path_exists, read_json. now rewrite lookup_insert_eq.
Qed.

(** C9, as the code has it. In [run_once], each loop iteration returns
    and either assigns nothing or makes one assignment [state[tk] = v]
    with [v] among "up", "down" and "none", and the next thing it does
    is to save the whole mapping.  When [write_text] returns, the state
    file holds the mapping with the ticker's new value; when it raises,
    the mapping in memory keeps the new value and the file is as it
    was, or unreadable if the write had opened it.  Over a whole run,
    every assignment in the log is followed at once by the save of a
    mapping that holds it. *)
Theorem state_saved_after_each_mutation (L : pylib) (cfg : run_cfg) :
  (forall tk e w, exists w',
      process_ticker L cfg tk e w = (Ok tt, w') /\
      transition (state_file cfg) tk e w w') /\
  (forall tk e w,
      te_write e = Ok tt ->
      w_state (snd (process_ticker L cfg tk e w)) = w_state w \/
      load_state (w_fs (snd (process_ticker L cfg tk e w))) (state_file cfg)
      = Ok (w_state (snd (process_ticker L cfg tk e w)))) /\
  (forall now work w, exists new,
      w_log (snd (run_once L cfg now work w)) = w_log w ++ new /\
      set_then_save (state_file cfg) new).
Proof.
  split; [apply process_ticker_transition |]. split.
  - intros tk e w Hw.
    destruct (process_ticker_transition L cfg tk e w) as [w' [-> Htr]]. simpl.
    destruct Htr as [-> | [-> | [v [before [_ [_ [_ [_ [Hfs _]]]]]]]]];
      [left; reflexivity | left; reflexivity | right].
    rewrite Hfs. unfold file_after_write. rewrite Hw. apply load_after_save.
  - intros now work w. unfold run_once, bind, lift, ret, raise.
    destruct (negb (timezone_known cfg));
      [exists []; simpl; split; [now rewrite app_nil_r | exact I] |].
    destruct (is_market_hours (market_hours cfg) now) as [b | x];
      [| exists []; simpl; split; [now rewrite app_nil_r | exact I]].
    destruct (negb _);
      [exists []; simpl; split; [now rewrite app_nil_r | exact I] |].
    unfold load_into_state.
    destruct (load_state (w_fs w) (state_file cfg)) as [d | x];
      [| exists []; simpl; split; [now rewrite app_nil_r | exact I]].
    destruct (for_each_log L cfg work (with_state d w))
      as [w' [new [Hrun [Hlog Hs]]]].
    exists new. rewrite Hrun. simpl. auto.
Qed.

Lemma state_saved_witness :
  w_state (snd (process_ticker (ascii_lib offline) demo_core "AAPL"
                  (quote 100 102 (Raise OtherException)) (loaded_with "none")))
  = w_state (loaded_with "none") \/
  load_state
    (w_fs (snd (process_ticker (ascii_lib offline) demo_core "AAPL"
                  (quote 100 102 (Raise OtherException)) (loaded_with "none"))))
    (state_file demo_core)
  = Ok (w_state (snd (process_ticker (ascii_lib offline) demo_core "AAPL"
                        (quote 100 102 (Raise OtherException)) (loaded_with "none")))).
Proof.
  apply (proj1 (proj2 (state_saved_after_each_mutation (ascii_lib offline) demo_core))
           "AAPL" (quote 100 102 (Raise OtherException)) (loaded_with "none")).
  reflexivity.
Defined.

(** C9, counterexample. AAPL breaks out upwards while the disk is
    full.  The notification is dispatched and the mapping in memory
    records "up", but the write that follows raises after it has
    emptied the state file: the persisted file does not reflect the new
    state, and what the next run loads from it is the empty mapping. *)
Lemma failed_write_is_not_persisted :
  w_state (snd (process_ticker (ascii_lib offline) demo_core "AAPL"
                  (disk_full (quote 100 102 (Raise OtherException))) (loaded_with "none")))
    !! "AAPL" = Some (PStr "up") /\
  notifications_for "AAPL"
    (w_log (snd (process_ticker (ascii_lib offline) demo_core "AAPL"
                   (disk_full (quote 100 102 (Raise OtherException)))
                   (loaded_with "none")))) = 1%nat /\
  load_state
    (w_fs (snd (process_ticker (ascii_lib offline) demo_core "AAPL"
                  (disk_full (quote 100 102 (Raise OtherException))) (loaded_with "none"))))
    (state_file demo_core)
  = Ok ∅.
Proof. repeat split; vm_compute; reflexivity. Qed.

(** ** A zero open price *)

(** In [run_once] an open price of zero ends the iteration before
    anything is computed or written, and the loop goes on. *)
Theorem core_skips_zero_open (L : pylib) (cfg : run_cfg) (tk : string) (e : ticker_env)
  (open_px last_px : Q) (rest : list (string * ticker_env)) (w : world) :
  te_price e = Ok (open_px, last_px) -> (open_px == 0)%Q ->
  process_ticker L cfg tk e w = (Ok tt, w) /\
  for_each (process_ticker L cfg) ((tk, e) :: rest) w
  = for_each (process_ticker L cfg) rest w.
Proof.
  intros Hp Hz. apply Qeq_bool_iff in Hz.
  assert (H : process_ticker L cfg tk e w = (Ok tt, w)).
  { unfold process_ticker, try_catch, ticker_body, bind, lift, raise, ret.
    rewrite Hp, Hz. reflexivity. }
  split; [exact H |]. simpl. unfold bind. now rewrite H.
Qed.

Lemma core_skips_zero_open_witness :
  process_ticker (ascii_lib offline) demo_core "AAPL"
    (quote 0 150 (Raise OtherException)) (world_with "up")
  = (Ok tt, world_with "up").
Proof.
  exact (proj1 (core_skips_zero_open (ascii_lib offline) demo_core "AAPL"
                  (quote 0 150 (Raise OtherException)) 0 150 [] (world_with "up")
                  eq_refl (Qeq_refl 0))).
Defined.

(** The scenario of the specification: AAPL opens at 100.00 and
    stands at 101.50 against a threshold of 1%, with no stored state.
    [run_once] dispatches the alert, records "up" and saves it. *)
Theorem first_breakout_scenario :
  snd (run_once (ascii_lib offline) demo_core noon
         [("AAPL", quote 100 (203 # 2) (Raise OtherException))] fresh_world)
  = {| w_state := {["AAPL" := PStr "up"]};
       w_fs := {["alert_state.json" := Json (PDict {["AAPL" := PStr "up"]})]};
       w_cache := None;
       w_log :=
         [EvNotify "AAPL" "Stock Alert: AAPL"
            ("📈 AAPL: +1.50% vs. Open" +:+ nl +:+ "Aktuell: 101.50 | Open: 100.00")
            None false;
          EvSet "AAPL" "up";
          EvSave "alert_state.json" {["AAPL" := PStr "up"]} true] |}.
Proof. vm_compute. reflexivity. Qed.

(** C3, the failing input. The state file records "up" for AAPL and
    the price feed quotes an open price of 0.  [run_once] leaves the file
    and the log as they were; [run_agent_once] takes the quote for a
    change of 0%, writes "none" for AAPL and saves it. *)
Theorem agent_resets_on_zero_open :
  snd (run_once (ascii_lib offline) demo_core noon
         [("AAPL", quote 0 150 (Raise OtherException))] (world_with "up"))
  = {| w_state := {["AAPL" := PStr "up"]};
       w_fs := w_fs (world_with "up");
       w_cache := None;
       w_log := [] |}
  /\
  snd (run_agent_once (ascii_lib offline) (demo_agent false) noon
         [("AAPL", quote 0 150 (Raise OtherException))] (world_with "up"))
  = {| w_state := {["AAPL" := PStr "none"]};
       w_fs := {["alert_state.json" := Json (PDict {["AAPL" := PStr "none"]})]};
       w_cache := None;
       w_log := [EvSet "AAPL" "none";
                 EvSave "alert_state.json" {["AAPL" := PStr "none"]} true] |}.
Proof. split; vm_compute; reflexivity. Qed.

(** ** The corridor state machine over successive runs *)

Lemma agent_ticker_transition (L : pylib) (cfg : agent_cfg) (t : string)
  (e : ticker_env) (w : world) :
  exists w', agent_ticker L cfg t e w = (Ok tt, w') /\
             transition (a_state_file cfg) t e w w'.
Proof.
  unfold agent_ticker, try_catch, agent_body, bind, lift, get_state, raise, ret,
    company_lookup.
  destruct (te_price e) as [[open_px last_px] | x]; [| unchanged].
  destruct (agent_headlines (a_news_enabled cfg) e) as [hs | x];
    [| destruct (a_news_enabled cfg); unchanged].
  destruct (agent_summarize_and_decide _ _ _ _ _ _ _ _ _) as [[[send title] body] click].
  destruct (classify_cases (pct_change open_px last_px) (b64 (a_threshold_pct cfg)))
    as [Hd | [Hd | Hd]];
    rewrite Hd; simpl;
    (destruct (py_ne_str _ _); [| destruct (a_news_enabled cfg); unchanged]);
    try (destruct send; [| destruct (a_news_enabled cfg); unchanged]; simpl;
         unfold notify_ntfy; destruct (te_notify e) as [[] | x];
         [| destruct (a_news_enabled cfg); unchanged]);
    unfold save_state, emit; simpl; destruct (te_write e) as [[] | x] eqn:Hw; simpl;
    destruct (a_news_enabled cfg).
  1-8: match goal with
       | Hd : classify _ _ = ?d |- _ =>
           changed d [EvNotify t title body click (a_dry_run cfg)]
       end.
  all: changed "none" (@nil event).
Qed.

Lemma step_transition (L : pylib) (o : orchestrator) (tk : string)
  (e : ticker_env) (w : world) :
  exists w', step L o tk e w = (Ok tt, w') /\
             transition (storage o) tk e w w'.
Proof.
  destruct o as [cfg | cfg]; simpl.
  - apply process_ticker_transition.
  - apply agent_ticker_transition.
Qed.

Lemma notifications_for_app (tk : string) (l1 l2 : list event) :
  notifications_for tk (l1 ++ l2)
  = (notifications_for tk l1 + notifications_for tk l2)%nat.
Proof. unfold notifications_for. now rewrite List.filter_app, List.length_app. Qed.

(** An iteration for another ticker leaves the value of [tk] in memory
    and the notifications for [tk] as they were, and the value of [tk]
    in the state file too, unless its write destroys the file. *)
Lemma transition_other (path tk other : string) (e : ticker_env) (w w' : world) :
  other <> tk ->
  transition path other e w w' ->
  w_state w' !! tk = w_state w !! tk /\
  notifications_for tk (w_log w') = notifications_for tk (w_log w) /\
  (keeps_file e -> forall v, agrees path tk v w -> agrees path tk v w').
Proof.
  intros Hne [-> | [-> | [x [before [Hx [Hst [Hlog [Hbefore [Hfs _]]]]]]]]];
    [auto | auto |].
  assert (Hmem : w_state w' !! tk = w_state w !! tk).
  { rewrite Hst. now apply lookup_insert_ne. }
  split; [exact Hmem |]. split.
  - rewrite Hlog, !notifications_for_app.
    assert (H0 : notifications_for tk before = O).
    { destruct Hbefore as [-> | [t [m [c [dr ->]]]]]; [reflexivity |].
      unfold notifications_for. simpl.
      apply String.eqb_neq in Hne. now rewrite Hne. }
    rewrite H0.
    change (notifications_for tk
              [EvSet other x; EvSave path (w_state w') (is_ok (te_write e))])
      with O.
    lia.
  - intros Hkeep v [Hv [d [Hload Hd]]]. split; [now rewrite Hmem |].
    rewrite Hfs. unfold file_after_write.
    destruct (te_write e) as [[] | y] eqn:Hw.
    + exists (w_state w'). rewrite load_after_save. split; [reflexivity |].
      now rewrite Hmem.
    + destruct Hkeep as [Hok | Htr]; [congruence |].
      rewrite Htr. exists d. auto.
Qed.

Lemma for_each_others (L : pylib) (o : orchestrator) (tk : string)
  (work : list (string * ticker_env)) :
  Forall (fun other => fst other <> tk /\ keeps_file (snd other)) work ->
  forall (w : world) (v : option pyval),
    agrees (storage o) tk v w ->
    exists w', for_each (step L o) work w = (Ok tt, w') /\
      agrees (storage o) tk v w' /\
      notifications_for tk (w_log w') = notifications_for tk (w_log w).
Proof.
  induction 1 as [| [other e] rest [Hne Hkeep] _ IH]; intros w v Hv.
  - exists w. auto.
  - simpl in Hne, Hkeep.
    destruct (step_transition L o other e w) as [w1 [Hstep Htr]].
    destruct (transition_other _ tk _ _ _ _ Hne Htr) as [_ [Hn1 Hfile]].
    destruct (IH w1 v (Hfile Hkeep v Hv)) as [w2 [Hrest [Hv2 Hn2]]].
    exists w2. simpl. unfold bind. rewrite Hstep.
    split; [exact Hrest |]. split; [exact Hv2 |]. now rewrite Hn2.
Qed.

Lemma for_each_app (stepf : string -> ticker_env -> M unit)
  (l1 l2 : list (string * ticker_env)) (w w1 : world) :
  for_each stepf l1 w = (Ok tt, w1) ->
  for_each stepf (l1 ++ l2) w = for_each stepf l2 w1.
Proof.
  revert w. induction l1 as [| [tk e] l1 IH]; intros w H.
  - simpl in H. injection H as ->. reflexivity.
  - simpl in *. unfold bind in *.
    destruct (stepf tk e w) as [[[] | x] w0]; [now apply IH | discriminate].
Qed.

Ltac saved_and_counted :=
  eexists; split; [reflexivity |];
  unfold agrees; simpl; rewrite lookup_insert_eq, load_after_save;
  split; [split; [reflexivity | eexists; split; [reflexivity | apply lookup_insert_eq]] |];
  rewrite !notifications_for_app.

(** The iteration for [tk] itself, when it is observed with [dir] and
    its collaborators do their part: the transition rule. *)
Lemma core_step_healthy (L : pylib) (cfg : run_cfg) (tk : string) (e : ticker_env)
  (dir : string) (v : option pyval) (w : world) :
  observes (Core cfg) e dir ->
  collaborators_succeed L (Core cfg) e ->
  agrees (state_file cfg) tk v w ->
  exists w', process_ticker L cfg tk e w = (Ok tt, w') /\
    agrees (state_file cfg) tk (next_value v dir) w' /\
    notifications_for tk (w_log w')
    = (notifications_for tk (w_log w) + if fires (default (PStr "none") v) dir then 1 else 0)%nat.
Proof.
  intros [open_px [last_px [Hp [Hz Hd]]]] [Hn [Hw [[blk click] Hnews]]] [Hmem Hfile].
  unfold process_ticker, try_catch, ticker_body, bind, lift, get_state, raise, ret,
    company_lookup.
  rewrite Hp, Hz, Hd, Hmem. simpl.
  unfold next_value, fires, resets.
  destruct (String.eqb dir "none") eqn:Hnone; simpl.
  - apply String.eqb_eq in Hnone. clear Hd. subst dir.
    destruct (py_ne_str _ "none"); simpl.
    + unfold save_state, file_after_write. rewrite Hw. simpl. saved_and_counted.
      change (notifications_for tk [EvSet tk "none"]) with O.
      change (notifications_for tk [EvSave ?p ?m true]) with O.
      lia.
    + eexists. split; [reflexivity |]. split; [split; assumption | lia].
  - destruct (py_ne_str _ dir); simpl.
    + rewrite Hnews. unfold notify_ntfy. rewrite Hn.
      unfold save_state, file_after_write, emit. rewrite Hw. simpl.
      destruct (news_enabled cfg); saved_and_counted;
        change (notifications_for tk [EvSet tk dir]) with O;
        change (notifications_for tk [EvSave ?p ?m true]) with O;
        unfold notifications_for at 2; simpl; rewrite String.eqb_refl; simpl; lia.
    + eexists. split; [reflexivity |]. split; [split; assumption | lia].
Qed.

Lemma agent_step_healthy (L : pylib) (cfg : agent_cfg) (tk : string) (e : ticker_env)
  (dir : string) (v : option pyval) (w : world) :
  observes (Agent cfg) e dir ->
  collaborators_succeed L (Agent cfg) e ->
  (dir <> "none" -> composer_sends L (Agent cfg) tk e) ->
  agrees (a_state_file cfg) tk v w ->
  exists w', agent_ticker L cfg tk e w = (Ok tt, w') /\
    agrees (a_state_file cfg) tk (next_value v dir) w' /\
    notifications_for tk (w_log w')
    = (notifications_for tk (w_log w) + if fires (default (PStr "none") v) dir then 1 else 0)%nat.
Proof.
  intros [open_px [last_px [Hp Hd]]] [Hn [Hw [hs Hnews]]] Hsend [Hmem Hfile].
  simpl in *.
  unfold agent_ticker, try_catch, agent_body, bind, lift, get_state, raise, ret,
    company_lookup.
  rewrite Hp, Hd, Hnews, Hmem. simpl.
  unfold next_value, fires, resets.
  destruct (String.eqb dir "none") eqn:Hnone; simpl.
  - apply String.eqb_eq in Hnone. clear Hd Hsend. subst dir.
    destruct (agent_summarize_and_decide _ _ _ _ _ _ _ _ _) as [[[send title] body] click].
    destruct (py_ne_str _ "none"); simpl.
    + unfold save_state, file_after_write. rewrite Hw. simpl.
      destruct (a_news_enabled cfg); saved_and_counted;
        change (notifications_for tk [EvSet tk "none"]) with O;
        change (notifications_for tk [EvSave ?p ?m true]) with O;
        lia.
    + destruct (a_news_enabled cfg);
        (eexists; split; [reflexivity |]; split; [split; assumption | simpl; lia]).
  - assert (Hne : dir <> "none") by (intros ->; discriminate).
    specialize (Hsend Hne _ _ _ Hp Hnews). unfold should_send in Hsend.
    destruct (agent_summarize_and_decide _ _ _ _ _ _ _ _ _) as [[[send title] body] click].
    simpl in Hsend. subst send.
    destruct (py_ne_str _ dir); simpl.
    + unfold notify_ntfy. rewrite Hn.
      unfold save_state, file_after_write, emit. rewrite Hw. simpl.
      destruct (a_news_enabled cfg); saved_and_counted;
        change (notifications_for tk [EvSet tk dir]) with O;
        change (notifications_for tk [EvSave ?p ?m true]) with O;
        unfold notifications_for at 2; simpl; rewrite String.eqb_refl; simpl; lia.
    + destruct (a_news_enabled cfg);
        (eexists; split; [reflexivity |]; split; [split; assumption | simpl; lia]).
Qed.



Lemma step_healthy (L : pylib) (o : orchestrator) (tk : string) (e : ticker_env)
  (dir : string) (v : option pyval) (w : world) :
  observes o e dir ->
  collaborators_succeed L o e ->
  (dir <> "none" -> composer_sends L o tk e) ->
  agrees (storage o) tk v w ->
  exists w', step L o tk e w = (Ok tt, w') /\
    agrees (storage o) tk (next_value v dir) w' /\
    notifications_for tk (w_log w')
    = (notifications_for tk (w_log w) + if fires (default (PStr "none") v) dir then 1 else 0)%nat.
Proof.
  destruct o as [cfg | cfg]; simpl; intros Hobs Hcol Hsend Hv.
  - now apply core_step_healthy.
  - now apply agent_step_healthy.
Qed.

(** Past the gate, a run loads the state and goes through its
    tickers. *)
Lemma run_open (L : pylib) (o : orchestrator) (now : datetime)
  (work : list (string * ticker_env)) (w : world) (d : gmap string pyval) :
  gate_open o now ->
  load_state (w_fs w) (storage o) = Ok d ->
  run L o now work w = for_each (step L o) work (with_state d w).
Proof.
  destruct o as [cfg | cfg]; simpl; intros [Htz Hgate] Hload.
  - destruct Hgate as [b [Hgate Hopen]].
    unfold run_once, bind, lift, ret, load_into_state.
    rewrite Htz, Hgate, Hopen. simpl. now rewrite Hload.
  - unfold run_agent_once, zone_lookup. rewrite Htz.
    assert (Hg : (if mh_pause_on_closed (a_market_hours cfg)
                     && negb (a_bypass_market_hours cfg)
                  then (ret tt ;;; lift (within_market_hours (a_market_hours cfg) now))%run
                  else ret true) w = (Ok true, w)).
    { destruct Hgate as [-> | Hwithin]; [reflexivity |].
      destruct (_ && _); [| reflexivity]. unfold bind, ret, lift. now rewrite Hwithin. }
    unfold bind at 1. rewrite Hg. simpl.
    unfold bind, load_into_state, ret. now rewrite Hload.
Qed.

Lemma run_healthy (L : pylib) (o : orchestrator) (tk : string)
  (r : datetime * list (string * ticker_env)) (dir : string)
  (v : option pyval) (w : world) :
  healthy L o tk r dir ->
  stored o tk w v ->
  exists w', run L o (fst r) (snd r) w = (Ok tt, w') /\
    stored o tk w' (next_value v dir) /\
    notifications_for tk (w_log w')
    = (notifications_for tk (w_log w) + if fires (default (PStr "none") v) dir then 1 else 0)%nat.
Proof.
  intros [Hgate [before [e [after [Hwork [Hb [Ha [Hobs [Hcol Hsend]]]]]]]]] [d [Hload Hd]].
  rewrite (run_open L o _ _ w d Hgate Hload), Hwork.
  set (w0 := with_state d w).
  assert (Hv0 : agrees (storage o) tk v w0).
  { split; [exact Hd |]. exists d. split; assumption. }
  destruct (for_each_others L o tk before Hb w0 v Hv0) as [w1 [Hrun1 [Hv1 Hn1]]].
  destruct (step_healthy L o tk e dir v w1 Hobs Hcol Hsend Hv1) as [w2 [Hrun2 [Hv2 Hn2]]].
  destruct (for_each_others L o tk after Ha w2 _ Hv2) as [w3 [Hrun3 [Hv3 Hn3]]].
  exists w3. repeat split.
  - rewrite (for_each_app _ _ _ _ _ Hrun1). simpl. unfold bind. now rewrite Hrun2.
  - destruct Hv3 as [_ Hfile]. exact Hfile.
  - rewrite Hn3, Hn2, Hn1. reflexivity.
Qed.

Lemma corridor_fires_step (v : option pyval) (dir : string) (rest : list string) :
  corridor_fires (default (PStr "none") v) (dir :: rest)
  = ((if fires (default (PStr "none") v) dir then 1 else 0)
     + corridor_fires (default (PStr "none") (next_value v dir)) rest)%nat.
Proof.
  unfold next_value. simpl. destruct (fires (default (PStr "none") v) dir); [reflexivity |].
  simpl. unfold resets. destruct (String.eqb dir "none") eqn:E; simpl; [| reflexivity].
  apply String.eqb_eq in E. subst dir.
  destruct (py_ne_str (default (PStr "none") v) "none"); reflexivity.
Qed.

(** A session of healthy runs dispatches for [tk] what the transition
    table counts. *)
Lemma session_counts (L : pylib) (o : orchestrator) (tk : string)
  (s : list (datetime * list (string * ticker_env))) (dirs : list string) :
  Forall2 (healthy L o tk) s dirs ->
  forall (w : world) (v : option pyval),
    stored o tk w v ->
    exists w', session L o s w = (Ok tt, w') /\
      notifications_for tk (w_log w')
      = (notifications_for tk (w_log w) + corridor_fires (default (PStr "none") v) dirs)%nat.
Proof.
  induction 1 as [| [now work] dir s dirs Hh _ IH]; intros w v Hv.
  - exists w. split; [reflexivity |]. simpl. lia.
  - destruct (run_healthy L o tk _ dir v w Hh Hv) as [w1 [Hrun [Hv1 Hn1]]].
    destruct (IH w1 _ Hv1) as [w2 [Hrest Hn2]].
    exists w2. split.
    + simpl in *. unfold bind. now rewrite Hrun.
    + rewrite Hn2, Hn1, corridor_fires_step. lia.
Qed.

Lemma py_ne_str_true (v : pyval) (s : string) : v <> PStr s -> py_ne_str v s = true.
Proof.
  intros Hne. unfold py_ne_str, py_eq_str. destruct v; try reflexivity.
  destruct (String.eqb s0 s) eqn:E; [| reflexivity].
  apply String.eqb_eq in E. congruence.
Qed.

(** C1, as the code has it. Take either orchestrator and a ticker whose
    stored state is absent.  Let every run pass the gate, with a time
    zone that is known, and list the ticker once, among other tickers
    none of which destroys the state file by a write that fails after
    opening it; let the ticker's price, news and push calls return and
    its state be written; in [run_agent_once] let moreover the composer
    decide to send whenever a breakout is observed.  The change is the
    one the code computes in floating point, classified against the
    configured threshold.  Then the runs that observe up, up, none, up
    dispatch exactly two notifications for the ticker, and so do the
    runs that observe up, down.  A run that observes the stored
    direction again dispatches nothing for the ticker and keeps its
    stored value, and a run that observes none against another stored
    value stores "none" without dispatching. *)
Theorem corridor_dispatches (L : pylib) (o : orchestrator) (tk : string) :
  (forall w s,
      stored o tk w None ->
      Forall2 (healthy L o tk) s ["up"; "up"; "none"; "up"] ->
      exists w', session L o s w = (Ok tt, w') /\
        notifications_for tk (w_log w') = (notifications_for tk (w_log w) + 2)%nat) /\
  (forall w s,
      stored o tk w None ->
      Forall2 (healthy L o tk) s ["up"; "down"] ->
      exists w', session L o s w = (Ok tt, w') /\
        notifications_for tk (w_log w') = (notifications_for tk (w_log w) + 2)%nat) /\
  (forall w r dir,
      stored o tk w (Some (PStr dir)) -> dir <> "none" ->
      healthy L o tk r dir ->
      exists w', run L o (fst r) (snd r) w = (Ok tt, w') /\
        notifications_for tk (w_log w') = notifications_for tk (w_log w) /\
        stored o tk w' (Some (PStr dir))) /\
  (forall w r v,
      stored o tk w (Some v) -> v <> PStr "none" ->
      healthy L o tk r "none" ->
      exists w', run L o (fst r) (snd r) w = (Ok tt, w') /\
        notifications_for tk (w_log w') = notifications_for tk (w_log w) /\
        stored o tk w' (Some (PStr "none"))).
Proof.
  repeat split.
  - intros w s Hv Hs.
    destruct (session_counts L o tk s _ Hs w None Hv) as [w' [Hrun Hn]].
    exists w'. split; [exact Hrun |]. rewrite Hn. reflexivity.
  - intros w s Hv Hs.
    destruct (session_counts L o tk s _ Hs w None Hv) as [w' [Hrun Hn]].
    exists w'. split; [exact Hrun |]. rewrite Hn. reflexivity.
  - intros w r dir Hv Hne Hh.
    destruct (run_healthy L o tk r dir _ w Hh Hv) as [w' [Hrun [Hv' Hn]]].
    exists w'. split; [exact Hrun |].
    unfold next_value, fires, resets, py_ne_str in Hv', Hn. simpl in Hv', Hn.
    rewrite String.eqb_refl, andb_false_r in Hv', Hn.
    apply String.eqb_neq in Hne. rewrite Hne in Hv'. simpl in Hv'.
    split; [lia | exact Hv'].
  - intros w r v Hv Hne Hh.
    destruct (run_healthy L o tk r "none" _ w Hh Hv) as [w' [Hrun [Hv' Hn]]].
    exists w'. split; [exact Hrun |].
    unfold next_value, fires, resets in Hv', Hn. simpl in Hv', Hn.
    rewrite (py_ne_str_true v "none" Hne) in Hv'. simpl in Hv'.
    split; [lia | exact Hv'].
Qed.

Lemma no_client_sends (L : pylib) (advice : result pyval) (tk : string)
  (o l d : Q) (hs : list item) (thr : Q) :
  classify d thr <> "none" ->
  should_send L false advice tk o l d hs thr = true.
Proof.
  intros Hd. rewrite should_send_equation. simpl.
  unfold classify in Hd. unfold magnitude_test, Qge_bool in *.
  destruct (Qle_bool thr d) eqn:E1.
  - apply Qle_bool_iff in E1. apply Qle_bool_iff.
    eapply Qle_trans; [exact E1 | apply Qle_Qabs].
  - destruct (Qle_bool d (- thr)) eqn:E2; [| congruence].
    apply Qle_bool_iff in E2. apply Qle_bool_iff.
    rewrite <- Qabs_opp. eapply Qle_trans; [| apply Qle_Qabs]. lra.
Qed.

Lemma quiet_neighbour (adv : result pyval) :
  Forall (fun other => fst other <> "AAPL" /\ keeps_file (snd other))
    [("MSFT", quote 250 260 adv)].
Proof. repeat constructor. discriminate. Qed.

Lemma healthy_run_core (l : Q) (adv : result pyval) (dir : string) :
  classify (pct_change 100 l) (b64 1) = dir ->
  healthy (ascii_lib offline) (Core demo_core) "AAPL" (run_at_noon 100 l adv) dir.
Proof.
  intros Hd. split; [split; [reflexivity | exists true; split; reflexivity] |].
  exists [("MSFT", quote 250 260 adv)], (quote 100 l adv), [].
  split; [reflexivity |].
  split; [apply quiet_neighbour |].
  split; [constructor |].
  split; [exists 100%Q, l; repeat split; assumption |].
  split; [| intros _; exact I].
  split; [reflexivity |]. split; [reflexivity |]. exists ("", None). reflexivity.
Qed.

Lemma healthy_run_agent (l : Q) (adv : result pyval) (dir : string) :
  classify (pct_change 100 l) (b64 1) = dir ->
  healthy (ascii_lib offline) (Agent (demo_agent false)) "AAPL" (run_at_noon 100 l adv) dir.
Proof.
  intros Hd. split; [split; [reflexivity | right; reflexivity] |].
  exists [("MSFT", quote 250 260 adv)], (quote 100 l adv), [].
  split; [reflexivity |].
  split; [apply quiet_neighbour |].
  split; [constructor |].
  split; [exists 100%Q, l; split; [reflexivity | exact Hd] |].
  split.
  - split; [reflexivity |]. split; [reflexivity |]. exists []. reflexivity.
  - intros Hne open_px last_px hs Hp Hhs. simpl in Hp, Hhs.
    injection Hp as <- <-. injection Hhs as <-.
    apply no_client_sends. simpl. now rewrite Hd.
Qed.

Lemma corridor_dispatches_witness :
  (exists w',
     session (ascii_lib offline) (Core demo_core)
       (up_up_none_up (Raise OtherException)) fresh_world = (Ok tt, w') /\
     notifications_for "AAPL" (w_log w')
     = (notifications_for "AAPL" (w_log fresh_world) + 2)%nat) /\
  (exists w',
     session (ascii_lib offline) (Agent (demo_agent false))
       (up_down (Raise OtherException)) fresh_world = (Ok tt, w') /\
     notifications_for "AAPL" (w_log w')
     = (notifications_for "AAPL" (w_log fresh_world) + 2)%nat).
Proof.
  split.
  - apply (proj1 (corridor_dispatches (ascii_lib offline) (Core demo_core) "AAPL")).
    + exists ∅. split; reflexivity.
    + unfold up_up_none_up.
      repeat (constructor; [apply healthy_run_core; vm_compute; reflexivity |]). constructor.
  - apply (proj1 (proj2 (corridor_dispatches (ascii_lib offline)
                           (Agent (demo_agent false)) "AAPL"))).
    + exists ∅. split; reflexivity.
    + unfold up_down.
      repeat (constructor; [apply healthy_run_agent; vm_compute; reflexivity |]). constructor.
Defined.

(** C1, counterexample. [run_agent_once] with an advisory client that
    answers [send_alert: false]: the state is absent, the four runs pass
    the gate, AAPL is observed up, up, none, up and no collaborator
    raises, yet no notification is dispatched for AAPL. *)
Lemma advice_silences_breakouts :
  stored (Agent (demo_agent true)) "AAPL" fresh_world None /\
  Forall2
    (fun r dir =>
       gate_open (Agent (demo_agent true)) (fst r) /\
       exists before e after,
         snd r = before ++ ("AAPL", e) :: after /\
         Forall (fun other => fst other <> "AAPL" /\ keeps_file (snd other)) before /\
         Forall (fun other => fst other <> "AAPL" /\ keeps_file (snd other)) after /\
         observes (Agent (demo_agent true)) e dir /\
         collaborators_succeed (ascii_lib offline) (Agent (demo_agent true)) e)
    (up_up_none_up (Ok advice_hold)) ["up"; "up"; "none"; "up"] /\
  notifications_for "AAPL"
    (w_log (snd (session (ascii_lib offline) (Agent (demo_agent true))
                   (up_up_none_up (Ok advice_hold)) fresh_world)))
  = 0%nat.
Proof.
  split; [exists ∅; split; reflexivity |]. split.
  - assert (H : forall l dir,
               classify (pct_change 100 l) (b64 1) = dir ->
               gate_open (Agent (demo_agent true)) (fst (run_at_noon 100 l (Ok advice_hold))) /\
               exists before e after,
                 snd (run_at_noon 100 l (Ok advice_hold)) = before ++ ("AAPL", e) :: after /\
                 Forall (fun other => fst other <> "AAPL" /\ keeps_file (snd other)) before /\
                 Forall (fun other => fst other <> "AAPL" /\ keeps_file (snd other)) after /\
                 observes (Agent (demo_agent true)) e dir /\
                 collaborators_succeed (ascii_lib offline) (Agent (demo_agent true)) e).
    { intros l dir Hd. split; [split; [reflexivity | right; reflexivity] |].
      exists [("MSFT", quote 250 260 (Ok advice_hold))], (quote 100 l (Ok advice_hold)), [].
      split; [reflexivity |].
      split; [apply quiet_neighbour |].
      split; [constructor |].
      split; [exists 100%Q, l; split; [reflexivity | exact Hd] |].
      split; [reflexivity |]. split; [reflexivity |]. exists []. reflexivity. }
    unfold up_up_none_up.
    repeat (constructor; [apply H; vm_compute; reflexivity |]). constructor.
  - vm_compute. reflexivity.
Qed.

(** ** The URL resolver *)

(** C5, the failing inputs. The call of [consent_continue] in step 2
    stands outside every [try]: when [urlparse] raises on the link with
    its scheme made explicit, step 1 swallows the exception and step 2
    lets it out of the resolver. *)
Theorem resolver_raises_when_parser_raises (L : pylib) (resolve_redirects : bool)
  (link : string) (e : exn) :
  urlparse L (ensure_https link) = Raise e ->
  _extract_original_url L resolve_redirects link = Raise e.
Proof.
  intros Hp. unfold _extract_original_url, direct_redirect, consent_continue.
  rewrite Hp. reflexivity.
Qed.

(** CPython's [urlparse] raises [ValueError] on a host with an
    unbalanced bracket, so the link "[" makes the resolver raise. *)
Lemma resolver_raises_witness :
  _extract_original_url (ascii_lib offline) true "[" = Raise ValueError.
Proof.
  exact (resolver_raises_when_parser_raises (ascii_lib offline) true "[" ValueError eq_refl).
Defined.

Lemma consent_continue_total (L : pylib) (u : string) (p : url_parts) :
  urlparse L u = Ok p -> exists c, consent_continue L u = Ok c.
Proof.
  intros Hp. unfold consent_continue. rewrite Hp. simpl.
  destruct (negb _); [eauto |].
  destruct (match parse_qs L (u_query p) !! "continue" with
            | Some (c :: cs) => Some (c :: cs)
            | _ => parse_qs L (u_query p) !! "continue_url"
            end) as [[| c cs] |]; eauto.
  destruct (negb _); eauto.
Qed.

(** The resolver returns a string whenever [urlparse] answers on the
    link with its scheme made explicit, whatever the HTTP layer and the
    other library calls do. *)
Theorem resolver_total_when_parser_answers (L : pylib) (resolve_redirects : bool)
  (link : string) (p : url_parts) :
  urlparse L (ensure_https link) = Ok p ->
  exists u, _extract_original_url L resolve_redirects link = Ok u.
Proof.
  intros Hp. unfold _extract_original_url.
  destruct (settled (direct_redirect L (ensure_https link)) None); [eauto |].
  destruct (consent_continue_total L _ _ Hp) as [c ->]. simpl.
  destruct (nonempty c); [eauto |].
  destruct (negb resolve_redirects); [eauto |].
  destruct (settled (follow_redirects L _) None); [eauto |].
  destruct (settled (strip_tracking L _) None); eauto.
Qed.

Lemma resolver_total_witness :
  exists u, _extract_original_url (ascii_lib offline) true "example.com/a?utm_source=rss" = Ok u.
Proof.
  eapply (resolver_total_when_parser_answers (ascii_lib offline) true
            "example.com/a?utm_source=rss").
  reflexivity.
Defined.

(** The last resort. When the host is off the aggregator and the GET
    raises, the resolver answers the link with its scheme made explicit,
    rebuilt without its tracking parameters if it has any. *)
Theorem resolver_last_resort (L : pylib) (link : string) (p : url_parts) (e : exn) :
  urlparse L (ensure_https link) = Ok p ->
  contains "news.google." (u_netloc p) = false ->
  contains "consent.google." (u_netloc p) = false ->
  http_get L (ensure_https link) = Raise e ->
  _extract_original_url L true link
  = Ok (if String.eqb (re_strip_tracking L (u_query p)) (u_query p)
        then ensure_https link
        else urlunparse L (with_query p (re_strip_tracking L (u_query p)))).
Proof.
  intros Hp Hn Hc Hget.
  unfold _extract_original_url, direct_redirect, consent_continue, rewrite_rss_path,
    follow_redirects, strip_tracking.
  rewrite Hp. simpl. rewrite Hn, Hc. simpl. rewrite Hget, Hp. simpl.
  destruct (String.eqb _ (u_query p)); reflexivity.
Qed.

Lemma resolver_last_resort_witness :
  _extract_original_url (ascii_lib offline) true "example.com/a?utm_source=rss&id=7"
  = Ok "https://example.com/a?&id=7".
Proof.
  exact (resolver_last_resort (ascii_lib offline) "example.com/a?utm_source=rss&id=7"
           _ RequestException eq_refl eq_refl eq_refl eq_refl).
Defined.

(** An aggregator link that carries the article in its [url] parameter
    resolves to the article, whatever the web answers: no request is
    made. *)
Theorem resolver_reads_url_parameter (get : string -> result response)
  (resolve_redirects : bool) :
  _extract_original_url (ascii_lib get) resolve_redirects
    "https://news.google.com/rss/articles/CBMi?url=https%3A%2F%2Fexample.com%2Fa"
  = Ok "https://example.com/a".
Proof. reflexivity. Qed.

Lemma ensure_https_fixed (u : string) : has_http_scheme u = true -> ensure_https u = u.
Proof.
  intros H. unfold ensure_https. rewrite H.
  destruct (String.eqb u "") eqn:E; [| reflexivity].
  apply String.eqb_eq in E. now subst.
Qed.

Lemma ensure_https_idempotent (u : string) : ensure_https (ensure_https u) = ensure_https u.
Proof.
  destruct (String.eqb u "") eqn:E.
  - apply String.eqb_eq in E. subst. reflexivity.
  - destruct (has_http_scheme u) eqn:H.
    + now rewrite !(ensure_https_fixed u H).
    + assert (Heq : ensure_https u = "https://" +:+ lstrip_slash u)
        by (unfold ensure_https; now rewrite E, H).
      rewrite Heq. apply ensure_https_fixed.
      unfold has_http_scheme. simpl. destruct (lstrip_slash u); reflexivity.
Qed.

Lemma resolver_offline_fixed (L : pylib) (u : string) :
  off_aggregator L u -> has_http_scheme u = true ->
  _extract_original_url L false u = Ok u.
Proof.
  intros [p [Hp [Hn Hc]]] Hs.
  unfold _extract_original_url, direct_redirect, consent_continue, rewrite_rss_path.
  rewrite (ensure_https_fixed u Hs), Hp. simpl. rewrite Hn, Hc. reflexivity.
Qed.

Lemma resolver_lands (L : pylib) (x u : string) :
  off_aggregator L x -> has_http_scheme x = true ->
  lands_on L x u -> has_http_scheme u = true ->
  _extract_original_url L true x = Ok u.
Proof.
  intros [p [Hp [Hn Hc]]] Hs [r [Hget [Hhist [Hurl [Hg1 Hg2]]]]] Hu.
  unfold _extract_original_url, direct_redirect, consent_continue, rewrite_rss_path.
  rewrite (ensure_https_fixed x Hs), Hp. simpl. rewrite Hn, Hc. simpl.
  unfold follow_redirects. rewrite Hget. simpl. rewrite Hhist. simpl.
  rewrite Hurl, Hg1, Hg2, (ensure_https_fixed u Hu).
  destruct (String.eqb u "") eqn:E; [| reflexivity].
  apply String.eqb_eq in E. rewrite E in Hu. discriminate Hu.
Qed.

(** C6, as the code has it. Let the host of [x] be off the aggregator.
    Without following redirects the resolver answers [x] with its scheme
    made explicit, and answers the same for that answer.  With redirects
    followed, let the GET of [x] end, past no consent hop, at a URL [u]
    that holds no "google."; if the host of [u] is off the aggregator and
    a GET of [u] ends at [u] itself, then resolving [x] gives [u] and
    resolving [u] gives [u] again. *)
Theorem resolver_idempotent_on_stable_targets (L : pylib) (x : string) :
  off_aggregator L (ensure_https x) -> x <> "" ->
  (_extract_original_url L false x = Ok (ensure_https x) /\
   _extract_original_url L false (ensure_https x) = Ok (ensure_https x)) /\
  (forall u,
      lands_on L (ensure_https x) u -> has_http_scheme u = true ->
      off_aggregator L u -> lands_on L u u ->
      _extract_original_url L true x = Ok u /\
      _extract_original_url L true u = Ok u).
Proof.
  intros Hoff Hx.
  assert (Hs : has_http_scheme (ensure_https x) = true).
  { unfold ensure_https. destruct (String.eqb x "") eqn:E.
    - apply String.eqb_eq in E. contradiction.
    - destruct (has_http_scheme x) eqn:H; [exact H |].
      unfold has_http_scheme. simpl. destruct (lstrip_slash x); reflexivity. }
  assert (Hsame : forall rr, _extract_original_url L rr x
                             = _extract_original_url L rr (ensure_https x)).
  { intros rr. unfold _extract_original_url. now rewrite ensure_https_idempotent. }
  split.
  - rewrite Hsame. split; now apply resolver_offline_fixed.
  - intros u Hland Hu Hoffu Hstable. split.
    + rewrite Hsame. now apply resolver_lands.
    + now apply resolver_lands.
Qed.

Lemma resolver_idempotent_witness :
  _extract_original_url (ascii_lib plain_site) true "example.com/a"
  = Ok "https://example.com/a" /\
  _extract_original_url (ascii_lib plain_site) true "https://example.com/a"
  = Ok "https://example.com/a".
Proof.
  assert (Hoff : off_aggregator (ascii_lib plain_site) "https://example.com/a").
  { eexists. split; [reflexivity |]. split; reflexivity. }
  assert (Hland : lands_on (ascii_lib plain_site) "https://example.com/a" "https://example.com/a").
  { eexists. split; [reflexivity |]. repeat split. }
  apply (proj2 (resolver_idempotent_on_stable_targets (ascii_lib plain_site)
                  "example.com/a" Hoff ltac:(discriminate))
           "https://example.com/a" Hland eq_refl Hoff Hland).
Defined.

(** C6, counterexample. On a site that redirects [/a] to [/b] and a
    direct visitor of [/b] to [/c], the host is off the aggregator, the
    resolver takes [/a] to [/b] and [/b] to [/c]: resolving twice differs
    from resolving once. *)
Lemma resolver_not_idempotent :
  off_aggregator (ascii_lib cookie_wall) "https://example.com/a" /\
  _extract_original_url (ascii_lib cookie_wall) true "https://example.com/a"
  = Ok "https://example.com/b" /\
  _extract_original_url (ascii_lib cookie_wall) true "https://example.com/b"
  = Ok "https://example.com/c".
Proof.
  split; [| split; reflexivity].
  eexists. split; [reflexivity |]. split; reflexivity.
Qed.

(** ** Headline deduplication *)









(** ** Iterations and runs, whatever the collaborators do *)

(** Close a goal [exists w', run = (Ok tt, w') /\ iteration_effect ...]
    once the run is computed: the iteration started from [w], or from
    [w] after the company lookups, and [fin] shows what it did then. *)
Ltac effect w fin :=
  eexists; split; [reflexivity |];
  solve [ exists w; split; [left; reflexivity | fin]
        | eexists; split; [right; reflexivity | fin] ].

Ltac stays w := effect w ltac:(left; reflexivity).

Lemma stored_differs (m : gmap string pyval) (tk dir : string) :
  py_ne_str (default (PStr "none") (m !! tk)) dir = true ->
  m !! tk <> Some (PStr dir).
Proof.
  intros H E. rewrite E in H. simpl in H.
  unfold py_ne_str, py_eq_str in H. now rewrite String.eqb_refl in H.
Qed.

Lemma stored_breakout (m : gmap string pyval) (tk : string) :
  py_ne_str (default (PStr "none") (m !! tk)) "none" = true ->
  exists v, m !! tk = Some v /\ v <> PStr "none".
Proof.
  intros H. destruct (m !! tk) as [v |] eqn:E; [| discriminate H].
  exists v. split; [reflexivity |]. intros ->. discriminate H.
Qed.

Lemma core_iteration (L : pylib) (cfg : run_cfg) (tk : string) (e : ticker_env) (w : world) :
  exists w', process_ticker L cfg tk e w = (Ok tt, w') /\
             iteration_effect (Core cfg) tk e w w'.
Proof.
  unfold iteration_effect, seen_direction, after_set, looked_up. simpl news_on.
  unfold process_ticker, try_catch, ticker_body, bind, lift, get_state, raise, ret,
    company_lookup.
  destruct (te_price e) as [[open_px last_px] | x]; [| stays w].
  destruct (Qeq_bool open_px 0); [stays w |].
  destruct (classify_cases (effective_pct cfg open_px last_px) (b64 (threshold_pct cfg)))
    as [Hd | [Hd | Hd]];
    rewrite Hd; simpl;
    (destruct (py_ne_str _ _) eqn:Hprev; [| stays w]);
    try (destruct (enrichment L (news_enabled cfg) e) as [[blk click] | x];
         [| destruct (news_enabled cfg); stays w];
         unfold notify_ntfy; destruct (te_notify e) as [[] | x] eqn:Hpush;
         [| destruct (news_enabled cfg); stays w]);
    unfold save_state, emit; simpl; destruct (te_write e) as [[] | x] eqn:Hw; simpl.
  1-4: destruct (news_enabled cfg);
    effect w ltac:(
      right; left;
      match goal with Hd : classify _ _ = ?d |- _ => exists d end; do 3 eexists;
      (split; [first [left; reflexivity | right; reflexivity] |]);
      (split; [reflexivity |]);
      (split; [now apply stored_differs |]);
      (split; [reflexivity |]);
      (split; [reflexivity |]);
      unfold file_after_write; rewrite Hw; simpl; rewrite <- ?app_assoc; reflexivity).
  1-2: effect w ltac:(
      right; right;
      (split; [reflexivity |]);
      (split; [now apply stored_breakout |]);
      unfold file_after_write; rewrite Hw; simpl; rewrite <- ?app_assoc; reflexivity).
Qed.

Lemma plain_title (L : pylib) (advice : result pyval) (tk : string)
  (o l d : Q) (hs : list item) (thr : Q) :
  snd (fst (fst (agent_summarize_and_decide L false advice tk o l d hs thr)))
  = _format_title tk.
Proof.
  unfold agent_summarize_and_decide, format_plain_push. simpl.
  destruct hs; reflexivity.
Qed.

Lemma agent_iteration (L : pylib) (cfg : agent_cfg) (tk : string) (e : ticker_env) (w : world) :
  exists w', agent_ticker L cfg tk e w = (Ok tt, w') /\
             iteration_effect (Agent cfg) tk e w w'.
Proof.
  unfold iteration_effect, seen_direction, after_set, looked_up. simpl news_on.
  unfold agent_ticker, try_catch, agent_body, bind, lift, get_state, raise, ret,
    company_lookup.
  destruct (te_price e) as [[open_px last_px] | x]; [| stays w].
  destruct (agent_headlines (a_news_enabled cfg) e) as [hs | x];
    [| destruct (a_news_enabled cfg); stays w].
  pose proof (fun adv => plain_title L adv tk open_px last_px
                (pct_change open_px last_px) hs (b64 (a_threshold_pct cfg))) as Htitle.
  destruct (agent_summarize_and_decide _ _ _ _ _ _ _ _ _)
    as [[[send title] body] click] eqn:Hc.
  assert (Ht : a_client cfg = false -> title = _format_title tk).
  { intros Hcl. rewrite Hcl in Hc. specialize (Htitle (te_advice e)).
    rewrite Hc in Htitle. exact Htitle. }
  clear Hc Htitle.
  destruct (classify_cases (pct_change open_px last_px) (b64 (a_threshold_pct cfg)))
    as [Hd | [Hd | Hd]];
    rewrite Hd; simpl;
    (destruct (py_ne_str _ _) eqn:Hprev; [| destruct (a_news_enabled cfg); stays w]);
    try (destruct send; [| destruct (a_news_enabled cfg); stays w]; simpl;
         unfold notify_ntfy; destruct (te_notify e) as [[] | x] eqn:Hpush;
         [| destruct (a_news_enabled cfg); stays w]);
    unfold save_state, emit; simpl; destruct (te_write e) as [[] | x] eqn:Hw; simpl;
    destruct (a_news_enabled cfg).
  1-8: effect w ltac:(
      right; left;
      match goal with Hd : classify _ _ = ?d |- _ => exists d end; do 3 eexists;
      (split; [first [left; reflexivity | right; reflexivity] |]);
      (split; [reflexivity |]);
      (split; [now apply stored_differs |]);
      (split; [reflexivity |]);
      (split; [exact Ht |]);
      unfold file_after_write; rewrite Hw; simpl; rewrite <- ?app_assoc; reflexivity).
  all: effect w ltac:(
      right; right;
      (split; [reflexivity |]);
      (split; [now apply stored_breakout |]);
      unfold file_after_write; rewrite Hw; simpl; rewrite <- ?app_assoc; reflexivity).
Qed.

Lemma step_iteration (L : pylib) (o : orchestrator) (tk : string) (e : ticker_env) (w : world) :
  exists w', step L o tk e w = (Ok tt, w') /\ iteration_effect o tk e w w'.
Proof.
  destruct o as [cfg | cfg]; simpl.
  - apply core_iteration.
  - apply agent_iteration.
Qed.

Lemma for_each_invariant (L : pylib) (o : orchestrator) (P : world -> Prop) :
  (forall tk e w w', P w -> iteration_effect o tk e w w' -> P w') ->
  forall work w, P w ->
    exists w', for_each (step L o) work w = (Ok tt, w') /\ P w'.
Proof.
  intros Hstep work. induction work as [| [tk e] rest IH]; intros w Hw.
  - exists w. split; [reflexivity | exact Hw].
  - destruct (step_iteration L o tk e w) as [w1 [Hrun Heff]].
    destruct (IH w1 (Hstep _ _ _ _ Hw Heff)) as [w2 [Hrest Hw2]].
    exists w2. simpl. unfold bind. rewrite Hrun. auto.
Qed.


(** A run raises before its loop, having written and logged nothing,
    or is skipped, or loads the state and goes through its tickers. *)
Lemma run_cases (L : pylib) (o : orchestrator) (now : datetime)
  (work : list (string * ticker_env)) (w : world) :
  (exists x w', run L o now work w = (Raise x, w') /\
                w_fs w' = w_fs w /\ w_log w' = w_log w)
  \/ run L o now work w = (Ok tt, w)
  \/ (exists d, load_state (w_fs w) (storage o) = Ok d /\
        run L o now work w = for_each (step L o) work (with_state d w)).
Proof.
  destruct o as [cfg | cfg]; simpl.
  - unfold run_once, bind, lift, ret, raise, load_into_state.
    destruct (timezone_known cfg); simpl; [| left; eauto].
    destruct (is_market_hours (market_hours cfg) now) as [b | x]; [| left; eauto].
    destruct (negb _); [right; left; reflexivity |].
    destruct (load_state (w_fs w) (state_file cfg)) as [d | x]; [| left; eauto].
    right; right. exists d. auto.
  - unfold run_agent_once, zone_lookup, bind, lift, ret, raise, load_into_state.
    destruct (mh_pause_on_closed (a_market_hours cfg) && negb (a_bypass_market_hours cfg)).
    + destruct (a_timezone_known cfg); [| left; eauto].
      destruct (within_market_hours (a_market_hours cfg) now) as [[|] | x];
        [| right; left; reflexivity | left; eauto].
      simpl. destruct (load_state (w_fs w) (a_state_file cfg)) as [d | x]; [| left; eauto].
      right; right. exists d. auto.
    + simpl. destruct (load_state (w_fs w) (a_state_file cfg)) as [d | x]; [| left; eauto].
      destruct (a_timezone_known cfg); [| left; eauto].
      right; right. exists d. auto.
Qed.

(** The observation of a direction that is already stored changes
    nothing in the state, the state file and the log: no notification,
    no assignment, no save, whatever the news feed, the advisory
    model, the push service or the disk would have answered.  All that
    has happened is that [run_agent_once], with news enabled, has
    looked the company up. *)
Theorem stored_direction_is_not_repeated (L : pylib) (o : orchestrator)
  (tk : string) (e : ticker_env) (dir : string) (w : world) :
  seen_direction o e = Some dir ->
  default (PStr "none") (w_state w !! tk) = PStr dir ->
  step L o tk e w = (Ok tt, idle o e w).
Proof.
  intros Hseen Hprev. unfold seen_direction in Hseen.
  assert (Hsame : py_ne_str (PStr dir) dir = false).
  { unfold py_ne_str, py_eq_str. now rewrite String.eqb_refl. }
  destruct (te_price e) as [[open_px last_px] | x] eqn:Hp; [| discriminate Hseen].
  destruct o as [cfg | cfg]; simpl.
  - destruct (Qeq_bool open_px 0) eqn:Hz; [discriminate Hseen |].
    injection Hseen as Hd.
    unfold process_ticker, try_catch, ticker_body, bind, lift, get_state, raise, ret.
    rewrite Hp, Hz, Hd, Hprev, Hsame, andb_false_r.
    destruct (String.eqb dir "none") eqn:Hnone; [| reflexivity].
    apply String.eqb_eq in Hnone. clear Hd. subst dir. now rewrite Hsame.
  - injection Hseen as Hd.
    unfold agent_ticker, try_catch, agent_body, bind, lift, get_state, raise, ret,
      company_lookup, looked_up. simpl news_on.
    rewrite Hp, Hd, Hprev, Hsame.
    destruct (agent_headlines (a_news_enabled cfg) e) as [hs | x]; [| reflexivity].
    destruct (agent_summarize_and_decide _ _ _ _ _ _ _ _ _) as [[[send title] body] click].
    rewrite andb_false_r. simpl.
    destruct (String.eqb dir "none") eqn:Hnone; [| reflexivity].
    apply String.eqb_eq in Hnone. clear Hd. subst dir. now rewrite Hsame.
Qed.

Lemma stored_direction_witness :
  step (ascii_lib offline) (Core demo_core) "AAPL" (quote 100 102 (Raise OtherException))
    (loaded_with "up")
  = (Ok tt, idle (Core demo_core) (quote 100 102 (Raise OtherException)) (loaded_with "up")).
Proof.
  apply (stored_direction_is_not_repeated (ascii_lib offline) (Core demo_core) "AAPL"
           (quote 100 102 (Raise OtherException)) "up" (loaded_with "up"));
    vm_compute; reflexivity.
Defined.

Lemma iteration_effect_cases (o : orchestrator) (tk : string) (e : ticker_env)
  (w w' : world) :
  iteration_effect o tk e w w' ->
  exists w0,
    w_state w0 = w_state w /\ w_fs w0 = w_fs w /\ w_log w0 = w_log w /\
    (w' = w0
     \/ (exists dir title message click,
           (dir = "up" \/ dir = "down") /\
           seen_direction o e = Some dir /\
           w_state w !! tk <> Some (PStr dir) /\
           te_notify e = Ok tt /\
           title_rule o tk title /\
           w' = after_set (storage o) tk dir e
                  [EvNotify tk title message click (dry_run_of o)] w0)
     \/ (seen_direction o e = Some "none" /\
         (exists v, w_state w !! tk = Some v /\ v <> PStr "none") /\
         w' = after_set (storage o) tk "none" e [] w0)).
Proof.
  intros [w0 [Hw0 Heff]]. exists w0.
  assert (H : w_state w0 = w_state w /\ w_fs w0 = w_fs w /\ w_log w0 = w_log w).
  { destruct Hw0 as [-> | ->]; [auto |].
    unfold looked_up. destruct (news_on o); auto. }
  tauto.
Qed.

(** Without a breakout nothing is dispatched: when the price feed
    fails, the open price is 0 ([run_once]) or the change, as the code
    computes it in floating point, classifies as "none", the iteration
    logs no notification, whatever the advisory model answers. *)
Theorem no_breakout_no_notification (L : pylib) (o : orchestrator)
  (tk : string) (e : ticker_env) (w : world) :
  seen_direction o e <> Some "up" ->
  seen_direction o e <> Some "down" ->
  exists w' new,
    step L o tk e w = (Ok tt, w') /\
    w_log w' = w_log w ++ new /\
    List.filter is_notify new = [].
Proof.
  intros Hup Hdown.
  destruct (step_iteration L o tk e w) as [w' [Hrun Heff]].
  exists w'.
  destruct (iteration_effect_cases _ _ _ _ _ Heff)
    as [w0 [_ [_ [Hlog [-> | [[d [t [m [c [Hd [Hs _]]]]]] | [_ [_ ->]]]]]]]].
  - exists []. rewrite app_nil_r. auto.
  - exfalso. destruct Hd as [-> | ->]; contradiction.
  - eexists. split; [exact Hrun |]. simpl. rewrite Hlog. split; reflexivity.
Qed.

Lemma no_breakout_witness :
  exists w' new,
    step (ascii_lib offline) (Agent (demo_agent true)) "AAPL"
      (quote 100 (1005 # 10)
         (Ok (PDict (<["send_alert" := PBool true]> (<["body" := PStr "buy"]> ∅)))))
      (loaded_with "none")
    = (Ok tt, w') /\
    w_log w' = w_log (loaded_with "none") ++ new /\
    List.filter is_notify new = [].
Proof.
  apply (no_breakout_no_notification (ascii_lib offline) (Agent (demo_agent true)) "AAPL");
    vm_compute; discriminate.
Defined.

(** A push that fails records nothing: when [notify_ntfy] raises on a
    breakout, the iteration leaves the state, the state file and the
    log as they were, so the next run finds the breakout still
    unrecorded.  All that may have happened is the company lookup of
    the news block. *)
Theorem failed_push_records_nothing (L : pylib) (o : orchestrator)
  (tk : string) (e : ticker_env) (x : exn) (w : world) :
  te_notify e = Raise x ->
  seen_direction o e <> Some "none" ->
  exists w',
    step L o tk e w = (Ok tt, w') /\
    (w' = w \/ w' = looked_up o e w).
Proof.
  intros Hpush Hseen.
  destruct (step_iteration L o tk e w) as [w' [Hrun [w0 [Hw0 Heff]]]].
  exists w'. split; [exact Hrun |].
  destruct Heff as [-> | [[d [t [m [c [_ [_ [_ [Hok _]]]]]]]] | [Hs _]]];
    [exact Hw0 | | contradiction].
  rewrite Hpush in Hok. discriminate.
Qed.

Lemma failed_push_witness :
  exists w',
    step (ascii_lib offline) (Core demo_core) "AAPL"
      (push_down (quote 100 102 (Raise OtherException))) (loaded_with "none")
    = (Ok tt, w') /\
    (w' = loaded_with "none" \/
     w' = looked_up (Core demo_core) (push_down (quote 100 102 (Raise OtherException)))
            (loaded_with "none")).
Proof.
  apply (failed_push_records_nothing (ascii_lib offline) (Core demo_core) "AAPL"
           (push_down (quote 100 102 (Raise OtherException))) RequestException
           (loaded_with "none"));
    [reflexivity | vm_compute; discriminate].
Defined.

(** ** Whole runs *)





(** A time zone that [ZoneInfo] does not know stops a run with an
    exception, before any ticker is looked at: [run_once] raises in
    its first statement, whatever the test flags; [run_agent_once]
    raises at its gate or, when the gate is bypassed, after it has
    loaded the state.  Nothing is dispatched or written. *)
Theorem unknown_zone_stops_the_run (L : pylib) (cfg : run_cfg) (acfg : agent_cfg)
  (now : datetime) (work : list (string * ticker_env)) (w : world) :
  timezone_known cfg = false ->
  a_timezone_known acfg = false ->
  run_once L cfg now work w = (Raise OtherException, w) /\
  exists x w',
    run_agent_once L acfg now work w = (Raise x, w') /\
    w_fs w' = w_fs w /\ w_log w' = w_log w.
Proof.
  intros Htz Hatz. split.
  - unfold run_once. now rewrite Htz.
  - unfold run_agent_once, zone_lookup, bind, lift, ret, raise, load_into_state.
    rewrite Hatz.
    destruct (mh_pause_on_closed (a_market_hours acfg) && negb (a_bypass_market_hours acfg));
      simpl; [eauto |].
    destruct (load_state (w_fs w) (a_state_file acfg)) as [d | x]; eauto.
Qed.

Lemma unknown_zone_witness :
  run_once (ascii_lib offline) (elsewhere demo_core) noon
    [("AAPL", quote 100 102 (Raise OtherException))] fresh_world
  = (Raise OtherException, fresh_world) /\
  exists x w',
    run_agent_once (ascii_lib offline) (agent_elsewhere (demo_agent false)) noon
      [("AAPL", quote 100 102 (Raise OtherException))] fresh_world
    = (Raise x, w') /\
    w_fs w' = w_fs fresh_world /\ w_log w' = w_log fresh_world.
Proof.
  apply (unknown_zone_stops_the_run (ascii_lib offline) (elsewhere demo_core)
           (agent_elsewhere (demo_agent false)) noon
           [("AAPL", quote 100 102 (Raise OtherException))] fresh_world);
    reflexivity.
Defined.

Lemma iteration_effect_log (o : orchestrator) (tk : string) (e : ticker_env) (w w' : world) :
  iteration_effect o tk e w w' ->
  exists new, w_log w' = w_log w ++ new /\ iteration_log o tk new.
Proof.
  intros Heff.
  destruct (iteration_effect_cases _ _ _ _ _ Heff)
    as [w0 [_ [_ [Hlog [-> | [[dir [t [m [c [Hd [_ [_ [_ [Ht ->]]]]]]]]] | [_ [_ ->]]]]]]]].
  - exists []. split; [now rewrite app_nil_r | constructor].
  - eexists. split; [simpl; rewrite Hlog; reflexivity |].
    apply il_fire; [exact Hd | exact Ht | apply lookup_insert_eq].
  - eexists. split; [simpl; rewrite Hlog; reflexivity |].
    apply il_reset. apply lookup_insert_eq.
Qed.

Lemma run_log_idle (o : orchestrator) (tks : list string) : run_log o tks [].
Proof.
  induction tks as [| tk tks IH]; [constructor |].
  change (@nil event) with (@nil event ++ []). constructor; [constructor | exact IH].
Qed.

Lemma for_each_run_log (L : pylib) (o : orchestrator) (work : list (string * ticker_env)) :
  forall w, exists w' new,
    for_each (step L o) work w = (Ok tt, w') /\
    w_log w' = w_log w ++ new /\
    run_log o (List.map fst work) new.
Proof.
  induction work as [| [tk e] rest IH]; intros w.
  - exists w, []. rewrite app_nil_r. repeat split. constructor.
  - destruct (step_iteration L o tk e w) as [w1 [Hrun Heff]].
    destruct (iteration_effect_log _ _ _ _ _ Heff) as [new1 [Hlog1 Hnew1]].
    destruct (IH w1) as [w2 [new2 [Hrest [Hlog2 Hnew2]]]].
    exists w2, (new1 ++ new2). simpl. unfold bind. rewrite Hrun.
    split; [exact Hrest |]. split; [now rewrite Hlog2, Hlog1, app_assoc |].
    now constructor.
Qed.

Lemma directions_only_insert (m : gmap string pyval) (tk dir : string) :
  dir = "up" \/ dir = "down" \/ dir = "none" ->
  directions_only m -> directions_only (<[tk := PStr dir]> m).
Proof.
  intros Hd Hm k v. destruct (decide (tk = k)) as [-> | Hne].
  - rewrite lookup_insert_eq. intros [= <-].
    destruct Hd as [-> | [-> | ->]]; auto.
  - rewrite lookup_insert_ne by exact Hne. apply Hm.
Qed.

Lemma directions_only_empty : directions_only ∅.
Proof. intros k v H. rewrite lookup_empty in H. discriminate. Qed.

Lemma after_set_directions (path tk dir : string) (e : ticker_env)
  (before : list event) (w : world) :
  dir = "up" \/ dir = "down" \/ dir = "none" ->
  directions_only (w_state w) /\ directions_only (persisted path w) ->
  directions_only (w_state (after_set path tk dir e before w)) /\
  directions_only (persisted path (after_set path tk dir e before w)).
Proof.
  intros Hd [Hm Hp]. unfold after_set, persisted, file_after_write. simpl.
  split; [now apply directions_only_insert |].
  destruct (te_write e) as [[] | x].
  - rewrite load_after_save. simpl. now apply directions_only_insert.
  - destruct (te_truncates e); [| exact Hp].
    rewrite load_after_failed_save. simpl. apply directions_only_empty.
Qed.

(** The three directions are an invariant of the state file: if every
    value of the mapping a run loads is "up", "down" or "none" (as in
    a missing, unreadable or fresh file), so is every value of the
    mapping the next run will load. *)
Theorem run_keeps_directions_only (L : pylib) (o : orchestrator) (now : datetime)
  (work : list (string * ticker_env)) (w : world) :
  directions_only (persisted (storage o) w) ->
  directions_only (persisted (storage o) (snd (run L o now work w))).
Proof.
  intros Hp.
  destruct (run_cases L o now work w) as [[x [w' [-> [Hfs _]]]] | [-> | [d [Hload ->]]]];
    [unfold persisted in *; simpl; now rewrite Hfs | exact Hp |].
  destruct (for_each_invariant L o
              (fun w' => directions_only (w_state w') /\
                         directions_only (persisted (storage o) w')))
    with (work := work) (w := with_state d w)
    as [w' [Hrun [_ Hw']]].
  - intros tk e w1 w2 H1 Heff.
    destruct (iteration_effect_cases _ _ _ _ _ Heff)
      as [w0 [Hs0 [Hf0 [_ Hcases]]]].
    assert (H0 : directions_only (w_state w0) /\
                 directions_only (persisted (storage o) w0)).
    { unfold persisted in *. now rewrite Hs0, Hf0. }
    destruct Hcases as [-> | [[dir [t [m [c [Hd [_ [_ [_ [_ ->]]]]]]]]] | [_ [_ ->]]]];
      [exact H0 | |]; apply after_set_directions; tauto.
  - unfold persisted in *. simpl. rewrite Hload in *. simpl in Hp. auto.
  - now rewrite Hrun.
Qed.

Lemma run_keeps_directions_witness :
  directions_only
    (persisted "alert_state.json"
       (snd (run (ascii_lib offline) (Core demo_core) noon
               [("AAPL", quote 100 102 (Raise OtherException))] (world_with "none")))).
Proof.
  apply (run_keeps_directions_only (ascii_lib offline) (Core demo_core) noon
           [("AAPL", quote 100 102 (Raise OtherException))] (world_with "none")).
  intros k v. unfold persisted. simpl.
  change (load_state _ _) with (Ok ({["AAPL" := PStr "none"]} : gmap string pyval)).
  simpl. intros H. apply lookup_singleton_Some in H as [_ <-]. auto.
Defined.

Lemma iteration_notifications (o : orchestrator) (tk0 tk : string) (e : ticker_env)
  (w w' : world) :
  iteration_effect o tk0 e w w' ->
  (notifications_for tk (w_log w')
   <= notifications_for tk (w_log w) + if String.eqb tk0 tk then 1 else 0)%nat.
Proof.
  intros Heff.
  destruct (iteration_effect_cases _ _ _ _ _ Heff)
    as [w0 [_ [_ [Hlog [-> | [[dir [t [m [c [_ [_ [_ [_ [_ ->]]]]]]]]] | [_ [_ ->]]]]]]]];
    [rewrite Hlog; lia | |]; unfold after_set; simpl; rewrite Hlog, !notifications_for_app.
  - change (notifications_for tk [EvSet tk0 dir; EvSave ?p ?mp ?b]) with O.
    unfold notifications_for at 2. simpl.
    destruct (String.eqb tk0 tk); simpl; lia.
  - change (notifications_for tk [EvSet tk0 "none"; EvSave ?p ?mp ?b]) with O.
    change (notifications_for tk []) with O. lia.
Qed.

Lemma for_each_notifications (L : pylib) (o : orchestrator) (tk : string)
  (work : list (string * ticker_env)) :
  forall w,
    (notifications_for tk (w_log (snd (for_each (step L o) work w)))
     <= notifications_for tk (w_log w) + listed tk work)%nat.
Proof.
  induction work as [| [tk0 e] rest IH]; intros w.
  - simpl. lia.
  - destruct (step_iteration L o tk0 e w) as [w1 [Hrun Heff]].
    apply (iteration_notifications _ _ tk) in Heff.
    specialize (IH w1). simpl for_each. unfold bind. rewrite Hrun.
    unfold listed in *. simpl.
    destruct (String.eqb tk0 tk); simpl; lia.
Qed.

(** The events of a run are those of its iterations, ticker by ticker
    in the order of the list, and an iteration logs nothing, or a
    notification for its ticker (with the configured [dry_run] flag,
    and with the title "Stock Alert: <ticker>" in [run_once] and in
    [run_agent_once] without an advisory client) followed at once by
    the assignment of "up" or "down" and its save, or the assignment
    of "none" and its save with no notification.  So no notification
    goes unrecorded in memory, no breakout is recorded without its
    notification, and the notifications for a ticker grow by no more
    than the number of times it stands in the ticker list. *)
Theorem run_log_grammar (L : pylib) (o : orchestrator) (now : datetime)
  (work : list (string * ticker_env)) (w : world) :
  (exists new,
     w_log (snd (run L o now work w)) = w_log w ++ new /\
     run_log o (List.map fst work) new) /\
  (forall tk,
     notifications_for tk (w_log (snd (run L o now work w)))
     <= notifications_for tk (w_log w) + listed tk work)%nat.
Proof.
  destruct (run_cases L o now work w) as [[x [w' [-> [_ Hlog]]]] | [-> | [d [_ ->]]]].
  - split; [| simpl; rewrite Hlog; lia].
    exists []. split; [simpl; now rewrite Hlog, app_nil_r | apply run_log_idle].
  - split; [| simpl; lia].
    exists []. split; [now rewrite app_nil_r | apply run_log_idle].
  - split.
    + destruct (for_each_run_log L o work (with_state d w))
        as [w' [new [Hrun [Hlog Hnew]]]].
      exists new. rewrite Hrun. auto.
    + intros tk.
      apply (for_each_notifications L o tk work (with_state d w)).
Qed.

(** When the write that follows a dispatched breakout raises, the
    notification is out and the mapping in memory records the
    breakout, but the state file does not: it is as it was when the
    write failed before it opened the file, and it is unreadable, so
    that the next run loads the empty mapping, when the write had
    opened it. *)
Theorem failed_save_leaves_file_behind (L : pylib) (o : orchestrator)
  (tk : string) (e : ticker_env) (dir : string) (x : exn) (w : world) :
  observes o e dir ->
  fires (default (PStr "none") (w_state w !! tk)) dir = true ->
  feeds_answer L o e ->
  composer_sends L o tk e ->
  te_notify e = Ok tt ->
  te_write e = Raise x ->
  exists w',
    step L o tk e w = (Ok tt, w') /\
    notifications_for tk (w_log w') = S (notifications_for tk (w_log w)) /\
    w_state w' !! tk = Some (PStr dir) /\
    w_fs w' = (if te_truncates e
               then <[storage o := Unreadable ValueError]> (w_fs w)
               else w_fs w) /\
    (te_truncates e = true -> load_state (w_fs w') (storage o) = Ok ∅).
Proof.
  unfold fires. intros Hobs Hfire Hnews Hsend Hn Hw.
  apply andb_prop in Hfire as [Hdir Hprev].
  assert (Hcount : forall (log : list event) (t m : string) (c : option pyval) (dr : bool)
                     (mp : gmap string pyval),
             notifications_for tk
               ((((log ++ [EvNotify tk t m c dr]) ++ [EvSet tk dir])
                 ++ [EvSave (storage o) mp false]))
             = S (notifications_for tk log)).
  { intros. rewrite !notifications_for_app.
    change (notifications_for tk [EvSet tk dir]) with O.
    change (notifications_for tk [EvSave ?p ?q false]) with O.
    unfold notifications_for at 2. simpl. rewrite String.eqb_refl. simpl. lia. }
  destruct o as [cfg | cfg]; simpl in *.
  - destruct Hobs as [open_px [last_px [Hp [Hz Hd]]]]. destruct Hnews as [[blk click] Hnews].
    unfold process_ticker, try_catch, ticker_body, bind, lift, get_state, raise, ret,
      company_lookup.
    rewrite Hp, Hz, Hd, Hdir, Hprev. simpl. rewrite Hnews.
    unfold notify_ntfy. rewrite Hn. unfold save_state, file_after_write, emit.
    rewrite Hw. simpl.
    eexists. split; [reflexivity |]. simpl.
    split; [destruct (news_enabled cfg); apply Hcount |].
    split; [destruct (news_enabled cfg); apply lookup_insert_eq |].
    split; [destruct (news_enabled cfg); reflexivity |].
    intros Htr. rewrite Htr. destruct (news_enabled cfg); apply load_after_failed_save.
  - destruct Hobs as [open_px [last_px [Hp Hd]]]. destruct Hnews as [hs Hnews].
    specialize (Hsend _ _ _ Hp Hnews). unfold should_send in Hsend.
    unfold agent_ticker, try_catch, agent_body, bind, lift, get_state, raise, ret,
      company_lookup.
    rewrite Hp, Hd, Hnews. simpl.
    destruct (agent_summarize_and_decide _ _ _ _ _ _ _ _ _) as [[[send title] body] click].
    simpl in Hsend. subst send. rewrite Hdir, Hprev. simpl.
    unfold notify_ntfy. rewrite Hn. unfold save_state, file_after_write, emit.
    rewrite Hw. simpl.
    eexists. split; [reflexivity |]. simpl.
    split; [destruct (a_news_enabled cfg); apply Hcount |].
    split; [destruct (a_news_enabled cfg); apply lookup_insert_eq |].
    split; [destruct (a_news_enabled cfg); reflexivity |].
    intros Htr. rewrite Htr. destruct (a_news_enabled cfg); apply load_after_failed_save.
Qed.

Lemma failed_save_witness :
  exists w',
    step (ascii_lib offline) (Core demo_core) "AAPL"
      (disk_full (quote 100 102 (Raise OtherException))) (loaded_with "none")
    = (Ok tt, w') /\
    notifications_for "AAPL" (w_log w')
    = S (notifications_for "AAPL" (w_log (loaded_with "none"))) /\
    w_state w' !! "AAPL" = Some (PStr "up") /\
    w_fs w' = (if te_truncates (disk_full (quote 100 102 (Raise OtherException)))
               then <[storage (Core demo_core) := Unreadable ValueError]>
                      (w_fs (loaded_with "none"))
               else w_fs (loaded_with "none")) /\
    (te_truncates (disk_full (quote 100 102 (Raise OtherException))) = true ->
     load_state (w_fs w') (storage (Core demo_core)) = Ok ∅).
Proof.
  apply (failed_save_leaves_file_behind (ascii_lib offline) (Core demo_core) "AAPL"
           (disk_full (quote 100 102 (Raise OtherException))) "up" OSError
           (loaded_with "none")).
  - exists 100%Q, 102%Q. repeat split.
  - reflexivity.
  - eexists. reflexivity.
  - exact I.
  - reflexivity.
  - reflexivity.
Defined.

(** ** URLs of headline items *)

(** [_ensure_https] yields the empty string for the empty string only,
    and otherwise a string that starts with "http://" or "https://";
    it leaves such a string as it is (an "http://" address is not
    upgraded), and applying it twice is applying it once. *)
Theorem ensure_https_normal_form (u : string) :
  (ensure_https u = "" <-> u = "") /\
  (u <> "" -> has_http_scheme (ensure_https u) = true) /\
  (has_http_scheme u = true -> ensure_https u = u) /\
  ensure_https (ensure_https u) = ensure_https u.
Proof.
  assert (Hscheme : u <> "" -> has_http_scheme (ensure_https u) = true).
  { intros Hu. unfold ensure_https.
    destruct (String.eqb u "") eqn:E; [apply String.eqb_eq in E; contradiction |].
    destruct (has_http_scheme u) eqn:H; [exact H |].
    unfold has_http_scheme. simpl. destruct (lstrip_slash u); reflexivity. }
  split; [| split; [exact Hscheme | split;
    [apply ensure_https_fixed | apply ensure_https_idempotent]]].
  split.
  - intros He. destruct (String.eqb u "") eqn:E; [now apply String.eqb_eq in E |].
    assert (Hu : u <> "") by (intros ->; discriminate E).
    specialize (Hscheme Hu). rewrite He in Hscheme. discriminate Hscheme.
  - intros ->. reflexivity.
Qed.

(** ** The headline block *)

Lemma format_loop_spec (L : pylib) (items : list item) :
  forall seen : gset string,
    List.NoDup (List.map e_orig (format_loop L seen items)) /\
    (forall e, In e (format_loop L seen items) ->
       (e_orig e ∉ seen) /\
       exists it, In it items /\ usable L it = true /\ e = entry_of L it) /\
    subsequence (format_loop L seen items)
      (List.map (entry_of L) (List.filter (usable L) items)).
Proof.
  induction items as [| it rest IH]; intros seen; simpl.
  - split; [constructor |]. split; [intros e [] | constructor].
  - destruct (usable L it) eqn:Hu; simpl; [| destruct (IH seen) as [H1 [H2 H3]]].
    + destruct (bool_decide (canonical L it ∈ seen)) eqn:Hseen.
      * destruct (IH seen) as [H1 [H2 H3]].
        split; [exact H1 |]. split; [| now constructor].
        intros e He. destruct (H2 e He) as [Hn [it' [Hin Hit]]]. eauto.
      * apply bool_decide_eq_false in Hseen.
        destruct (IH ({[canonical L it]} ∪ seen)) as [H1 [H2 H3]].
        split; [| split; [| now constructor]].
        -- simpl. constructor; [| exact H1].
           intros Hin. apply in_map_iff in Hin as [e [Heq He]].
           destruct (H2 e He) as [Hn _]. apply Hn.
           apply elem_of_union. left. apply elem_of_singleton. exact Heq.
        -- intros e [<- | He].
           ++ split; [exact Hseen |]. exists it. auto.
           ++ destruct (H2 e He) as [Hn [it' [Hin Hit]]].
              split; [| eauto].
              intros Hs. apply Hn. apply elem_of_union. now right.
    + split; [exact H1 |]. split; [| exact H3].
      intros e He. destruct (H2 e He) as [Hn [it' [Hin Hit]]]. eauto.
Qed.

Lemma format_loop_empty (L : pylib) (items : list item) :
  forall seen : gset string,
    format_loop L seen items = [] ->
    Forall (fun it => usable L it = true -> canonical L it ∈ seen) items.
Proof.
  induction items as [| it rest IH]; intros seen H; [constructor |].
  simpl in H. destruct (usable L it) eqn:Hu; simpl in H.
  - destruct (bool_decide (canonical L it ∈ seen)) eqn:Hseen; [| discriminate H].
    apply bool_decide_eq_true in Hseen. constructor; auto.
  - constructor; [simpl; congruence | auto].
Qed.

Lemma render_not_empty (e : entry) (rest : list string) :
  String.concat nl (render e ++ rest) <> "".
Proof. unfold render. simpl. discriminate. Qed.

(** The bullets of a headline block carry pairwise distinct links;
    each bullet stems from an item that has a title and a URL, and the
    bullets keep the order of the items.  The text is empty exactly
    when no item has both a title and a URL: this is when [run_once]
    turns to the fallback locale. *)
Theorem headline_block_postcondition (L : pylib) (items : list item) :
  List.NoDup (List.map e_orig (headline_entries L items)) /\
  subsequence (headline_entries L items)
    (List.map (entry_of L) (List.filter (usable L) items)) /\
  (_format_headlines L items = "" <-> Forall (fun it => usable L it = false) items).
Proof.
  destruct (format_loop_spec L items ∅) as [H1 [_ H3]].
  split; [exact H1 |]. split; [exact H3 |]. clear H1 H3.
  unfold _format_headlines, headline_entries. split.
  - intros H.
    assert (Hnil : format_loop L ∅ items = []).
    { destruct (format_loop L ∅ items) as [| e es]; [reflexivity |].
      exfalso. exact (render_not_empty e _ H). }
    apply format_loop_empty in Hnil.
    eapply Forall_impl; [exact Hnil |].
    intros it Hit. simpl in Hit. destruct (usable L it); [| reflexivity].
    exfalso. specialize (Hit eq_refl). now apply not_elem_of_empty in Hit.
  - intros H. generalize (∅ : gset string).
    induction H as [| it rest Hit _ IH]; intros seen; [reflexivity |].
    simpl. rewrite Hit. simpl. apply IH.
Qed.

(** ** Keyword filter *)

Lemma filter_subsequence {A : Type} (p : A -> bool) (l : list A) :
  subsequence (List.filter p l) l.
Proof.
  induction l as [| x l IH]; simpl; [constructor |].
  destruct (p x); now constructor.
Qed.

Lemma filter_twice {A : Type} (p : A -> bool) (l : list A) :
  List.filter p (List.filter p l) = List.filter p l.
Proof.
  induction l as [| x l IH]; simpl; [reflexivity |].
  destruct (p x) eqn:E; simpl; [rewrite E; now f_equal | exact IH].
Qed.

Lemma subsequence_refl {A : Type} (l : list A) : subsequence l l.
Proof. induction l; now constructor. Qed.

(** [filter_titles] only leaves items out (the kept ones stay in
    order), filtering twice is filtering once, and keywords that are
    empty or blank are ignored: when every keyword is, all items
    pass. *)
Theorem filter_titles_only_leaves_out (L : pylib) (items : list item)
  (required_keywords : list string) :
  subsequence (filter_titles L items required_keywords) items /\
  filter_titles L (filter_titles L items required_keywords) required_keywords
  = filter_titles L items required_keywords /\
  (forallb (blank L) required_keywords = true ->
   filter_titles L items required_keywords = items).
Proof.
  unfold filter_titles.
  split; [| split].
  - destruct (List.map _ _); [apply subsequence_refl | apply filter_subsequence].
  - destruct (List.map _ _); [reflexivity | apply filter_twice].
  - intros Hblank.
    assert (Hnone : List.filter
              (fun k => negb (String.eqb k "") && negb (String.eqb (strip L k) ""))
              required_keywords = []).
    { induction required_keywords as [| k ks IH]; [reflexivity |].
      simpl in Hblank. apply andb_prop in Hblank as [Hk Hks].
      simpl. rewrite <- negb_orb. fold (blank L k). rewrite Hk. simpl. now apply IH. }
    now rewrite Hnone.
Qed.

(** ** The news block of [run_once] *)

(** The news block once the query and the first feed have answered. *)
Lemma enrichment_enabled (L : pylib) (e : ticker_env) (q : string) (hs : list item) :
  te_query e = Ok q ->
  te_headlines e = Ok hs ->
  enrichment L true e
  = if String.eqb (_format_headlines L (kept L e hs)) "" then
      match te_headlines_fallback e with
      | Ok hs' =>
          Ok (if String.eqb (_format_headlines L (kept L e hs')) "" then ""
              else news_block (_format_headlines L (kept L e hs')),
              match nonempty (click_of L (kept L e hs)) with
              | Some c => Some c
              | None =>
                  match kept L e hs' with
                  | [] => click_of L (kept L e hs)
                  | _ => click_of L (kept L e hs')
                  end
              end)
      | Raise x => Raise x
      end
    else Ok (news_block (_format_headlines L (kept L e hs)), click_of L (kept L e hs)).
Proof.
  intros Hq Hhs. unfold enrichment. rewrite Hq, Hhs.
  cbv beta iota zeta delta [negb rbind].
  fold (kept L e hs).
  destruct (String.eqb (_format_headlines L (kept L e hs)) "") eqn:E1;
    [| rewrite ?E1; reflexivity].
  destruct (te_headlines_fallback e) as [hs' | x]; [| reflexivity].
  fold (kept L e hs'). reflexivity.
Qed.

(** When the query builder and both headline feeds answer, the news
    block is built: neither [auto_keywords] nor the URL resolver can
    make it raise.  The block is empty or the heading followed by a
    non-empty headline text. *)
Theorem news_block_needs_only_the_feeds (L : pylib) (enabled : bool) (e : ticker_env)
  (q : string) (hs hs' : list item) :
  te_query e = Ok q ->
  te_headlines e = Ok hs ->
  te_headlines_fallback e = Ok hs' ->
  exists blk click,
    enrichment L enabled e = Ok (blk, click) /\
    (blk = "" \/ exists text, text <> "" /\ blk = news_block text).
Proof.
  intros Hq Hhs Hhs'.
  destruct enabled; [| unfold enrichment; simpl; eauto].
  rewrite (enrichment_enabled L e q hs Hq Hhs), Hhs'.
  destruct (String.eqb (_format_headlines L (kept L e hs)) "") eqn:E1.
  - destruct (String.eqb (_format_headlines L (kept L e hs')) "") eqn:E2.
    + eauto.
    + do 2 eexists. split; [reflexivity |]. right.
      eexists. split; [| reflexivity]. intros H. rewrite H in E2. discriminate E2.
  - do 2 eexists. split; [reflexivity |]. right.
    eexists. split; [| reflexivity]. intros H. rewrite H in E1. discriminate E1.
Qed.

Lemma news_block_witness :
  exists blk click,
    enrichment (ascii_lib offline) true (two_locales [untitled] [direct_link])
    = Ok (blk, click) /\
    (blk = "" \/ exists text, text <> "" /\ blk = news_block text).
Proof.
  apply (news_block_needs_only_the_feeds (ascii_lib offline) true
           (two_locales [untitled] [direct_link]) "AAPL" [untitled] [direct_link]);
    reflexivity.
Defined.



(** ** Notification titles *)

Lemma format_title_ascii (tk : string) : is_ascii (_format_title tk) = is_ascii tk.
Proof. reflexivity. Qed.

Lemma iteration_log_titles (o : orchestrator) (tk : string) (new : list event) :
  plain_titles o -> is_ascii tk = true ->
  iteration_log o tk new ->
  Forall (fun ev => forall t, title_of ev = Some t -> is_ascii t = true) new.
Proof.
  intros Hplain Htk Hlog.
  destruct Hlog as [| dir t m c mp b _ Ht _ | mp b _].
  - constructor.
  - assert (Heq : t = _format_title tk)
      by (destruct o as [cfg | cfg]; simpl in *; auto).
    subst t. repeat constructor; simpl; try discriminate.
    intros t [= <-]. now rewrite format_title_ascii.
  - repeat constructor; simpl; discriminate.
Qed.

(** The title of every notification that [run_once] dispatches, and
    that [run_agent_once] dispatches when no advisory client is
    configured, is plain ASCII when the tickers are: it can be sent as
    an HTTP header. *)
Theorem titles_are_ascii (L : pylib) (o : orchestrator) (now : datetime)
  (work : list (string * ticker_env)) (w : world) :
  plain_titles o ->
  Forall (fun p => is_ascii (fst p) = true) work ->
  exists new,
    w_log (snd (run L o now work w)) = w_log w ++ new /\
    Forall (fun ev => forall t, title_of ev = Some t -> is_ascii t = true) new.
Proof.
  intros Hplain Hwork.
  destruct (run_cases L o now work w) as [[x [w' [-> [_ Hlog]]]] | [-> | [d [_ ->]]]];
    [exists []; split; [simpl; now rewrite ?Hlog, app_nil_r | constructor] ..|].
  destruct (for_each_run_log L o work (with_state d w))
    as [w' [new [Hrun [Hlog Hnew]]]].
  exists new. rewrite Hrun. split; [exact Hlog |].
  clear Hrun Hlog. revert Hwork.
  generalize dependent work. intros work. revert new.
  induction work as [| [tk e] rest IH]; intros new Hnew Hwork; simpl in Hnew.
  - inversion Hnew. constructor.
  - inversion Hnew as [| tk' tks new1 new2 H1 H2]; subst.
    inversion Hwork as [| p ps Hp Hps]; subst. simpl in Hp.
    apply Forall_app. split.
    + now apply (iteration_log_titles o tk).
    + now apply IH.
Qed.

Lemma titles_are_ascii_witness :
  exists new,
    w_log (snd (run (ascii_lib offline) (Agent (demo_agent false)) noon
                  [("AAPL", quote 100 102 (Raise OtherException))] (world_with "none")))
    = w_log (world_with "none") ++ new /\
    Forall (fun ev => forall t, title_of ev = Some t -> is_ascii t = true) new.
Proof.
  apply (titles_are_ascii (ascii_lib offline) (Agent (demo_agent false)) noon
           [("AAPL", quote 100 102 (Raise OtherException))] (world_with "none")).
  - reflexivity.
  - repeat constructor.
Defined.

(** ** Fetching headlines *)

Lemma collect_spec (L : pylib) (isoformat : Z -> string) (via : route)
  (now_us limit lookback_hours : Z) (entries : list feed_entry) :
  forall out out',
    collect L isoformat via now_us limit lookback_hours entries out = Ok out' ->
    exists new,
      out' = out ++ new /\
      (Z.of_nat (List.length out') <= Z.max limit (Z.of_nat (List.length out) + 1)
       \/ new = []) /\
      Forall (fun it => exists e, In e entries /\
                kept_from L isoformat via now_us lookback_hours e it) new.
Proof.
  induction entries as [| e rest IH]; intros out out' H; simpl in H.
  - injection H as <-. exists []. rewrite app_nil_r. auto.
  - destruct (read_entry L isoformat via e) as [r | x] eqn:Hr; [simpl in H | discriminate H].
    assert (Hrest : forall new,
              Forall (fun it => exists e0, In e0 rest /\
                        kept_from L isoformat via now_us lookback_hours e0 it) new ->
              Forall (fun it => exists e0, In e0 (e :: rest) /\
                        kept_from L isoformat via now_us lookback_hours e0 it) new).
    { intros new Hnew. eapply Forall_impl; [exact Hnew |].
      intros it [e0 [Hin Hk]]. exists e0. split; [now right | exact Hk]. }
    destruct (too_old now_us lookback_hours r) eqn:Hold.
    { destruct (IH _ _ H) as [new [Heq [Hlen Hall]]]. exists new. auto. }
    destruct (negb (String.eqb (rd_title r) "") && negb (String.eqb (rd_link r) "")) eqn:Hgood.
    + destruct (_extract_original_url L true (rd_link r)) as [url | x] eqn:Hurl;
        [simpl in H | discriminate H].
      assert (Hk : kept_from L isoformat via now_us lookback_hours e
                     (headline (rd_title r) (rd_source r) url (rd_published r))).
      { apply andb_prop in Hgood as [Ht Hl].
        apply negb_true_iff, String.eqb_neq in Ht, Hl.
        exists r, url. auto 10. }
      destruct (limit <=? Z.of_nat (List.length (out ++ _))) eqn:Hlim.
      * injection H as <-. eexists. split; [reflexivity |]. split.
        -- left. rewrite List.length_app. simpl. lia.
        -- constructor; [| constructor]. exists e. split; [now left | exact Hk].
      * apply Z.leb_gt in Hlim.
        destruct (IH _ _ H) as [new [Heq [Hlen Hall]]].
        exists (headline (rd_title r) (rd_source r) url (rd_published r) :: new).
        split; [rewrite Heq, <- app_assoc; reflexivity |]. split.
        -- left. destruct Hlen as [Hlen | ->].
           ++ rewrite List.length_app in Hlen, Hlim. simpl in Hlen, Hlim. lia.
           ++ rewrite Heq, app_nil_r. rewrite List.length_app in *. simpl in *. lia.
        -- constructor; [exists e; split; [now left | exact Hk] | now apply Hrest].
    + simpl in H. destruct (limit <=? Z.of_nat (List.length out)) eqn:Hlim.
      * injection H as <-. exists []. rewrite app_nil_r. auto.
      * destruct (IH _ _ H) as [new [Heq [Hlen Hall]]]. exists new. auto.
Qed.

(** What [fetch_headlines] returns: at most [limit] headlines (one,
    when [limit] is below 1: the limit is tested after the append),
    each built from an entry of the feed that has a title and a link,
    that is not older than the look-back window when it carries a
    time, and on whose link the URL resolver answered. *)
Theorem fetch_headlines_postcondition (L : pylib) (isoformat : Z -> string) (via : route)
  (now_us : Z) (entries : list feed_entry) (limit lookback_hours : Z) (out : list item) :
  fetch_headlines L isoformat via now_us (Ok entries) limit lookback_hours = Ok out ->
  Z.of_nat (List.length out) <= Z.max limit 1 /\
  Forall (fun it => exists e, In e entries /\
            kept_from L isoformat via now_us lookback_hours e it) out.
Proof.
  unfold fetch_headlines. simpl. intros H.
  assert (Hc : out = [] \/
               collect L isoformat via now_us limit lookback_hours entries [] = Ok out).
  { destruct via; [now right |].
    destruct (collect L isoformat ViaRequests now_us limit lookback_hours entries [])
      as [o | x]; simpl in H; injection H as <-; auto. }
  destruct Hc as [-> | Hc]; [split; [simpl; lia | constructor] |].
  destruct (collect_spec _ _ _ _ _ _ _ _ _ Hc) as [new [Heq [Hlen Hall]]].
  simpl in Heq. subst new. split; [| exact Hall].
  destruct Hlen as [Hlen | ->]; simpl in *; lia.
Qed.

Lemma fetch_headlines_witness :
  Z.of_nat (List.length [headline "Apple beats estimates" "Example"
                           "https://example.com/story" "1000"]) <= Z.max 0 1 /\
  Forall (fun it => exists e, In e [story; story] /\
            kept_from (ascii_lib offline) seconds_text ViaFeedparser 2000000000 12 e it)
    [headline "Apple beats estimates" "Example" "https://example.com/story" "1000"].
Proof.
  apply (fetch_headlines_postcondition (ascii_lib offline) seconds_text ViaFeedparser
           2000000000 [story; story] 0 12).
  reflexivity.
Defined.

Lemma collect_passes (L : pylib) (isoformat : Z -> string) (via : route)
  (now_us limit lookback_hours : Z) (before rest : list feed_entry) :
  forall out out1,
    collect L isoformat via now_us limit lookback_hours before out = Ok out1 ->
    Z.of_nat (List.length out1) < limit ->
    collect L isoformat via now_us limit lookback_hours (before ++ rest) out
    = collect L isoformat via now_us limit lookback_hours rest out1.
Proof.
  induction before as [| e before IH]; intros out out1 H Hlen; simpl in *.
  - now injection H as <-.
  - destruct (read_entry L isoformat via e) as [r | x]; [simpl in * | discriminate H].
    destruct (too_old now_us lookback_hours r); [now apply IH |].
    destruct (if negb (String.eqb (rd_title r) "") && negb (String.eqb (rd_link r) "")
              then _ else _) as [out2 | x]; [simpl in * | discriminate H].
    destruct (limit <=? Z.of_nat (List.length out2)) eqn:Hlim; [| now apply IH].
    injection H as <-. apply Z.leb_le in Hlim. lia.
Qed.

(** One link on which the URL resolver raises costs the whole feed:
    when the loop reaches such an entry before the limit is met, the
    first way ([feedparser]) lets the exception leave
    [fetch_headlines], and the second way answers with the empty list,
    dropping the headlines collected before it. *)
Theorem one_bad_link_loses_the_feed (L : pylib) (isoformat : Z -> string) (via : route)
  (now_us limit lookback_hours : Z) (before rest : list feed_entry) (e : feed_entry)
  (out1 : list item) (r : reading) (x : exn) :
  collect L isoformat via now_us limit lookback_hours before [] = Ok out1 ->
  Z.of_nat (List.length out1) < limit ->
  read_entry L isoformat via e = Ok r ->
  too_old now_us lookback_hours r = false ->
  rd_title r <> "" ->
  rd_link r <> "" ->
  _extract_original_url L true (rd_link r) = Raise x ->
  fetch_headlines L isoformat via now_us (Ok (before ++ e :: rest)) limit lookback_hours
  = match via with
    | ViaFeedparser => Raise x
    | ViaRequests => Ok []
    end.
Proof.
  intros Hbefore Hlen Hr Hold Ht Hl Hx.
  assert (Hc : collect L isoformat via now_us limit lookback_hours (before ++ e :: rest) []
               = Raise x).
  { rewrite (collect_passes _ _ _ _ _ _ _ _ _ _ Hbefore Hlen). simpl.
    rewrite Hr. simpl. rewrite Hold.
    apply String.eqb_neq in Ht, Hl. rewrite Ht, Hl. simpl. now rewrite Hx. }
  unfold fetch_headlines. simpl. rewrite Hc. now destruct via.
Qed.

Lemma one_bad_link_witness :
  fetch_headlines (ascii_lib offline) seconds_text ViaRequests 2000000000
    (Ok ([story] ++ broken_link :: [story])) 3 12
  = Ok [].
Proof.
  apply (one_bad_link_loses_the_feed (ascii_lib offline) seconds_text ViaRequests
           2000000000 3 12 [story] [story] broken_link
           [headline "Apple beats estimates" "Example" "https://example.com/story" "1000"]
           {| rd_title := "Apple tops forecasts"; rd_link := "[";
              rd_source := "news.google.com"; rd_time := None; rd_published := "" |}
           ValueError);
    try reflexivity; discriminate.
Defined.

(** ** The composer and its deterministic baseline *)

(** An advisory answer without a body makes the composer fall back to
    the deterministic baseline for the whole message: title, body and
    click URL are those of [format_plain_push], and the title and the
    link of the answer are dropped.  Only the send decision is still
    taken from the answer. *)
Theorem composer_falls_back_without_body (L : pylib) (d : gmap string pyval)
  (ticker : string) (open_px last_px delta_pct : Q) (headlines : list item)
  (threshold : Q) :
  py_str L (PStr "") = "" ->
  no_body d ->
  agent_summarize_and_decide L true (Ok (PDict d)) ticker open_px last_px delta_pct
    headlines threshold
  = let '(title, body, click) := plain_push L ticker open_px last_px delta_pct headlines in
    (match d !! "send_alert" with
     | Some v => truthy v
     | None => magnitude_test delta_pct threshold
     end, title, body, click).
Proof.
  intros Hstr Hbody.
  assert (Hget : get_or d "body" (PStr "") = PStr "").
  { unfold get_or. destruct Hbody as [-> | [v [-> ->]]]; reflexivity. }
  unfold agent_summarize_and_decide, plain_push. simpl. rewrite Hget, Hstr. simpl.
  destruct (format_plain_push L ticker open_px last_px delta_pct headlines) as [[t b] c].
  reflexivity.
Qed.

Lemma composer_falls_back_witness :
  agent_summarize_and_decide (ascii_lib offline) true (Ok (PDict advice_without_body))
    "AAPL" 100 102 2 [direct_link] 1
  = let '(title, body, click) :=
      plain_push (ascii_lib offline) "AAPL" 100 102 2 [direct_link] in
    (match advice_without_body !! "send_alert" with
     | Some v => truthy v
     | None => magnitude_test 2 1
     end, title, body, click).
Proof.
  apply (composer_falls_back_without_body (ascii_lib offline) advice_without_body
           "AAPL" 100 102 2 [direct_link] 1).
  - reflexivity.
  - left. reflexivity.
Defined.

(** ** Company names and tickers *)

Lemma contains_char (c : ascii) (s : string) :
  contains (String c EmptyString) s = in_chars c s.
Proof.
  unfold in_chars. induction s as [| d rest IH]; [reflexivity |].
  simpl. rewrite IH.
  destruct (ascii_dec c d) as [-> | Hne].
  - rewrite Ascii.eqb_refl. now destruct rest.
  - apply Ascii.eqb_neq in Hne. now rewrite Hne.
Qed.

Lemma before_first_prefix (c : ascii) (s : string) :
  String.prefix (before_first c s) s = true.
Proof.
  induction s as [| d rest IH]; [reflexivity |].
  simpl. destruct (Ascii.eqb c d); [reflexivity |].
  simpl. destruct (ascii_dec d d); [exact IH | contradiction].
Qed.

Lemma before_first_free (c : ascii) (s : string) :
  in_chars c (before_first c s) = false.
Proof.
  unfold in_chars. induction s as [| d rest IH]; [reflexivity |].
  simpl. destruct (Ascii.eqb c d) eqn:E; [reflexivity |].
  simpl. now rewrite E.
Qed.

Lemma before_first_keeps_out (c c' : ascii) (s : string) :
  in_chars c' s = false -> in_chars c' (before_first c s) = false.
Proof.
  unfold in_chars. induction s as [| d rest IH]; [reflexivity |].
  simpl. intros H. apply orb_false_iff in H as [Hd Hrest].
  destruct (Ascii.eqb c d); [reflexivity |].
  simpl. rewrite Hd. now apply IH.
Qed.

Lemma prefix_refl (s : string) : String.prefix s s = true.
Proof.
  induction s as [| c s IH]; [reflexivity |].
  simpl. destruct (ascii_dec c c); [exact IH | contradiction].
Qed.

(** [_base_ticker] returns a leading part of the symbol: the symbol
    itself for an index (a leading "^"), and otherwise a part that
    holds no "." and, when the symbol has no ".", no "-" either. *)
Theorem base_ticker_is_leading_part (symbol : string) :
  String.prefix (_base_ticker symbol) symbol = true /\
  (String.prefix "^" symbol = true -> _base_ticker symbol = symbol) /\
  (String.prefix "^" symbol = false -> contains "." (_base_ticker symbol) = false) /\
  (String.prefix "^" symbol = false -> contains "." symbol = false ->
   contains "-" (_base_ticker symbol) = false).
Proof.
  unfold _base_ticker.
  split; [| split; [| split]].
  - destruct (String.prefix "^" symbol); [apply prefix_refl |].
    destruct (contains "." symbol); [apply before_first_prefix |].
    destruct (contains "-" symbol); [apply before_first_prefix | apply prefix_refl].
  - now intros ->.
  - intros ->. destruct (contains "." symbol) eqn:Hdot.
    + rewrite contains_char. apply before_first_free.
    + destruct (contains "-" symbol); [| exact Hdot].
      rewrite contains_char in *. now apply before_first_keeps_out.
  - intros -> ->. destruct (contains "-" symbol) eqn:Hdash; [| exact Hdash].
    rewrite contains_char. apply before_first_free.
Qed.

Lemma pop_legal_spec (L : pylib) (parts : list string) :
  exists dropped,
    parts = pop_legal L parts ++ dropped /\
    Forall (fun p => legal L p = true) dropped /\
    (forall front p, pop_legal L parts = front ++ [p] -> legal L p = false).
Proof.
  induction parts as [| p rest [dropped [Heq [Hall Hlast]]]]; simpl.
  - exists []. split; [reflexivity |]. split; [constructor |].
    intros front p H. now destruct front.
  - destruct (pop_legal L rest) as [| k ks] eqn:Hpop.
    + simpl in Heq. subst dropped. destruct (legal L p) eqn:Hp.
      * exists (p :: rest). split; [reflexivity |]. split; [now constructor |].
        intros front q H. now destruct front.
      * exists rest. split; [reflexivity |]. split; [exact Hall |].
        intros front q H. destruct front as [| f front]; simpl in H.
        -- now injection H as <-.
        -- injection H as _ H. now destruct front.
    + exists dropped. split; [simpl; now rewrite Heq at 1 |]. split; [exact Hall |].
      intros front q H. destruct front as [| f front]; simpl in H; [discriminate H |].
      injection H as _ H. exact (Hlast front q H).
Qed.

(** [_strip_legal_suffixes] removes a run of trailing words that are
    legal forms, and stops at the first word from the right that is
    none: what it joins ends with a word that is no legal form.  A
    name made of legal forms only ("Holding AG") is returned as it is,
    stripped, not emptied. *)
Theorem strip_legal_suffixes_postcondition (L : pylib) (words : string -> list string)
  (name : string) :
  name <> "" ->
  exists kept dropped,
    List.map (strip_chars ",. ") (words name) = kept ++ dropped /\
    Forall (fun p => legal L p = true) dropped /\
    (forall front p, kept = front ++ [p] -> legal L p = false) /\
    _strip_legal_suffixes L words name
    = match kept with
      | [] => strip L name
      | _ => strip L (String.concat " " kept)
      end.
Proof.
  intros Hname. unfold _strip_legal_suffixes.
  apply String.eqb_neq in Hname. rewrite Hname.
  destruct (pop_legal_spec L (List.map (strip_chars ",. ") (words name)))
    as [dropped [Heq [Hall Hlast]]].
  exists (pop_legal L (List.map (strip_chars ",. ") (words name))), dropped.
  split; [exact Heq |]. split; [exact Hall |]. split; [exact Hlast |].
  now destruct (pop_legal L _).
Qed.

Lemma strip_legal_suffixes_witness :
  exists kept dropped,
    List.map (strip_chars ",. ") (split_all " " "Holding AG") = kept ++ dropped /\
    Forall (fun p => legal (ascii_lib offline) p = true) dropped /\
    (forall front p, kept = front ++ [p] -> legal (ascii_lib offline) p = false) /\
    _strip_legal_suffixes (ascii_lib offline) (split_all " ") "Holding AG"
    = match kept with
      | [] => strip (ascii_lib offline) "Holding AG"
      | _ => strip (ascii_lib offline) (String.concat " " kept)
      end.
Proof.
  apply (strip_legal_suffixes_postcondition (ascii_lib offline) (split_all " ")
           "Holding AG").
  discriminate.
Defined.

Lemma rstrip_chars_end (cs s : string) (c : ascii) :
  in_chars c cs = true -> ends_with c (rstrip_chars cs s) = false.
Proof.
  intros Hc. induction s as [| d rest IH]; [reflexivity |].
  simpl. destruct (rstrip_chars cs rest) as [| k ks] eqn:Hr.
  - destruct (in_chars d cs) eqn:Hd; [reflexivity |].
    simpl. destruct (Ascii.eqb c d) eqn:E; [| reflexivity].
    apply Ascii.eqb_eq in E. subst d. congruence.
  - exact IH.
Qed.

Lemma mem_str_without (x : string) (p : string -> bool) (l : list string) :
  p x = true -> mem_str x l = mem_str x (List.filter p l).
Proof.
  intros Hx. unfold mem_str. induction l as [| s l IH]; [reflexivity |].
  simpl. destruct (p s) eqn:Hs; simpl; [now rewrite IH |].
  destruct (String.eqb x s) eqn:E; [| exact IH].
  apply String.eqb_eq in E. subst s. congruence.
Qed.

(** The entries of [LEGAL_SUFFIXES] that end with a full stop never
    match: the word is compared after its full stops have been
    stripped.  "inc." and its like are covered by their undotted
    forms, but "s.a.", "n.v.", "b.v." and "s.p.a." have none that the
    stripped word ("s.a", ...) could equal, so a trailing "S.A." is
    not removed. *)
Theorem dotted_suffixes_never_match (L : pylib) (part : string) :
  legal L part = mem_str (strip_chars ",. " (lower L part)) undotted /\
  undotted
  = [ "inc"; "corp"; "corporation"; "co"; "company"; "ltd"; "limited"; "llc"; "lp";
      "plc"; "ag"; "se"; "gmbh"; "kgaa"; "kg"; "ohg"; "ug"; "sa"; "nv"; "bv"; "ab";
      "oy"; "oyj"; "spa"; "sarl"; "sas"; "holding"; "holdings" ].
Proof.
  split; [| reflexivity].
  unfold legal, undotted. apply mem_str_without.
  unfold strip_chars. rewrite rstrip_chars_end; reflexivity.
Qed.

Lemma dedupe_spec (L : pylib) (req : list pyval) :
  forall (seen : gset string) (cleaned : list string),
    dedupe L seen req = Ok cleaned ->
    List.NoDup (List.map (lower L) cleaned) /\
    Forall (fun kk => kk <> "" /\ (lower L kk ∉ seen) /\
                      exists k, In k req /\ py_strip L k = Ok kk) cleaned /\
    (List.length cleaned <= List.length req)%nat.
Proof.
  induction req as [| k rest IH]; intros seen cleaned H; simpl in H.
  - injection H as <-. repeat split; constructor.
  - destruct (py_strip L k) as [kk | x] eqn:Hk; [simpl in H | discriminate H].
    assert (Hrest : forall seen' cs,
              Forall (fun kk => kk <> "" /\ (lower L kk ∉ seen') /\
                        exists k0, In k0 rest /\ py_strip L k0 = Ok kk) cs ->
              seen ⊆ seen' ->
              Forall (fun kk => kk <> "" /\ (lower L kk ∉ seen) /\
                        exists k0, In k0 (k :: rest) /\ py_strip L k0 = Ok kk) cs).
    { intros seen' cs Hcs Hsub. eapply Forall_impl; [exact Hcs |].
      intros c [Hc [Hn [k0 [Hin Hs]]]]. split; [exact Hc |]. split.
      - intros Hin'. apply Hn. now apply Hsub.
      - exists k0. split; [now right | exact Hs]. }
    destruct (negb (String.eqb kk "") && negb (bool_decide (lower L kk ∈ seen))) eqn:Hnew.
    + destruct (dedupe L ({[lower L kk]} ∪ seen) rest) as [cs | x] eqn:Hd;
        [simpl in H | discriminate H].
      injection H as <-.
      apply andb_prop in Hnew as [Hne Hseen].
      apply negb_true_iff, String.eqb_neq in Hne.
      apply negb_true_iff, bool_decide_eq_false in Hseen.
      destruct (IH _ _ Hd) as [Hnd [Hall Hlen]].
      split; [| split].
      * simpl. constructor; [| exact Hnd].
        intros Hin. apply in_map_iff in Hin as [c [Heq Hc]].
        rewrite List.Forall_forall in Hall. apply Hall in Hc.
        destruct Hc as [_ [Hn _]]. apply Hn.
        apply elem_of_union. left. apply elem_of_singleton. exact Heq.
      * constructor.
        -- split; [exact Hne |]. split; [exact Hseen |]. exists k. split; [now left | exact Hk].
        -- apply (Hrest ({[lower L kk]} ∪ seen)); [exact Hall |].
           intros z Hz. apply elem_of_union. now right.
      * simpl. lia.
    + destruct (IH _ _ H) as [Hnd [Hall Hlen]].
      split; [exact Hnd |]. split; [| simpl; lia].
      apply (Hrest seen); [exact Hall | intros z Hz; exact Hz].
Qed.

Lemma dedupe_keeps_one (L : pylib) (req : list pyval) (k : pyval) (kk : string) :
  forall (seen : gset string) (cleaned : list string),
    dedupe L seen req = Ok cleaned ->
    In k req -> py_strip L k = Ok kk -> kk <> "" ->
    cleaned <> [] \/ lower L kk ∈ seen.
Proof.
  induction req as [| k0 rest IH]; intros seen cleaned H Hin Hk Hkk; [destruct Hin |].
  simpl in H.
  destruct (py_strip L k0) as [kk0 | x] eqn:Hk0; [| discriminate H].
  cbv beta iota delta [rbind] in H.
  destruct (negb (String.eqb kk0 "") && negb (bool_decide (lower L kk0 ∈ seen))) eqn:Hnew.
  - destruct (dedupe L _ rest); [| discriminate H].
    injection H as <-. now left.
  - destruct Hin as [-> | Hin]; [| now apply (IH seen)].
    rewrite Hk in Hk0. injection Hk0 as <-.
    apply String.eqb_neq in Hkk. rewrite Hkk in Hnew. simpl in Hnew.
    apply negb_false_iff, bool_decide_eq_true in Hnew. now right.
Qed.

(** The keywords of [auto_keywords] are at most three, none is empty,
    no two are equal up to case, and there is at least one whenever
    the symbol is not blank: with such a symbol [run_once] always
    filters the headlines by keyword. *)
Theorem auto_keywords_are_clean (L : pylib) (meta : CompanyMeta) (symbol name : string)
  (cleaned : list string) :
  auto_keywords L meta symbol = Ok (name, cleaned) ->
  List.NoDup (List.map (lower L) cleaned) /\
  Forall (fun kk => kk <> "") cleaned /\
  (List.length cleaned <= 3)%nat /\
  (strip L symbol <> "" -> cleaned <> []).
Proof.
  unfold auto_keywords. intros H.
  destruct (py_strip L _) as [name0 | x]; [| discriminate H].
  cbv beta iota delta [rbind] in H.
  destruct (dedupe L ∅ _) as [cs | x] eqn:Hd; [| discriminate H].
  injection H as <- <-.
  destruct (dedupe_spec L _ _ _ Hd) as [Hnd [Hall Hlen]].
  split; [exact Hnd |]. split; [| split; [exact Hlen |]].
  - eapply Forall_impl; [exact Hall |]. now intros kk [Hkk _].
  - intros Hsym.
    destruct (dedupe_keeps_one L _ (PStr symbol) (strip L symbol) _ _ Hd) as [Hne | Hin];
      [simpl; auto | reflexivity | exact Hsym | exact Hne |].
    now apply not_elem_of_empty in Hin.
Qed.

Lemma auto_keywords_witness :
  List.NoDup (List.map (lower (ascii_lib offline)) ["Apple"; "AAPL"]) /\
  Forall (fun kk => kk <> "") ["Apple"; "AAPL"] /\
  (List.length ["Apple"; "AAPL"] <= 3)%nat /\
  (strip (ascii_lib offline) "AAPL" <> "" -> ["Apple"; "AAPL"] <> []).
Proof.
  apply (auto_keywords_are_clean (ascii_lib offline) apple "AAPL" "Apple" ["Apple"; "AAPL"]).
  reflexivity.
Defined.

(** ** The company cache *)

Lemma from_dict_asdict (meta : CompanyMeta) : from_dict (PDict (asdict meta)) = Ok meta.
Proof. destruct meta. reflexivity. Qed.

Lemma cached_after_store (d : gmap string pyval) (symbol : string) (meta : CompanyMeta) :
  py_in symbol (PDict (<[symbol := PDict (asdict meta)]> d)) = Ok true /\
  cached (PDict (<[symbol := PDict (asdict meta)]> d)) symbol = Some meta.
Proof.
  unfold py_in, cached. rewrite lookup_insert_eq, from_dict_asdict. split; reflexivity.
Qed.

(** Unlike [load_state], [_load_cache] does not test that the parsed
    file is an object: when the cache file holds any other JSON value
    (a list, a string, a number, null), [get_company_meta] raises for
    every symbol and leaves the file as it is, so the file is never
    repaired. *)
Theorem cache_must_be_an_object (L : pylib) (words : string -> list string)
  (CACHE_FILE : string) (info : gmap string pyval) (write : result unit)
  (truncates : bool) (symbol : string) (fs : filesystem) (v : pyval) :
  fs !! CACHE_FILE = Some (Json v) ->
  (forall d, v <> PDict d) ->
  exists x,
    get_company_meta L words CACHE_FILE info write truncates symbol fs = (Raise x, fs).
Proof.
  intros Hfile Hv. unfold get_company_meta, _load_cache, path_exists, read_json.
  rewrite Hfile.
  generalize (first_name L info ["longName"; "shortName"; "displayName"; "name"]).
  intros fn. simpl.
  destruct v as [| b | z | q | s | l | d]; simpl; eauto;
    [| | exfalso; now apply (Hv d)];
    (match goal with |- context [if ?hit then _ else _] => destruct hit end);
    simpl; destruct fn; eauto.
Qed.

Lemma cache_must_be_an_object_witness :
  exists x,
    get_company_meta (ascii_lib offline) (split_all " ") "company_cache.json" yahoo_apple
      (Ok tt) false "AAPL" {["company_cache.json" := Json (PList [])]}
    = (Raise x, {["company_cache.json" := Json (PList [])]}).
Proof.
  apply (cache_must_be_an_object (ascii_lib offline) (split_all " ") "company_cache.json"
           yahoo_apple (Ok tt) false "AAPL" {["company_cache.json" := Json (PList [])]}
           (PList [])).
  - reflexivity.
  - discriminate.
Defined.

(** What [get_company_meta] has answered once, it answers again: a
    second call on the file system the first one left returns the
    same record without looking at the Yahoo record and without
    writing, so a name that changes at the source is never picked
    up. *)
Theorem company_meta_is_sticky (L : pylib) (words : string -> list string)
  (CACHE_FILE : string) (info info' : gmap string pyval) (write write' : result unit)
  (truncates truncates' : bool)
  (symbol : string) (fs fs' : filesystem) (meta : CompanyMeta) :
  get_company_meta L words CACHE_FILE info write truncates symbol fs = (Ok meta, fs') ->
  get_company_meta L words CACHE_FILE info' write' truncates' symbol fs' = (Ok meta, fs').
Proof.
  unfold get_company_meta.
  generalize (first_name L info' ["longName"; "shortName"; "displayName"; "name"]).
  intros fn' H.
  destruct (_load_cache fs CACHE_FILE) as [cache | x] eqn:Hcache; [| discriminate H].
  destruct (py_in symbol cache) as [hit | x] eqn:Hin;
    [| discriminate H].
  destruct (if hit then cached cache symbol else None)
    as [m |] eqn:Hhit.
  - injection H as <- <-. now rewrite Hcache, Hin, Hhit.
  - destruct (first_name L info _) as [found | x]; [| discriminate H].
    destruct (set_item cache symbol _) as [cache' | x] eqn:Hset;
      [| discriminate H].
    destruct write as [[] | x]; [| discriminate H].
    injection H as <- <-.
    destruct cache as [| | | | | | d]; try discriminate Hset.
    injection Hset as <-.
    assert (Hload : _load_cache (<[CACHE_FILE := Json (PDict
                       (<[symbol := PDict (asdict (build_meta L words symbol found))]> d))]> fs)
                      CACHE_FILE
                    = Ok (PDict (<[symbol := PDict (asdict (build_meta L words symbol found))]> d))).
    { unfold _load_cache, path_exists, read_json. now rewrite lookup_insert_eq. }
    destruct (cached_after_store d symbol (build_meta L words symbol found)) as [Hpy Hc].
    rewrite Hload. cbv zeta. now rewrite Hpy, Hc.
Qed.

Lemma company_meta_is_sticky_witness :
  get_company_meta (ascii_lib offline) (split_all " ") "company_cache.json" yahoo_other
    (Raise OSError) true "AAPL"
    {["company_cache.json" := Json (PDict {["AAPL" := PDict (asdict apple)]})]}
  = (Ok apple,
     {["company_cache.json" := Json (PDict {["AAPL" := PDict (asdict apple)]})]}).
Proof.
  apply (company_meta_is_sticky (ascii_lib offline) (split_all " ") "company_cache.json"
           yahoo_apple yahoo_other (Ok tt) (Raise OSError) false true "AAPL" ∅).
  vm_compute. reflexivity.
Defined.

(** ** Times of day, from the settings page to the gate *)

Lemma clock_faces_read_back : forallb reads_back clock_faces = true.
Proof. vm_compute. reflexivity. Qed.

Lemma valid_hm_clock_face (t : Z * Z) : valid_hm t -> In t clock_faces.
Proof.
  destruct t as [h m]. intros [[H1 H2] [H3 H4]]. cbn [fst snd] in *.
  unfold clock_faces. apply in_flat_map. exists (Z.to_nat h). split.
  - apply in_seq. lia.
  - apply in_map_iff. exists (Z.to_nat m). split.
    + f_equal; lia.
    + apply in_seq. lia.
Qed.

Lemma reads_back_spec (t : Z * Z) :
  valid_hm t ->
  hhmm_to_time (time_to_hhmm t) = Ok t /\ parse_hhmm (time_to_hhmm t) = Ok t.
Proof.
  intros Ht. apply valid_hm_clock_face in Ht.
  pose proof clock_faces_read_back as Hall.
  rewrite forallb_forall in Hall. specialize (Hall t Ht).
  unfold reads_back in Hall. destruct t as [h0 m0]. simpl in Hall.
  destruct (hhmm_to_time _) as [[h m] | x]; [| discriminate Hall].
  destruct (parse_hhmm _) as [[h' m'] | x]; [| discriminate Hall].
  apply andb_prop in Hall as [Hall H4]. apply andb_prop in Hall as [Hall H3].
  apply andb_prop in Hall as [H1 H2].
  apply Z.eqb_eq in H1, H2, H3, H4. now subst.
Qed.

(** A time of day that the settings page writes as "HH:MM" is read
    back unchanged by [hhmm_to_time], and a market-hours window saved
    by the page is always accepted by [is_market_hours]: the texts
    parse to the times that were chosen, and the check answers without
    raising, whatever the clock reads. *)
Theorem saved_window_is_accepted (opening closing : Z * Z) (active_days : list Z)
  (pause_on_closed : bool) (n : datetime) :
  valid_hm opening -> valid_hm closing ->
  hhmm_to_time (time_to_hhmm opening) = Ok opening /\
  hhmm_to_time (time_to_hhmm closing) = Ok closing /\
  exists b,
    is_market_hours_text (time_to_hhmm opening) (time_to_hhmm closing) active_days
      pause_on_closed n
    = Ok b /\
    is_market_hours
      (SchemaA {| mh_open := opening; mh_close := closing;
                  mh_active_days := active_days;
                  mh_pause_on_closed := pause_on_closed |}) n
    = Ok b.
Proof.
  intros Ho Hc. unfold is_market_hours_text.
  destruct (reads_back_spec _ Ho) as [-> ->]. destruct (reads_back_spec _ Hc) as [-> ->].
  split; [reflexivity |]. split; [reflexivity |].
  simpl. destruct pause_on_closed; simpl; [| eauto].
  destruct (window_a_spec
              {| mh_open := opening; mh_close := closing; mh_active_days := active_days;
                 mh_pause_on_closed := true |} n Ho Hc) as [b [Hb _]].
  exists b. auto.
Qed.

Lemma saved_window_witness :
  hhmm_to_time (time_to_hhmm (9, 30)) = Ok (9, 30) /\
  hhmm_to_time (time_to_hhmm (16, 0)) = Ok (16, 0) /\
  exists b,
    is_market_hours_text (time_to_hhmm (9, 30)) (time_to_hhmm (16, 0)) [1; 2; 3; 4; 5]
      true noon
    = Ok b /\
    is_market_hours
      (SchemaA {| mh_open := (9, 30); mh_close := (16, 0);
                  mh_active_days := [1; 2; 3; 4; 5];
                  mh_pause_on_closed := true |}) noon
    = Ok b.
Proof.
  apply (saved_window_is_accepted (9, 30) (16, 0) [1; 2; 3; 4; 5] true noon);
    unfold valid_hm; simpl; lia.
Defined.

(** The two schemas of [is_market_hours] do not describe the same
    window: for whole hours [s] to [e], Monday to Friday, schema B is
    open only where schema A is, and schema A is open where schema B
    is closed at one instant, the close hour sharp (schema A includes
    it, schema B compares [n.hour < end_hour]). *)
Theorem schemas_differ_only_at_close (s e : Z) (n : datetime) :
  valid_datetime n -> 0 <= s <= 23 -> 0 <= e <= 23 ->
  exists ra rb,
    is_market_hours (SchemaA (hours_a s e)) n = Ok ra /\
    is_market_hours (SchemaB (hours_b s e)) n = Ok rb /\
    (rb = true -> ra = true) /\
    (ra = true -> rb = false -> time_of_day n = hm_time (e, 0)).
Proof.
  intros [Hh [Hm [Hs Hus]]] Hs23 He23.
  assert (Ho : valid_hm (mh_open (hours_a s e))) by (unfold valid_hm; simpl; lia).
  assert (Hc : valid_hm (mh_close (hours_a s e))) by (unfold valid_hm; simpl; lia).
  destruct (window_a_spec (hours_a s e) n Ho Hc) as [ra [Hra Hiff]].
  exists ra, (if 5 <=? weekday n then false
              else (s <=? dt_hour n) && (dt_hour n <? e)).
  split; [exact Hra |].
  split; [simpl; now destruct (5 <=? weekday n) |].
  assert (Hwd : 0 <= weekday n < 7) by (unfold weekday; apply Z.mod_pos_bound; lia).
  assert (Hdays : In (weekday n + 1) [1; 2; 3; 4; 5] <-> weekday n < 5).
  { simpl. lia. }
  unfold hm_time, time_of_day in *. simpl in Hiff. simpl.
  destruct (5 <=? weekday n) eqn:Hwk; simpl.
  - split; [discriminate |]. intros Hra1 _. apply Z.leb_le in Hwk.
    apply Hiff in Hra1 as [[Hd | Hd] _]; [discriminate Hd |].
    apply Hdays in Hd. lia.
  - apply Z.leb_gt in Hwk. split.
    + intros Hb. apply andb_prop in Hb as [H1 H2].
      apply Z.leb_le in H1. apply Z.ltb_lt in H2.
      apply Hiff. split; [right; apply Hdays; lia | lia].
    + intros Hra1 Hb. apply Hiff in Hra1 as [_ Hwin].
      apply andb_false_iff in Hb as [Hb | Hb].
      * apply Z.leb_gt in Hb. lia.
      * apply Z.ltb_ge in Hb. lia.
Qed.

Lemma schemas_differ_witness :
  exists ra rb,
    is_market_hours (SchemaA (hours_a 9 16)) (wednesday 16 0 0 0) = Ok ra /\
    is_market_hours (SchemaB (hours_b 9 16)) (wednesday 16 0 0 0) = Ok rb /\
    (rb = true -> ra = true) /\
    (ra = true -> rb = false -> time_of_day (wednesday 16 0 0 0) = hm_time (16, 0)).
Proof.
  apply (schemas_differ_only_at_close 9 16 (wednesday 16 0 0 0));
    unfold valid_datetime; simpl; lia.
Defined.
